(** * IBGPT retrieval core: a shallow embedding and its verified properties

    The development follows the Python sources

    - [config/collections.py]                     (collection registry)
    - [core/retrieval.py]                         (retriever and merger)
    - [utils/chromadb_utils.py]                   (store access)
    - [tools/context_retriever.py]                (the [retrieve_context] tool)
    - [agents/multi_agent_system_no_tools.py]     (router, fallback classifier,
                                                   inline merger and formatter)

    Python values are embedded as follows.  A [str] is a [string] whose
    characters are read as code points below 256; a [float] is a primitive
    IEEE-754 binary64 [float]; a [dict] with string keys is an association
    list in insertion order; an exception is a value of the [Raise] branch
    of [result].  Output written with [print] is not part of the model. *)

From Stdlib Require Import List String Ascii Bool Arith ZArith Lia.
From Stdlib Require Import Floats Permutation Sorted DecimalString DecimalNat.
Import ListNotations.
Local Open Scope string_scope.
Local Open Scope list_scope.

Set Implicit Arguments.
Local Set Warnings "-register-all".

(* ================================================================== *)
(** ** Python strings *)
(* ================================================================== *)

Module PyStr.

(** [str.lower] on one code point below 256: the ASCII capitals and the
    Latin-1 capitals U+00C0..U+00DE (without the multiplication sign
    U+00D7) move up by 32. *)
Definition lower_char (c : ascii) : ascii :=
  let n := nat_of_ascii c in
  if ((65 <=? n) && (n <=? 90))%nat then ascii_of_nat (n + 32)
  else if ((192 <=? n) && (n <=? 222) && negb (n =? 215))%nat
       then ascii_of_nat (n + 32)
  else c.

Fixpoint lower (s : string) : string :=
  match s with
  | EmptyString => EmptyString
  | String c s' => String (lower_char c) (lower s')
  end.

(** [needle in hay] for two strings. *)
Fixpoint contains (needle hay : string) : bool :=
  match hay with
  | EmptyString => prefix needle EmptyString
  | String _ hay' => prefix needle hay || contains needle hay'
  end.

(** [str.isspace] on one code point below 256. *)
Definition is_space (c : ascii) : bool :=
  let n := nat_of_ascii c in
  (((9 <=? n) && (n <=? 13)) || ((28 <=? n) && (n <=? 32))
   || (n =? 133) || (n =? 160))%nat.

Definition is_empty (s : string) : bool :=
  match s with EmptyString => true | _ => false end.

(** [s.split()]: the maximal runs of non-space characters, in order.
    [tok] is the run being read. *)
Fixpoint split_from (s tok : string) : list string :=
  match s with
  | EmptyString => if is_empty tok then [] else [tok]
  | String c s' =>
      if is_space c
      then (if is_empty tok then split_from s' EmptyString
            else tok :: split_from s' EmptyString)
      else split_from s' (tok ++ String c EmptyString)
  end.

Definition split (s : string) : list string := split_from s EmptyString.

(** [sep.join(parts)]. *)
Definition join (sep : string) (parts : list string) : string :=
  String.concat sep parts.

(** [s.split("/")[-1]]: what follows the last slash. *)
Fixpoint last_segment_from (s seg : string) : string :=
  match s with
  | EmptyString => seg
  | String c s' =>
      if Ascii.eqb c "/"%char then last_segment_from s' EmptyString
      else last_segment_from s' (seg ++ String c EmptyString)
  end.

Definition last_segment (s : string) : string :=
  last_segment_from s EmptyString.

(** [s[:n]]. *)
Fixpoint take (n : nat) (s : string) : string :=
  match n, s with
  | S n', String c s' => String c (take n' s')
  | _, _ => EmptyString
  end.

(** [str(n)] for a natural number. *)
Definition of_nat (n : nat) : string :=
  NilEmpty.string_of_uint (Nat.to_uint n).

End PyStr.

(* ================================================================== *)
(** ** Python values, dictionaries, exceptions *)
(* ================================================================== *)

(** The values that travel through the retrieval core: JSON values of a
    classification and metadata values of the store. *)
Inductive pyval : Type :=
| PNone
| PBool (b : bool)
| PInt (z : Z)
| PFloat (f : float)
| PStr (s : string)
| PList (items : list pyval)
| PDict (entries : list (string * pyval)).

(** A [dict] with [str] keys, in insertion order. *)
Definition dict : Type := list (string * pyval).

(** [bool(v)]. *)
Definition truthy (v : pyval) : bool :=
  match v with
  | PNone => false
  | PBool b => b
  | PInt z => negb (z =? 0)%Z
  | PFloat f => negb (f =? 0)%float
  | PStr s => negb (PyStr.is_empty s)
  | PList items => match items with [] => false | _ => true end
  | PDict entries => match entries with [] => false | _ => true end
  end.

(** [v == s] for a string literal [s]. *)
Definition eq_str (v : pyval) (s : string) : bool :=
  match v with
  | PStr t => String.eqb t s
  | _ => false
  end.

Fixpoint dict_lookup (k : string) (d : dict) : option pyval :=
  match d with
  | [] => None
  | (k', v) :: d' => if String.eqb k' k then Some v else dict_lookup k d'
  end.

(** [d.get(k, default)] and [d.get(k)]. *)
Definition dict_get_default (d : dict) (k : string) (default : pyval) : pyval :=
  match dict_lookup k d with
  | Some v => v
  | None => default
  end.

Definition dict_get (d : dict) (k : string) : pyval :=
  dict_get_default d k PNone.

(** [k in d]. *)
Definition dict_mem (k : string) (d : dict) : bool :=
  match dict_lookup k d with Some _ => true | None => false end.

(** [d[k] = v]: an existing key keeps its position, a new key goes last. *)
Fixpoint dict_set (k : string) (v : pyval) (d : dict) : dict :=
  match d with
  | [] => [(k, v)]
  | (k', v') :: d' =>
      if String.eqb k' k then (k', v) :: d' else (k', v') :: dict_set k v d'
  end.

Definition dict_keys (d : dict) : list string := map fst d.
Definition dict_values (d : dict) : list pyval := map snd d.

(** A raised exception, with its message. *)
Inductive exn : Type := Exception (msg : string).

Inductive result (A : Type) : Type :=
| Ok (a : A)
| Raise (e : exn).

Arguments Ok {A} a.
Arguments Raise {A} e.

Definition bind {A B : Type} (r : result A) (k : A -> result B) : result B :=
  match r with
  | Ok a => k a
  | Raise e => Raise e
  end.

Notation "x <- r ;; k" := (bind r (fun x => k))
  (at level 61, r at next level, right associativity).

Definition is_ok {A : Type} (r : result A) : bool :=
  match r with Ok _ => true | Raise _ => false end.

(** [xs[0]]. *)
Definition index0 {A : Type} (xs : list A) : result A :=
  match xs with
  | x :: _ => Ok x
  | [] => Raise (Exception "list index out of range")
  end.

(* ================================================================== *)
(** ** config/collections.py *)
(* ================================================================== *)

Definition COLLECTIONS : list (string * string) :=
  [ ("ib_general", "General IBDP programme information");
    ("ia_guides", "Internal Assessment guides by subject");
    ("ia_examples", "Example IAs with scores and feedback");
    ("mark_schemes", "Mark schemes for past papers");
    ("syllabus", "Subject syllabi and curriculum guides") ].

Definition COLLECTION_METRICS : list (string * string) :=
  [ ("ib_general", "cosine"); ("ia_guides", "cosine");
    ("ia_examples", "cosine"); ("mark_schemes", "cosine");
    ("syllabus", "cosine") ].

Definition DOC_TYPE_TO_COLLECTION : list (string * string) :=
  [ ("ia_guide", "ia_guides");
    ("ia_example", "ia_examples");
    ("mark_scheme", "mark_schemes");
    ("syllabus", "syllabus");
    ("general_info", "ib_general") ].

(** The registry of collection names: the keys of [COLLECTIONS], which
    are the collections [scripts/setup_collections.py] creates. *)
Definition registry : list string := map fst COLLECTIONS.

Definition registered (name : string) : bool :=
  existsb (String.eqb name) registry.

Fixpoint assoc (k : string) (table : list (string * string)) : option string :=
  match table with
  | [] => None
  | (k', v) :: table' => if String.eqb k' k then Some v else assoc k table'
  end.

(* ================================================================== *)
(** ** agents/multi_agent_system_no_tools.py: classifier fallback, router *)
(* ================================================================== *)

(** [any(term in text for term in terms)]. *)
Definition any_term_in (terms : list string) (text : string) : bool :=
  existsb (fun term => PyStr.contains term text) terms.

(** [MultiAgentSystem._fallback_classification]. *)
Definition _fallback_classification (query : string) : dict :=
  let query_lower := PyStr.lower query in
  let classification : dict :=
    [ ("query_type", PStr "general_info");
      ("subject", PNone);
      ("level", PNone);
      ("search_terms", PList (map PStr (firstn 5 (PyStr.split query)))) ] in
  (* Detect query type *)
  let classification :=
    if any_term_in ["ia"; "internal assessment"] query_lower
    then dict_set "query_type" (PStr "ia_feedback") classification
    else if any_term_in ["exam"; "question"; "paper"; "solve"] query_lower
    then dict_set "query_type" (PStr "exam_question") classification
    else classification in
  (* Extract subject *)
  let classification :=
    if PyStr.contains "math" query_lower
    then
      if PyStr.contains "aa" query_lower || PyStr.contains "analysis" query_lower
      then dict_set "subject" (PStr "Mathematics AA") classification
      else if PyStr.contains "ai" query_lower
              || PyStr.contains "applications" query_lower
      then dict_set "subject" (PStr "Mathematics AI") classification
      else dict_set "subject" (PStr "Mathematics AA") classification
    else classification in
  (* Extract level *)
  let classification :=
    if PyStr.contains "hl" query_lower
       || PyStr.contains "higher level" query_lower
    then dict_set "level" (PStr "HL") classification
    else if PyStr.contains "sl" query_lower
            || PyStr.contains "standard level" query_lower
    then dict_set "level" (PStr "SL") classification
    else classification in
  classification.

(** The collection choice of [MultiAgentSystem._retrieve_context]
    (the statements under "Determine which collections to search"). *)
Definition route_collections (classification : dict) : list string :=
  let query_type :=
    dict_get_default classification "query_type" (PStr "general_info") in
  if eq_str query_type "ia_feedback" then ["ia_guides"; "ia_examples"]
  else if eq_str query_type "exam_question" then ["mark_schemes"; "general_info"]
  else ["ib_general"; "syllabus"].

(** The filter construction of [MultiAgentSystem._retrieve_context]
    (the statements under "Build metadata filter"). *)
Definition classification_filter (classification : dict) : dict :=
  let metadata_filter : dict := [] in
  let metadata_filter :=
    if truthy (dict_get classification "subject")
    then dict_set "subject" (dict_get classification "subject") metadata_filter
    else metadata_filter in
  let metadata_filter :=
    if truthy (dict_get classification "level")
    then dict_set "level" (dict_get classification "level") metadata_filter
    else metadata_filter in
  metadata_filter.

(* ================================================================== *)
(** ** The document store boundary (ChromaDB) *)
(* ================================================================== *)

(** A [where] argument of [collection.query], as the retriever builds it:
    [{key: {"$eq": value}}] and [{"$and": [clause, ...]}]. *)
Inductive where_clause : Type :=
| WEq (key : string) (value : pyval)
| WAnd (clauses : list where_clause).

(** The answer of [collection.query] for one query text: one inner list
    per query text, in three parallel fields. *)
Record QueryResult : Type := mkQueryResult {
  documents : list (list string);
  metadatas : list (list (option dict));
  distances : list (list float)
}.

(** A collection answers [query(query_texts=[q], n_results=n, where=w)];
    a client answers [get_collection(name)].  Both may raise. *)
Definition Collection : Type :=
  string -> Z -> option where_clause -> result QueryResult.

Definition ChromaClient : Type := string -> result Collection.

(** [utils/chromadb_utils.py]. *)
Definition get_collection (client : ChromaClient) (collection_name : string)
  : result Collection :=
  client collection_name.

Definition query_collection (collection : Collection) (query_text : string)
    (n_results : Z) (where_ : option where_clause) : result QueryResult :=
  collection query_text n_results where_.

(** What the store means by a [where] clause: equality on a metadata key,
    and conjunction. *)
Fixpoint where_holds (w : where_clause) (m : option dict) : Prop :=
  match w with
  | WEq k v => exists d, m = Some d /\ dict_lookup k d = Some v
  | WAnd ws =>
      (fix all (ws : list where_clause) : Prop :=
         match ws with
         | [] => True
         | w' :: ws' => where_holds w' m /\ all ws'
         end) ws
  end.

(** A store honours its [where] argument when every metadata it returns
    satisfies the clause it was given. *)
Definition honours_where (client : ChromaClient) : Prop :=
  forall name coll q n w r,
    client name = Ok coll ->
    coll q n (Some w) = Ok r ->
    Forall (Forall (where_holds w)) (metadatas r).

(* ================================================================== *)
(** ** core/retrieval.py *)
(* ================================================================== *)

Local Open Scope float_scope.

Record ScoredDocument : Type := mkDoc {
  content : string;
  metadata : option dict;
  distance : float;
  relevance : float
}.

Fixpoint zip3 {A B C : Type} (xs : list A) (ys : list B) (zs : list C)
  : list (A * B * C) :=
  match xs, ys, zs with
  | x :: xs', y :: ys', z :: zs' => (x, y, z) :: zip3 xs' ys' zs'
  | _, _, _ => []
  end.

(** "Convert metadata filter to ChromaDB format" in [retrieve_documents]. *)
Definition where_of_filter (metadata_filter : option dict)
  : option where_clause :=
  match metadata_filter with
  | None => None
  | Some f =>
      if (0 <? List.length f)%nat then
        if (1 <? List.length f)%nat then
          Some (WAnd (map (fun kv => WEq (fst kv) (snd kv)) f))
        else
          match f with
          | (key, value) :: _ => Some (WEq key value)
          | [] => None
          end
      else None
  end.

Definition scored (row : string * option dict * float) : ScoredDocument :=
  let '(doc, meta, dist) := row in
  {| content := doc; metadata := meta; distance := dist;
     relevance := 1 - dist |}.

Definition retrieve_documents (client : ChromaClient)
    (collection_name query : string) (metadata_filter : option dict)
    (n_results : Z) : result (list ScoredDocument) :=
  collection <- get_collection client collection_name ;;
  let where_filter := where_of_filter metadata_filter in
  results <- query_collection collection query n_results where_filter ;;
  match documents results with
  | ((_ :: _) as docs0) :: _ =>
      metas0 <- index0 (metadatas results) ;;
      dists0 <- index0 (distances results) ;;
      Ok (map scored (zip3 docs0 metas0 dists0))
  | _ => Ok []
  end.

Definition retrieve_by_type (client : ChromaClient) (doc_type query : string)
    (metadata_filter : option dict) (n_results : Z)
  : result (list ScoredDocument) :=
  match assoc doc_type DOC_TYPE_TO_COLLECTION with
  | Some collection_name =>
      if PyStr.is_empty collection_name
      then Raise (Exception ("Unknown document type: " ++ doc_type))
      else retrieve_documents client collection_name query metadata_filter
             n_results
  | None => Raise (Exception ("Unknown document type: " ++ doc_type))
  end.

(** [list.sort(key=relevance, reverse=True)]: a stable sort into
    descending key order that compares with [<] only.  On keys without
    NaN the stable descending arrangement is unique, so this insertion
    sort and Python's sort agree there.  With a NaN among the keys [<]
    is no order, and where Python's sort leaves the documents depends on
    the sorting algorithm: this model says nothing of that case, and
    every statement on the order of a ranking assumes [comparable]. *)
Fixpoint insert_desc (x : ScoredDocument) (l : list ScoredDocument)
  : list ScoredDocument :=
  match l with
  | [] => [x]
  | y :: l' =>
      if relevance x <? relevance y then y :: insert_desc x l'
      else x :: y :: l'
  end.

Definition sort_by_relevance (l : list ScoredDocument) : list ScoredDocument :=
  fold_right insert_desc [] l.

(** The loop shared by [multi_collection_search] and
    [MultiAgentSystem._retrieve_context]: results of a collection are
    appended, a raised exception is caught and the collection skipped. *)
Definition gather (fetch : string -> result (list ScoredDocument))
    (collections : list string) : list ScoredDocument :=
  fold_left
    (fun all_results collection_name =>
       match fetch collection_name with
       | Ok results => all_results ++ results
       | Raise _ => all_results
       end)
    collections [].

Definition multi_collection_search (client : ChromaClient)
    (collections : list string) (query : string)
    (metadata_filter : option dict) (n_results_per_collection : Z)
  : list ScoredDocument :=
  let all_results :=
    gather (fun collection_name =>
              retrieve_documents client collection_name query metadata_filter
                n_results_per_collection)
           collections in
  sort_by_relevance all_results.

(* ================================================================== *)
(** ** Rendering: tools/context_retriever.py and the agent's formatter *)
(* ================================================================== *)

(** The two renderings the formatters take from Python itself: a float
    under the format [.2f], and [str(v)] of a value that is not a [str]. *)
Class PyBuiltins : Type := {
  format_2f : float -> string;
  repr_other : pyval -> string
}.

Local Open Scope string_scope.

Definition nl : string := String (ascii_of_nat 10) EmptyString.

Definition NO_DOCUMENTS_TOOL : string :=
  "No relevant documents found for the query.".

Definition NO_DOCUMENTS_AGENT : string := "No relevant documents found.".

(** "Truncate very long content": [content[:500] + "..."] above 500
    characters. *)
Definition truncate_content (content : string) : string :=
  if (500 <? String.length content)%nat
  then PyStr.take 500 content ++ "..."
  else content.

Section Rendering.

Context {builtins : PyBuiltins}.

(** A value inside an f-string. *)
Definition str_of (v : pyval) : string :=
  match v with
  | PStr s => s
  | _ => repr_other v
  end.

(** [Source: {metadata['source'].split('/')[-1]}]; only a [str] has
    [split]. *)
Definition source_line (meta : dict) : result string :=
  if truthy (dict_get meta "source") then
    match dict_get meta "source" with
    | PStr s => Ok ("Source: " ++ PyStr.last_segment s ++ nl)
    | _ => Raise (Exception "AttributeError: object has no attribute 'split'")
    end
  else Ok "".

Definition field_line (label key : string) (meta : dict) : string :=
  if truthy (dict_get meta key)
  then label ++ ": " ++ str_of (dict_get meta key) ++ nl
  else "".

(** [doc.get("metadata")] is truthy for a dict with an entry. *)
Definition present_metadata (doc : ScoredDocument) : option dict :=
  match metadata doc with
  | Some ((_ :: _) as meta) => Some meta
  | _ => None
  end.

(** One pass of the loop of [retrieve_context] (tool), for the document
    at index [i]. *)
Definition tool_entry (i : nat) (doc : ScoredDocument) : result string :=
  provenance <-
    match present_metadata doc with
    | Some meta =>
        source <- source_line meta ;;
        Ok (source ++ field_line "Subject" "subject" meta
                   ++ field_line "Section" "section" meta)
    | None => Ok ""
    end ;;
  Ok ("[Document " ++ PyStr.of_nat (i + 1) ++ "]" ++ nl
      ++ provenance
      ++ "Content: " ++ truncate_content (content doc) ++ nl
      ++ "Relevance: " ++ format_2f (relevance doc) ++ nl ++ nl).

(** One pass of the loop of [MultiAgentSystem._retrieve_context]. *)
Definition agent_entry (i : nat) (doc : ScoredDocument) : result string :=
  provenance <-
    match present_metadata doc with
    | Some meta =>
        source <- source_line meta ;;
        Ok (source ++ field_line "Subject" "subject" meta)
    | None => Ok ""
    end ;;
  Ok (nl ++ "[Document " ++ PyStr.of_nat (i + 1) ++ "]" ++ nl
      ++ provenance
      ++ "Content: " ++ truncate_content (content doc) ++ nl
      ++ "Relevance: " ++ format_2f (relevance doc) ++ nl).

(** [for i, doc in enumerate(docs): text += entry(i, doc)], counting
    from [i]. *)
Fixpoint render_entries (entry : nat -> ScoredDocument -> result string)
    (i : nat) (docs : list ScoredDocument) : result string :=
  match docs with
  | [] => Ok ""
  | doc :: docs' =>
      first <- entry i doc ;;
      rest <- render_entries entry (S i) docs' ;;
      Ok (first ++ rest)
  end.

(** "Format results as context" in [retrieve_context] (tool). *)
Definition format_tool_context (results : list ScoredDocument)
  : result string :=
  match results with
  | [] => Ok NO_DOCUMENTS_TOOL
  | _ =>
      entries <- render_entries tool_entry 0 results ;;
      Ok ("RELEVANT CONTEXT:" ++ nl ++ nl ++ entries)
  end.

(** The filter of [retrieve_context] (tool): only truthy arguments
    enter it. *)
Definition add_if_given (key : string) (arg : option string) (f : dict)
  : dict :=
  match arg with
  | Some s => if PyStr.is_empty s then f else dict_set key (PStr s) f
  | None => f
  end.

Definition tool_filter (doc_type subject level : option string) : dict :=
  add_if_given "doc_type" doc_type
    (add_if_given "level" level
       (add_if_given "subject" subject [])).

(** [doc_type and doc_type in DOC_TYPE_TO_COLLECTION], with the
    collection it selects. *)
Definition known_collection (doc_type : option string) : option string :=
  match doc_type with
  | Some t => if PyStr.is_empty t then None else assoc t DOC_TYPE_TO_COLLECTION
  | None => None
  end.

(** The documents [retrieve_context] (tool) formats. *)
Definition tool_results (client : ChromaClient) (query : string)
    (doc_type subject level : option string) (n_results : Z)
  : result (list ScoredDocument) :=
  let metadata_filter := tool_filter doc_type subject level in
  match known_collection doc_type with
  | Some collection_name =>
      retrieve_documents client collection_name query (Some metadata_filter)
        n_results
  | None =>
      let collections_to_search := map snd DOC_TYPE_TO_COLLECTION in
      Ok (multi_collection_search client collections_to_search query
            (Some metadata_filter) 2)
  end.

(** [tools/context_retriever.py: retrieve_context]. *)
Definition retrieve_context (client : ChromaClient) (query : string)
    (doc_type subject level : option string) (n_results : Z)
  : result string :=
  results <- tool_results client query doc_type subject level n_results ;;
  format_tool_context results.

(** [sep.join(v)] for a value [v]: the items of a list must be [str],
    a [str] gives its characters, a dict its keys. *)
Fixpoint str_items (items : list pyval) : result (list string) :=
  match items with
  | [] => Ok []
  | PStr s :: items' => rest <- str_items items' ;; Ok (s :: rest)
  | _ :: _ => Raise (Exception "TypeError: sequence item: expected str")
  end.

Fixpoint chars (s : string) : list string :=
  match s with
  | EmptyString => []
  | String c s' => String c EmptyString :: chars s'
  end.

Definition py_join (sep : string) (v : pyval) : result string :=
  match v with
  | PList items => parts <- str_items items ;; Ok (PyStr.join sep parts)
  | PStr s => Ok (PyStr.join sep (chars s))
  | PDict entries => Ok (PyStr.join sep (map fst entries))
  | _ => Raise (Exception "TypeError: can only join an iterable")
  end.

(** The documents [MultiAgentSystem._retrieve_context] gathers, before
    sorting. *)
Definition agent_results (client : ChromaClient) (search_query : string)
    (classification : dict) : list ScoredDocument :=
  let metadata_filter := classification_filter classification in
  let collections := route_collections classification in
  gather (fun collection_name =>
            retrieve_documents client collection_name search_query
              (match metadata_filter with [] => None | _ => Some metadata_filter end)
              3)
         collections.

(** [MultiAgentSystem._retrieve_context]. *)
Definition _retrieve_context (client : ChromaClient) (query : string)
    (classification : dict) : result string :=
  search_query <-
    py_join " "
      (dict_get_default classification "search_terms"
         (PList (map PStr (firstn 5 (PyStr.split query))))) ;;
  let all_results := agent_results client search_query classification in
  match all_results with
  | [] => Ok NO_DOCUMENTS_AGENT
  | _ =>
      let all_results := sort_by_relevance all_results in
      render_entries agent_entry 0 (firstn 5 all_results)
  end.

(** Step 2 of [MultiAgentSystem.process_query]: an exception of the
    retrieval becomes the sentinel. *)
Definition retrieval_step (client : ChromaClient) (query : string)
    (classification : dict) : string :=
  match _retrieve_context client query classification with
  | Ok context => context
  | Raise _ => NO_DOCUMENTS_AGENT
  end.

End Rendering.

(* ================================================================== *)
(** ** An in-memory store *)
(* ================================================================== *)

(** A store kept as a table: per collection its rows (content, metadata,
    distance to the query), nearest first.  It filters by the [where]
    clause and cuts at [n_results]; a collection that is not in the table
    raises, as [client.get_collection] does. *)
Module MemStore.

Definition row : Type := (string * option dict * float)%type.
Definition table : Type := list (string * list row).

(** Equality of the scalar values a metadata entry can hold. *)
Definition scalar_eqb (v w : pyval) : bool :=
  match v, w with
  | PStr s, PStr t => String.eqb s t
  | PInt a, PInt b => (a =? b)%Z
  | PBool a, PBool b => Bool.eqb a b
  | _, _ => false
  end.

Fixpoint matches (w : where_clause) (m : option dict) : bool :=
  match w with
  | WEq k v =>
      match m with
      | Some d =>
          match dict_lookup k d with
          | Some v' => scalar_eqb v' v
          | None => false
          end
      | None => false
      end
  | WAnd ws =>
      (fix all (ws : list where_clause) : bool :=
         match ws with
         | [] => true
         | w' :: ws' => matches w' m && all ws'
         end) ws
  end.

Definition admits (w : option where_clause) (r : row) : bool :=
  match w with
  | Some w => matches w (snd (fst r))
  | None => true
  end.

Definition collection (rows : list row) : Collection :=
  fun _ n_results w =>
    let hits := firstn (Z.to_nat n_results) (filter (admits w) rows) in
    Ok {| documents := [map (fun r => fst (fst r)) hits];
          metadatas := [map (fun r => snd (fst r)) hits];
          distances := [map snd hits] |}.

Fixpoint client (db : table) : ChromaClient :=
  fun name =>
    match db with
    | [] => Raise (Exception ("Collection " ++ name ++ " does not exist."))
    | (name', rows) :: db' =>
        if String.eqb name' name then Ok (collection rows)
        else client db' name
    end.

End MemStore.

(* ================================================================== *)
(** ** The order of binary64 keys *)
(* ================================================================== *)

(** Comparison of floats through their specification: every float that
    is not NaN has a rank in a lexicographic order on triples of
    integers; [<?] is the strict order of ranks and [=?] their equality
    (the two zeros share a rank). *)
Module FloatOrder.

Local Open Scope Z_scope.

Definition rank_sf (f : spec_float) : Z * Z * Z :=
  match f with
  | S754_nan => (0, 0, 0)
  | S754_zero _ => (0, 0, 0)
  | S754_infinity true => (-2, 0, 0)
  | S754_infinity false => (2, 0, 0)
  | S754_finite true m e => (-1, - e, - Zpos m)
  | S754_finite false m e => (1, e, Zpos m)
  end.

Definition lex_lt (a b : Z * Z * Z) : Prop :=
  let '(a1, a2, a3) := a in
  let '(b1, b2, b3) := b in
  a1 < b1 \/ (a1 = b1 /\ (a2 < b2 \/ (a2 = b2 /\ a3 < b3))).

Definition rank (x : float) : Z * Z * Z := rank_sf (Prim2SF x).

Definition ordered (x : float) : Prop := is_nan x = false.

(** [a >= b] on ranks. *)
Definition lex_ge (a b : Z * Z * Z) : Prop := ~ lex_lt a b.

End FloatOrder.

(* ================================================================== *)
(** ** Vocabulary of the statements *)
(* ================================================================== *)

(** [a] may stand before [b] in descending order of relevance. *)
Definition precedes (a b : ScoredDocument) : Prop :=
  (relevance a <? relevance b)%float = false.

Definition descending (l : list ScoredDocument) : Prop :=
  StronglySorted precedes l.

(** No relevance is NaN. *)
Definition comparable (l : list ScoredDocument) : Prop :=
  Forall (fun d => FloatOrder.ordered (relevance d)) l.

(** Equal relevance, as [==] on floats sees it. *)
Definition same_score (a b : ScoredDocument) : Prop :=
  (relevance a =? relevance b)%float = true.

Definition scored_as (r : float) (d : ScoredDocument) : bool :=
  (relevance d =? r)%float.

(** Documents of equal relevance are one and the same document. *)
Definition distinct_scores (l : list ScoredDocument) : Prop :=
  forall a b, In a l -> In b l -> same_score a b -> a = b.

(** The rank of a document's relevance. *)
Definition score_rank (d : ScoredDocument) : Z * Z * Z :=
  FloatOrder.rank (relevance d).

(** A token without whitespace. *)
Definition spaceless (t : string) : Prop :=
  forall c, In c (list_ascii_of_string t) -> PyStr.is_space c = false.

(** A word as [str.split] gives it: not empty and without whitespace. *)
Definition is_token (t : string) : Prop := t <> EmptyString /\ spaceless t.

(** [sum(len(w) + 1 for w in words)]. *)
Fixpoint size_of (words : list string) : Z :=
  match words with
  | [] => 0%Z
  | w :: words' => (Z.of_nat (String.length w) + 1 + size_of words')%Z
  end.

(** What a collection contributes to a merge. *)
Definition contribution (fetch : string -> result (list ScoredDocument))
    (collection_name : string) : list ScoredDocument :=
  match fetch collection_name with
  | Ok results => results
  | Raise _ => []
  end.

(** The keyword tables of the fallback classifier. *)
Definition TYPE_IA_TERMS : list string := ["ia"; "internal assessment"].
Definition TYPE_EXAM_TERMS : list string := ["exam"; "question"; "paper"; "solve"].

(** No keyword of any table occurs in the lowercased query. *)
Definition no_keyword (query : string) : Prop :=
  let q := PyStr.lower query in
  any_term_in TYPE_IA_TERMS q = false /\
  any_term_in TYPE_EXAM_TERMS q = false /\
  PyStr.contains "math" q = false /\
  any_term_in ["hl"; "higher level"; "sl"; "standard level"] q = false.

(** The metadata [m] has the entry [kv]. *)
Definition has_entry (m : option dict) (kv : string * pyval) : Prop :=
  exists d, m = Some d /\ dict_lookup (fst kv) d = Some (snd kv).

(** The [source] a formatter would print is a [str]. *)
Definition well_sourced (doc : ScoredDocument) : Prop :=
  match present_metadata doc with
  | Some meta =>
      truthy (dict_get meta "source") = true ->
      exists s, dict_get meta "source" = PStr s
  | None => True
  end.

(* ================================================================== *)
(** ** Sample stores *)
(* ================================================================== *)

Module Samples.

Definition entry_of (source doc_type subject level : string) : option dict :=
  Some [ ("source", PStr source); ("doc_type", PStr doc_type);
         ("subject", PStr subject); ("level", PStr level);
         ("chunk_index", PInt 0) ].

(** Two collections of IA material. *)
Definition ia_store : MemStore.table :=
  [ ("ia_guides",
     [ ("Physics HL guide", entry_of "docs/physics_hl.pdf" "ia_guide" "Physics" "HL", 0.25%float);
       ("Physics SL guide", entry_of "docs/physics_sl.pdf" "ia_guide" "Physics" "SL", 0.5%float);
       ("Chemistry HL guide", entry_of "docs/chemistry_hl.pdf" "ia_guide" "Chemistry" "HL", 1.5%float) ]);
    ("ia_examples",
     [ ("Physics HL example", entry_of "docs/example.pdf" "ia_example" "Physics" "HL", 0.375%float) ]) ].


(** The five registered collections, two rows each. *)
Definition pair_of_rows (doc_type : string) (near far : float)
  : list MemStore.row :=
  [ ("first", entry_of "a.pdf" doc_type "Physics" "HL", near);
    ("second", entry_of "b.pdf" doc_type "Physics" "SL", far) ].

Definition full_store : MemStore.table :=
  [ ("ib_general", pair_of_rows "general_info" 0.125%float 0.25%float);
    ("ia_guides", pair_of_rows "ia_guide" 0.25%float 0.375%float);
    ("ia_examples", pair_of_rows "ia_example" 0.375%float 0.5%float);
    ("mark_schemes", pair_of_rows "mark_scheme" 0.5%float 0.625%float);
    ("syllabus", pair_of_rows "syllabus" 0.625%float 0.75%float) ].

(** A content of [n] characters. *)
Fixpoint filler (n : nat) : string :=
  match n with
  | O => EmptyString
  | S n' => String "x"%char (filler n')
  end.

(** Renderings to run the formatters on samples: every float prints as
    [0.00] and every value that is not a [str] as [?]. *)
Definition printing : PyBuiltins :=
  {| format_2f := fun _ => "0.00"; repr_other := fun _ => "?" |}.


End Samples.

(* ================================================================== *)
(** ** config/metadata.py *)
(* ================================================================== *)

Definition VALID_SUBJECTS : list string :=
  [ "General"; "Mathematics AA"; "Mathematics AI"; "Physics"; "Chemistry";
    "Biology"; "English"; "Spanish"; "French"; "Economics"; "History";
    "Psychology"; "Computer Science"; "Business Management";
    "Environmental Systems and Societies"; "Theory of Knowledge";
    "Extended Essay" ].

Definition VALID_LEVELS : list string := ["HL"; "SL"; "Core"].

Definition VALID_DOC_TYPES : list string :=
  ["ia_guide"; "ia_example"; "mark_scheme"; "syllabus"; "general_info"].

(** [create_metadata]: the five base fields, then each optional field
    that is truthy. *)
Definition create_metadata (source doc_type subject : string)
    (level year topic section : option string) (chunk_index : Z)
    (headers : string) : dict :=
  let metadata : dict :=
    [ ("source", PStr source); ("doc_type", PStr doc_type);
      ("subject", PStr subject); ("chunk_index", PInt chunk_index);
      ("headers", PStr headers) ] in
  let metadata := add_if_given "level" level metadata in
  let metadata := add_if_given "year" year metadata in
  let metadata := add_if_given "topic" topic metadata in
  let metadata := add_if_given "section" section metadata in
  metadata.

(* ================================================================== *)
(** ** core/chunker.py *)
(* ================================================================== *)

(** The loop of [GeneralChunker.chunk] over the words still to read,
    with the chunk being filled and its size. *)
Fixpoint chunk_words (max_chunk_size : Z) (words current_chunk : list string)
    (current_size : Z) : list string :=
  match words with
  | [] =>
      match current_chunk with
      | [] => []
      | _ => [PyStr.join " " current_chunk]
      end
  | word :: words' =>
      let word_size := (Z.of_nat (String.length word) + 1)%Z in
      if (max_chunk_size <? current_size + word_size)%Z
         && match current_chunk with [] => false | _ => true end
      then PyStr.join " " current_chunk
             :: chunk_words max_chunk_size words' [word] word_size
      else chunk_words max_chunk_size words' (current_chunk ++ [word])%list
             (current_size + word_size)%Z
  end.

(** [GeneralChunker.chunk]. *)
Definition GeneralChunker_chunk (max_chunk_size : Z) (text : string)
  : list string :=
  chunk_words max_chunk_size (PyStr.split text) [] 0%Z.

(** The chunkers that split with regular expressions
    ([IAGuideChunker], [MarkSchemeChunker], [SyllabusChunker]) and the
    header search of [_extract_section_info] are taken as given. *)
Class RegexParts : Type := {
  IAGuideChunker_chunk : Z -> string -> list string;
  MarkSchemeChunker_chunk : Z -> string -> list string;
  SyllabusChunker_chunk : Z -> string -> list string;
  findall_headers : string -> list string
}.

Section Ingestion.

Context {regex : RegexParts}.

(** [SmartIBChunker.chunkers], for one [max_chunk_size]. *)
Definition chunkers (max_chunk_size : Z)
  : list (string * (string -> list string)) :=
  [ ("ia_guide", IAGuideChunker_chunk max_chunk_size);
    ("ia_example", GeneralChunker_chunk max_chunk_size);
    ("mark_scheme", MarkSchemeChunker_chunk max_chunk_size);
    ("syllabus", SyllabusChunker_chunk max_chunk_size);
    ("general_info", GeneralChunker_chunk max_chunk_size) ].

Fixpoint chunker_for (doc_type : string)
    (table : list (string * (string -> list string)))
  : option (string -> list string) :=
  match table with
  | [] => None
  | (k, chunker) :: table' =>
      if String.eqb k doc_type then Some chunker else chunker_for doc_type table'
  end.

(** [SmartIBChunker.chunk_by_type]. *)
Definition chunk_by_type (max_chunk_size : Z) (text doc_type : string)
  : list string :=
  let chunker :=
    match chunker_for doc_type (chunkers max_chunk_size) with
    | Some chunker => chunker
    | None => GeneralChunker_chunk max_chunk_size
    end in
  chunker text.

(* ================================================================== *)
(** ** core/document_processor.py *)
(* ================================================================== *)

(** [IBDocumentProcessor._get_collection_name]. *)
Definition _get_collection_name (doc_type : string) : string :=
  match assoc doc_type DOC_TYPE_TO_COLLECTION with
  | Some collection_name => collection_name
  | None => "ib_general"
  end.

(** [IBDocumentProcessor._extract_section_info]. *)
Definition _extract_section_info (chunk doc_type : string) : dict :=
  let headers := findall_headers chunk in
  let header_str :=
    match headers with
    | [] => ""
    | _ => PyStr.join "; " headers
    end in
  [ ("headers", PStr header_str);
    ("char_count", PInt (Z.of_nat (String.length chunk)));
    ("word_count", PInt (Z.of_nat (List.length (PyStr.split chunk)))) ].

Definition opt_str (arg : option string) : pyval :=
  match arg with
  | Some s => PStr s
  | None => PNone
  end.

(** [{**d, **extra}]. *)
Definition dict_update (d extra : dict) : dict :=
  fold_left (fun acc kv => dict_set (fst kv) (snd kv) acc) extra d.

Definition is_not_none (kv : string * pyval) : bool :=
  match snd kv with
  | PNone => false
  | _ => true
  end.

(** The metadata [process_document] gives the chunk at index [i]:
    the dict literal, with its [None] values removed. *)
Definition chunk_metadata (filepath doc_type subject : string)
    (level year topic section : option string) (i : nat) (chunk : string)
  : dict :=
  let section_info := _extract_section_info chunk doc_type in
  let metadata :=
    dict_update
      [ ("source", PStr filepath); ("doc_type", PStr doc_type);
        ("subject", PStr subject); ("level", opt_str level);
        ("year", opt_str year); ("topic", opt_str topic);
        ("section", opt_str section); ("chunk_index", PInt (Z.of_nat i)) ]
      section_info in
  filter is_not_none metadata.

Definition chunk_id (filepath : string) (i : nat) : string :=
  filepath ++ "-chunk-" ++ PyStr.of_nat i.

(** What [process_document] has prepared for insertion. *)
Record Prepared : Type := mkPrepared {
  target : string;
  ids : list string;
  texts : list string;
  metas : list dict
}.

(** The loop of [process_document] over [enumerate(chunks)], counting
    from [i]. *)
Fixpoint prepare_from (filepath doc_type subject : string)
    (level year topic section : option string) (i : nat)
    (chunks : list string) : list string * list string * list dict :=
  match chunks with
  | [] => ([], [], [])
  | chunk :: chunks' =>
      let '(ids', texts', metas') :=
        prepare_from filepath doc_type subject level year topic section
          (S i) chunks' in
      (chunk_id filepath i :: ids', chunk :: texts',
       chunk_metadata filepath doc_type subject level year topic section
         i chunk :: metas')
  end.

(** [process_document], from the extracted text to the call that adds
    the chunks to the collection. *)
Definition process_document (text filepath doc_type subject : string)
    (level year topic section : option string) : Prepared :=
  let collection_name := _get_collection_name doc_type in
  let chunks := chunk_by_type 1000 text doc_type in
  let '(ids, documents, metadatas) :=
    prepare_from filepath doc_type subject level year topic section 0 chunks in
  {| target := collection_name; ids := ids; texts := documents;
     metas := metadatas |}.

End Ingestion.

(* ================================================================== *)
(** ** scripts/batch_ingest.py *)
(* ================================================================== *)

Definition FILENAME_PATTERNS : list (string * list string) :=
  [ ("ia_guide", ["ia_guide"; "internal_assessment"; "ia_criteria"]);
    ("mark_scheme", ["mark_scheme"; "markscheme"; "ms_"; "marking_scheme"]);
    ("syllabus", ["syllabus"; "curriculum"; "_guide_"]);
    ("ia_example", ["ia_example"; "sample_ia"; "exemplar"]) ].

Definition SUBJECT_PATTERNS : list (string * list string) :=
  [ ("Mathematics AA",
     [ "mathematics_analysis_and_approaches"; "math_aa"; "mathematics_aa";
       "analysis_approaches"; "maths_aa"; "mathematics aa"; "math aa";
       "analysis and approaches" ]);
    ("Mathematics AI",
     [ "mathematics_applications_and_interpretation"; "math_ai";
       "mathematics_ai"; "applications_interpretation"; "maths_ai";
       "mathematics ai"; "math ai"; "applications and interpretation" ]);
    ("Physics", ["physics"]);
    ("Chemistry", ["chemistry"; "chem"]);
    ("Biology", ["biology"; "bio"]);
    ("English", ["english"; "language_a"]);
    ("Economics", ["economics"; "econ"]);
    ("Psychology", ["psychology"; "psych"]);
    ("Computer Science", ["computer_science"; "cs"; "comp_sci"]);
    ("History", ["history"]);
    ("Business Management", ["business"; "management"]) ].

(** [for key, patterns in table.items(): if any(p in text ...): return key]. *)
Fixpoint first_pattern_match (table : list (string * list string))
    (text : string) : option string :=
  match table with
  | [] => None
  | (key, patterns) :: table' =>
      if any_term_in patterns text then Some key
      else first_pattern_match table' text
  end.

Definition detect_document_type (filename : string) : string :=
  let filename_lower := PyStr.lower filename in
  if PyStr.contains "paper_" filename_lower
     && negb (PyStr.contains "markscheme" filename_lower)
  then "general_info"
  else if PyStr.contains "markscheme" filename_lower
          || PyStr.contains "mark_scheme" filename_lower
  then "mark_scheme"
  else if PyStr.contains "guide" filename_lower
          && negb (PyStr.contains "ia" filename_lower)
  then "syllabus"
  else if PyStr.contains "formula" filename_lower
          && PyStr.contains "booklet" filename_lower
  then "general_info"
  else
    match first_pattern_match FILENAME_PATTERNS filename_lower with
    | Some doc_type => doc_type
    | None => "general_info"
    end.

Definition detect_subject (filename : string) : string :=
  let filename_lower := PyStr.lower filename in
  if PyStr.contains "mathematics_analysis_and_approaches" filename_lower
     || PyStr.contains "math_aa" filename_lower
  then "Mathematics AA"
  else if PyStr.contains "mathematics_applications_and_interpretation"
            filename_lower
          || PyStr.contains "math_ai" filename_lower
  then "Mathematics AI"
  else if PyStr.contains "mathematics" filename_lower
          || PyStr.contains "math" filename_lower
  then
    if any_term_in ["analysis"; "aa"] filename_lower then "Mathematics AA"
    else if any_term_in ["applications"; "ai"] filename_lower
    then "Mathematics AI"
    else "Mathematics AA"
  else
    match first_pattern_match SUBJECT_PATTERNS filename_lower with
    | Some subject => subject
    | None => "General"
    end.

Definition detect_level (filename : string) : option string :=
  let filename_lower := PyStr.lower filename in
  if PyStr.contains "hl" filename_lower
     || PyStr.contains "higher" filename_lower
  then Some "HL"
  else if PyStr.contains "sl" filename_lower
          || PyStr.contains "standard" filename_lower
  then Some "SL"
  else None.

(** [\d] on a code point below 256. *)
Definition is_digit (c : ascii) : bool :=
  let n := nat_of_ascii c in ((48 <=? n) && (n <=? 57))%nat.

(** [s[n:]]. *)
Fixpoint drop (n : nat) (s : string) : string :=
  match n, s with
  | S n', String _ s' => drop n' s'
  | _, _ => s
  end.

(** A match of [[MN]\d{2}] at the start of [s]. *)
Definition at_session (s : string) : bool :=
  match s with
  | String a (String b (String c _)) =>
      (Ascii.eqb a "M"%char || Ascii.eqb a "N"%char)
      && is_digit b && is_digit c
  | _ => false
  end.

(** A match of [20\d{2}] at the start of [s]. *)
Definition at_year (s : string) : bool :=
  match s with
  | String a (String b (String c (String d _))) =>
      Ascii.eqb a "2"%char && Ascii.eqb b "0"%char
      && is_digit c && is_digit d
  | _ => false
  end.

(** [re.search(pattern, s).group(0)] for a pattern that matches [width]
    characters wherever [here] holds: the leftmost match, if any. *)
Fixpoint re_search (here : string -> bool) (width : nat) (s : string)
  : option string :=
  match s with
  | EmptyString => None
  | String _ s' =>
      if here s then Some (PyStr.take width s) else re_search here width s'
  end.

Definition detect_year (filename : string) : option string :=
  match re_search at_session 3 filename with
  | Some session =>
      let year_suffix := drop 1 session in
      Some ("20" ++ year_suffix)
  | None =>
      match re_search at_year 4 filename with
      | Some year => Some year
      | None => None
      end
  end.

(* ================================================================== *)
(** ** agents/multi_agent_system_no_tools.py: the classifier's reply *)
(* ================================================================== *)

(** [s.find(c)] and [s.rfind(c)] for one character: the lowest and the
    highest index, or [-1]. *)
Fixpoint find_from (c : ascii) (s : string) (i : Z) : Z :=
  match s with
  | EmptyString => (-1)%Z
  | String x s' => if Ascii.eqb x c then i else find_from c s' (i + 1)%Z
  end.

Definition find (c : ascii) (s : string) : Z := find_from c s 0%Z.

Fixpoint rfind_from (c : ascii) (s : string) (i best : Z) : Z :=
  match s with
  | EmptyString => best
  | String x s' =>
      rfind_from c s' (i + 1)%Z (if Ascii.eqb x c then i else best)
  end.

Definition rfind (c : ascii) (s : string) : Z := rfind_from c s 0%Z (-1)%Z.

(** [s[start:stop]] for indices that are not negative. *)
Definition slice (s : string) (start stop : Z) : string :=
  PyStr.take (Z.to_nat (stop - start)) (drop (Z.to_nat start) s).

(** [json.loads] is taken as given. *)
Class Json : Type := {
  json_loads : string -> result pyval
}.

Section ClassifierReply.

Context {json : Json} {builtins : PyBuiltins}.

(** [MultiAgentSystem._parse_json_response]. *)
Definition _parse_json_response (response : string) : pyval :=
  let start := find "{"%char response in
  let end_ := (rfind "}"%char response + 1)%Z in
  if negb (start =? -1)%Z && negb (end_ =? 0)%Z then
    let json_str := slice response start end_ in
    match json_loads json_str with
    | Ok value => value
    | Raise _ => PNone
    end
  else PNone.

(** Step 1 of [MultiAgentSystem.process_query]: [reply] is what the fast
    agent returned, or the exception it raised. *)
Definition classify (reply : result string) (query : string) : pyval :=
  match reply with
  | Ok data =>
      let classification := _parse_json_response data in
      if truthy classification then classification
      else PDict (_fallback_classification query)
  | Raise _ => PDict (_fallback_classification query)
  end.

(** Step 2 of [MultiAgentSystem.process_query] on any value: only a dict
    has [get]; any exception becomes the sentinel. *)
Definition context_for (client : ChromaClient) (query : string)
    (classification : pyval) : string :=
  match classification with
  | PDict d => retrieval_step client query d
  | _ => NO_DOCUMENTS_AGENT
  end.

End ClassifierReply.

(* ================================================================== *)
(** ** agents/multi_agent_system.py: _parse_classification *)
(* ================================================================== *)

Definition is_lower_ascii (c : ascii) : bool :=
  let n := nat_of_ascii c in ((97 <=? n) && (n <=? 122))%nat.

Definition is_upper_ascii (c : ascii) : bool :=
  let n := nat_of_ascii c in ((65 <=? n) && (n <=? 90))%nat.

Definition upper_ascii (c : ascii) : ascii :=
  if is_lower_ascii c then ascii_of_nat (nat_of_ascii c - 32) else c.

(** [str.title] on ASCII text: a letter that follows a letter is
    lowered, any other letter is raised.  [title] is only applied to the
    names of [subjects], which are ASCII. *)
Fixpoint title_from (s : string) (previous_is_cased : bool) : string :=
  match s with
  | EmptyString => EmptyString
  | String c s' =>
      let c' :=
        if is_lower_ascii c
        then (if previous_is_cased then c else upper_ascii c)
        else if is_upper_ascii c
        then (if previous_is_cased then PyStr.lower_char c else c)
        else c in
      String c' (title_from s' (is_lower_ascii c || is_upper_ascii c))
  end.

Definition title (s : string) : string := title_from s false.

Definition subjects : list string :=
  ["mathematics aa"; "mathematics ai"; "physics"; "chemistry"].

(** [for subject in subjects: if subject in text: ...; break]. *)
Fixpoint first_contained (names : list string) (text : string)
  : option string :=
  match names with
  | [] => None
  | name :: names' =>
      if PyStr.contains name text then Some name
      else first_contained names' text
  end.

(** [MultiAgentSystem._parse_classification] of the agent with tools. *)
Definition _parse_classification (query classification_text : string)
  : dict :=
  let classification : dict :=
    [ ("query_type", PStr "general_info");
      ("subject", PNone);
      ("level", PNone);
      ("search_terms", PList (map PStr (firstn 5 (PyStr.split query)))) ] in
  let text_lower := PyStr.lower classification_text in
  let classification :=
    if PyStr.contains "ia" text_lower
       || PyStr.contains "internal assessment" text_lower
    then dict_set "query_type" (PStr "ia_feedback") classification
    else if PyStr.contains "exam" text_lower
            || PyStr.contains "paper" text_lower
    then dict_set "query_type" (PStr "exam_question") classification
    else classification in
  let classification :=
    match first_contained subjects text_lower with
    | Some subject => dict_set "subject" (PStr (title subject)) classification
    | None => classification
    end in
  let classification :=
    if PyStr.contains "hl" text_lower
    then dict_set "level" (PStr "HL") classification
    else if PyStr.contains "sl" text_lower
    then dict_set "level" (PStr "SL") classification
    else classification in
  classification.

(* ================================================================== *)
(** ** tools/ia_feedback.py and tools/exam_handler.py *)
(* ================================================================== *)

Section FeedbackTools.

(** Both modules import the name [retrieve_context] from
    [tools.context_retriever], where the decorator [@Tool] binds it to
    the object pydantic_ai makes of the function, not to the function.
    What the call expression
    [retrieve_context(context, query, doc_type=, subject=, level=, n_results=)]
    gives is therefore that object's doing: [call_retrieve_context] takes
    the arguments in this order and returns the call's value or the
    exception it raises.  A keyword left out is [None]. *)
Variable call_retrieve_context :
  string -> option string -> option string -> option string -> Z ->
  result string.

(** [provide_ia_feedback]. *)
Definition provide_ia_feedback (ia_text subject level : string)
  : result string :=
  let criteria_query := subject ++ " IA assessment criteria " ++ level in
  criteria_context <-
    call_retrieve_context criteria_query (Some "ia_guide") (Some subject)
      (Some level) 3 ;;
  let example_query := subject ++ " IA example high score" in
  example_context <-
    call_retrieve_context example_query (Some "ia_example") (Some subject)
      (Some level) 2 ;;
  let full_context :=
    nl ++ "ASSESSMENT CRITERIA:" ++ nl
    ++ criteria_context ++ nl
    ++ nl
    ++ "EXAMPLE IAS:" ++ nl
    ++ example_context ++ nl
    ++ nl
    ++ "STUDENT IA TO ASSESS:" ++ nl
    ++ PyStr.take 1000 ia_text ++ "...  # Truncate if too long" ++ nl in
  Ok (nl
      ++ "Based on the IB assessment criteria and example IAs, please provide feedback on this student's IA." ++ nl
      ++ nl
      ++ full_context ++ nl
      ++ nl
      ++ "Please structure your feedback by:" ++ nl
      ++ "1. Identifying strengths according to IB criteria" ++ nl
      ++ "2. Suggesting areas for improvement" ++ nl
      ++ "3. Estimating a score range based on the criteria" ++ nl
      ++ "4. Providing specific recommendations for enhancement" ++ nl).

(** [solve_exam_question]; its argument [paper] is not used. *)
Definition solve_exam_question (question subject level : string)
  : result string :=
  let paper_query :=
    subject ++ " " ++ level ++ " exam question similar to: " ++ question in
  past_paper_context <-
    call_retrieve_context paper_query (Some "general_info") (Some subject)
      (Some level) 3 ;;
  let mark_scheme_query :=
    subject ++ " " ++ level ++ " mark scheme " ++ PyStr.take 50 question in
  mark_scheme_context <-
    call_retrieve_context mark_scheme_query (Some "mark_scheme")
      (Some subject) (Some level) 3 ;;
  formula_context <-
    (if PyStr.contains "math" (PyStr.lower subject)
     then call_retrieve_context "mathematics formula booklet"
            (Some "general_info") None None 2
     else Ok "") ;;
  let full_context :=
    nl ++ "SIMILAR PAST PAPER QUESTIONS:" ++ nl
    ++ past_paper_context ++ nl
    ++ nl
    ++ "RELEVANT MARK SCHEMES:" ++ nl
    ++ mark_scheme_context ++ nl in
  let full_context :=
    if PyStr.is_empty formula_context then full_context
    else full_context ++ nl ++ "FORMULA BOOKLET REFERENCES:" ++ nl
         ++ formula_context in
  let full_context :=
    full_context ++ nl ++ "QUESTION TO SOLVE:" ++ nl ++ question in
  Ok (nl
      ++ "Based on IB past papers and mark schemes, please solve this exam question." ++ nl
      ++ nl
      ++ full_context ++ nl
      ++ nl
      ++ "Please structure your answer following IB mark scheme format:" ++ nl
      ++ "1. Show clear working/reasoning" ++ nl
      ++ "2. State the method being used" ++ nl
      ++ "3. Present calculations step by step" ++ nl
      ++ "4. Box or clearly state the final answer" ++ nl
      ++ "5. Indicate mark allocation for each step" ++ nl).

End FeedbackTools.

(* ================================================================== *)
(** ** agents/multi_agent_system_no_tools.py: the answer *)
(* ================================================================== *)

(** [s.strip()]. *)
Fixpoint lstrip (s : string) : string :=
  match s with
  | EmptyString => EmptyString
  | String c s' => if PyStr.is_space c then lstrip s' else s
  end.

Fixpoint rstrip (s : string) : string :=
  match s with
  | EmptyString => EmptyString
  | String c s' =>
      let r := rstrip s' in
      if PyStr.is_empty r && PyStr.is_space c then EmptyString
      else String c r
  end.

Definition strip (s : string) : string := lstrip (rstrip s).

Definition THINK_OPEN : string := "<think>".
Definition THINK_CLOSE : string := "</think>".

(** The matches of [<think>(.*?)</think>] with [re.DOTALL], read from
    left to right: at an opening tag that some closing tag follows, the
    match runs to the first closing tag.  [skip] counts the characters
    of a tag still to pass, [inside] is the text captured since the
    opening tag.  The result is the text outside the matches and the
    captured texts. *)
Fixpoint think_scan (s : string) (skip : nat) (inside : option string)
  : string * list string :=
  match s with
  | EmptyString => (EmptyString, [])
  | String c s' =>
      match skip with
      | S k => think_scan s' k inside
      | O =>
          match inside with
          | Some captured =>
              if prefix THINK_CLOSE s
              then let '(main, thoughts) := think_scan s' 7 None in
                   (main, captured :: thoughts)
              else think_scan s' 0 (Some (captured ++ String c EmptyString))
          | None =>
              if prefix THINK_OPEN s && PyStr.contains THINK_CLOSE (drop 7 s)
              then think_scan s' 6 (Some EmptyString)
              else let '(main, thoughts) := think_scan s' 0 None in
                   (String c main, thoughts)
          end
      end
  end.

(** [MultiAgentSystem._parse_thinking]. *)
Definition _parse_thinking (text : string) : string * string :=
  let '(main, thinking_matches) := think_scan text 0 None in
  let main_content := strip main in
  let thinking_content :=
    match thinking_matches with
    | [] => ""
    | _ => PyStr.join nl thinking_matches
    end in
  (main_content, thinking_content).

Section Answer.

Context {json : Json} {builtins : PyBuiltins}.


End Answer.

(* ================================================================== *)
(** ** More vocabulary *)
(* ================================================================== *)

(** The character [c] does not occur in [s]. *)
Definition lacks (c : ascii) (s : string) : Prop :=
  ~ In c (list_ascii_of_string s).

(** What an optional [str] argument contributes when it is truthy. *)
Definition given (arg : option string) : option pyval :=
  match arg with
  | Some s => if PyStr.is_empty s then None else Some (PStr s)
  | None => None
  end.

(** A reply of the classifier that cannot hold a JSON object: the agent
    raised, or its text lacks a brace. *)
Definition unusable (reply : result string) : Prop :=
  match reply with
  | Raise _ => True
  | Ok data => lacks "{"%char data \/ lacks "}"%char data
  end.

(** A store that returns at most [n_results] documents per query. *)
Definition honours_cap (client : ChromaClient) : Prop :=
  forall name coll q n w r,
    client name = Ok coll ->
    coll q n w = Ok r ->
    Forall (fun docs => (List.length docs <= Z.to_nat n)%nat) (documents r).

(** No tie straddles the cut at [K]: no document among the first [K] of
    the ranking has the relevance of a document after them. *)
Definition no_tie_at_cut (K : nat) (ranking : list ScoredDocument) : Prop :=
  forall a b, In a (firstn K ranking) -> In b (skipn K ranking) ->
              ~ same_score a b.



(** The pattern matches nowhere in [s]. *)
Definition no_match (here : string -> bool) (s : string) : Prop :=
  forall before rest, s = (before ++ rest)%string -> here rest = false.

(** The pattern matches at no position of [before ++ rest] that lies in
    [before]: a match at the start of [rest] is the leftmost one. *)
Definition no_match_before (here : string -> bool) (before rest : string)
  : Prop :=
  forall p1 p2, before = (p1 ++ p2)%string -> p2 <> EmptyString ->
                here (p2 ++ rest)%string = false.

(* ================================================================== *)
(** ** More sample data *)
(* ================================================================== *)

Module MoreSamples.

(** Regular-expression parts to run the ingestion on samples: the three
    chunkers give the whole text as one chunk, and no header is found. *)
Definition whole_text : RegexParts :=
  {| IAGuideChunker_chunk := fun _ text => [text];
     MarkSchemeChunker_chunk := fun _ text => [text];
     SyllabusChunker_chunk := fun _ text => [text];
     findall_headers := fun _ => [] |}.

(** A classifier reply parser that accepts nothing. *)
Definition no_parser : Json :=
  {| json_loads := fun _ => Raise (Exception "Expecting value") |}.

(** Two collections with ties across them: the nearest documents of both
    are at the same distance, and so are the farthest. *)
Definition tied_store : MemStore.table :=
  [ ("ia_guides",
     [ ("Guide 1", Samples.entry_of "g1.pdf" "ia_guide" "Physics" "HL", 0.125%float);
       ("Guide 2", Samples.entry_of "g2.pdf" "ia_guide" "Physics" "HL", 0.25%float);
       ("Guide 3", Samples.entry_of "g3.pdf" "ia_guide" "Physics" "HL", 0.5%float) ]);
    ("ia_examples",
     [ ("Example 1", Samples.entry_of "e1.pdf" "ia_example" "Physics" "HL", 0.125%float);
       ("Example 2", Samples.entry_of "e2.pdf" "ia_example" "Physics" "HL", 0.375%float);
       ("Example 3", Samples.entry_of "e3.pdf" "ia_example" "Physics" "HL", 0.5%float) ]) ].

(** The merge of [tied_store] over the collections in the given order. *)
Definition tied_ranking (collections : list string) : list ScoredDocument :=
  multi_collection_search (MemStore.client tied_store) collections
    "criteria" None 3.

(** A call on an object that is not callable. *)
Definition not_callable
  : string -> option string -> option string -> option string -> Z ->
    result string :=
  fun _ _ _ _ _ => Raise (Exception "TypeError: 'Tool' object is not callable").

End MoreSamples.

(* ################################################################## *)
(** * Properties *)
(* ################################################################## *)

(* ================================================================== *)
(** ** Facts about the order of binary64 keys *)
(* ================================================================== *)

Module FloatOrderFacts.

Import FloatOrder.
Local Open Scope Z_scope.

Ltac cases_compare :=
  repeat match goal with
    | |- context [Z.compare ?a ?b] =>
        destruct (Z.compare_spec a b); subst
    | |- context [Pos.compare_cont Eq ?a ?b] =>
        change (Pos.compare_cont Eq a b) with (Pos.compare a b);
        destruct (Pos.compare_spec a b); subst
    end.

Lemma SFltb_rank (f g : spec_float) :
  f <> S754_nan -> g <> S754_nan ->
  (SFltb f g = true <-> lex_lt (rank_sf f) (rank_sf g)).
Proof.
  intros Hf Hg. unfold SFltb, SFcompare.
  destruct f as [sf | sf | | sf mf ef], g as [sg | sg | | sg mg eg];
    try congruence;
    try destruct sf; try destruct sg; simpl; cases_compare; simpl;
    split; intros Hgoal; try discriminate; try reflexivity; try lia.
Qed.

Lemma SFeqb_rank (f g : spec_float) :
  f <> S754_nan -> g <> S754_nan ->
  (SFeqb f g = true <-> rank_sf f = rank_sf g).
Proof.
  intros Hf Hg. unfold SFeqb, SFcompare.
  destruct f as [sf | sf | | sf mf ef], g as [sg | sg | | sg mg eg];
    try congruence;
    try destruct sf; try destruct sg; simpl; cases_compare; simpl;
    split; intros Hgoal; try discriminate; try reflexivity;
    try (injection Hgoal; intros; lia).
Qed.

Lemma SFeqb_nan_l (g : spec_float) : SFeqb S754_nan g = false.
Proof. reflexivity. Qed.

Lemma SFeqb_nan_r (f : spec_float) : SFeqb f S754_nan = false.
Proof. destruct f as [ | | | ]; reflexivity. Qed.

Lemma SFltb_nan_r (f : spec_float) : SFltb f S754_nan = false.
Proof. destruct f as [ | | | ]; reflexivity. Qed.

Lemma ordered_spec (x : float) : ordered x <-> Prim2SF x <> S754_nan.
Proof.
  unfold ordered, is_nan. rewrite eqb_spec. split.
  - intros H E. rewrite E in H. discriminate.
  - intros H. apply negb_false_iff. apply SFeqb_rank; auto.
Qed.

Lemma ltb_rank (x y : float) :
  ordered x -> ordered y -> ((x <? y)%float = true <-> lex_lt (rank x) (rank y)).
Proof.
  intros Hx Hy. rewrite ltb_spec.
  apply SFltb_rank; apply ordered_spec; assumption.
Qed.

Lemma eqb_rank (x y : float) :
  ordered x -> ordered y -> ((x =? y)%float = true <-> rank x = rank y).
Proof.
  intros Hx Hy. rewrite eqb_spec.
  apply SFeqb_rank; apply ordered_spec; assumption.
Qed.

Lemma eqb_ordered (x y : float) :
  (x =? y)%float = true -> ordered x /\ ordered y.
Proof.
  rewrite eqb_spec. intros H. split; apply ordered_spec; intros E;
    rewrite E in H.
  - rewrite SFeqb_nan_l in H. discriminate.
  - rewrite SFeqb_nan_r in H. discriminate.
Qed.

Lemma ltb_ordered (x y : float) :
  (x <? y)%float = true -> ordered x /\ ordered y.
Proof.
  rewrite ltb_spec. intros H. split; apply ordered_spec; intros E;
    rewrite E in H.
  - discriminate.
  - rewrite SFltb_nan_r in H. discriminate.
Qed.

Lemma lex_lt_dec (a b : Z * Z * Z) : lex_lt a b \/ ~ lex_lt a b.
Proof. destruct a as [[a1 a2] a3], b as [[b1 b2] b3]. unfold lex_lt. lia. Qed.

Lemma lex_ge_trans (a b c : Z * Z * Z) :
  lex_ge a b -> lex_ge b c -> lex_ge a c.
Proof.
  destruct a as [[a1 a2] a3], b as [[b1 b2] b3], c as [[c1 c2] c3].
  unfold lex_ge, lex_lt. lia.
Qed.

Lemma lex_ge_antisym (a b : Z * Z * Z) : lex_ge a b -> lex_ge b a -> a = b.
Proof.
  destruct a as [[a1 a2] a3], b as [[b1 b2] b3].
  unfold lex_ge, lex_lt. intros H1 H2.
  assert (a1 = b1 /\ a2 = b2 /\ a3 = b3) as (-> & -> & ->) by lia.
  reflexivity.
Qed.

Lemma lex_lt_neq (a b : Z * Z * Z) : lex_lt a b -> a <> b.
Proof.
  destruct a as [[a1 a2] a3], b as [[b1 b2] b3].
  unfold lex_lt. intros H E. injection E. lia.
Qed.

Lemma not_ltb_rank (x y : float) :
  ordered x -> ordered y ->
  ((x <? y)%float = false <-> lex_ge (rank x) (rank y)).
Proof.
  intros Hx Hy. unfold lex_ge. rewrite <- (ltb_rank Hx Hy).
  destruct (x <? y)%float; split; congruence.
Qed.

End FloatOrderFacts.

(* ================================================================== *)
(** ** The stable descending sort *)
(* ================================================================== *)

Section SortFacts.

Import FloatOrder FloatOrderFacts.
Local Open Scope list_scope.

Lemma precedes_trans (a b c : ScoredDocument) :
  ordered (relevance b) -> precedes a b -> precedes b c -> precedes a c.
Proof.
  unfold precedes. intros Hb Hab Hbc.
  destruct (relevance a <? relevance c)%float eqn:Hac; [exfalso | reflexivity].
  destruct (ltb_ordered Hac) as [Ha Hc].
  apply (ltb_rank Ha Hc) in Hac.
  apply (not_ltb_rank Ha Hb) in Hab. apply (not_ltb_rank Hb Hc) in Hbc.
  exact (lex_ge_trans Hab Hbc Hac).
Qed.

Lemma ltb_asym (x y : float) : (x <? y)%float = true -> (y <? x)%float = false.
Proof.
  intros H. destruct (ltb_ordered H) as [Hx Hy].
  apply (ltb_rank Hx Hy) in H. apply (not_ltb_rank Hy Hx).
  destruct (rank x) as [[a1 a2] a3], (rank y) as [[b1 b2] b3].
  unfold lex_ge, lex_lt in *. lia.
Qed.

Lemma tie_excludes_lt (x y r : float) :
  (x =? r)%float = true -> (x <? y)%float = true -> (y =? r)%float = false.
Proof.
  intros Hxr Hxy. destruct (y =? r)%float eqn:Hyr; [exfalso | reflexivity].
  destruct (eqb_ordered Hxr) as [Hx Hr].
  destruct (eqb_ordered Hyr) as [Hy _].
  apply (eqb_rank Hx Hr) in Hxr. apply (eqb_rank Hy Hr) in Hyr.
  apply (ltb_rank Hx Hy) in Hxy. apply lex_lt_neq in Hxy. congruence.
Qed.

Lemma insert_desc_perm (x : ScoredDocument) (l : list ScoredDocument) :
  Permutation (insert_desc x l) (x :: l).
Proof.
  induction l as [ | y l IH]; simpl.
  - apply Permutation_refl.
  - destruct (relevance x <? relevance y)%float.
    + apply Permutation_trans with (y :: x :: l).
      * apply perm_skip, IH.
      * apply perm_swap.
    + apply Permutation_refl.
Qed.

Lemma sort_by_relevance_perm (l : list ScoredDocument) :
  Permutation (sort_by_relevance l) l.
Proof.
  induction l as [ | x l IH]; simpl.
  - apply perm_nil.
  - apply Permutation_trans with (x :: sort_by_relevance l).
    + apply insert_desc_perm.
    + apply perm_skip, IH.
Qed.

Lemma insert_desc_descending (x : ScoredDocument) (l : list ScoredDocument) :
  comparable l -> descending l -> descending (insert_desc x l).
Proof.
  unfold descending, comparable.
  induction l as [ | y l IH]; simpl; intros Hc Hs.
  - constructor; constructor.
  - inversion Hc as [ | ? ? Hy Hc']; subst.
    inversion Hs as [ | ? ? Hs' Hall]; subst.
    destruct (relevance x <? relevance y)%float eqn:Hxy.
    + constructor.
      * apply IH; assumption.
      * apply (Permutation_Forall (Permutation_sym (insert_desc_perm x l))).
        constructor; [ | assumption].
        unfold precedes. apply ltb_asym, Hxy.
    + constructor; [assumption | ].
      constructor; [exact Hxy | ].
      apply Forall_forall. intros z Hz.
      apply precedes_trans with y; [assumption | exact Hxy | ].
      rewrite Forall_forall in Hall. apply Hall, Hz.
Qed.

Lemma comparable_perm (l l' : list ScoredDocument) :
  Permutation l l' -> comparable l -> comparable l'.
Proof. intros Hp. apply Permutation_Forall, Hp. Qed.

Lemma sort_by_relevance_descending (l : list ScoredDocument) :
  comparable l -> descending (sort_by_relevance l).
Proof.
  induction l as [ | x l IH]; simpl; intros Hc.
  - constructor.
  - inversion Hc; subst. apply insert_desc_descending.
    + apply comparable_perm with l; [ | assumption].
      apply Permutation_sym, sort_by_relevance_perm.
    + apply IH; assumption.
Qed.

Lemma insert_desc_stable (r : float) (x : ScoredDocument)
    (l : list ScoredDocument) :
  filter (scored_as r) (insert_desc x l) = filter (scored_as r) (x :: l).
Proof.
  induction l as [ | y l IH]; [reflexivity | ].
  simpl insert_desc.
  destruct (relevance x <? relevance y)%float eqn:Hxy; [ | reflexivity].
  change (filter (scored_as r) (y :: insert_desc x l))
    with (if scored_as r y then y :: filter (scored_as r) (insert_desc x l)
          else filter (scored_as r) (insert_desc x l)).
  rewrite IH. simpl.
  destruct (scored_as r x) eqn:Hxr; [ | reflexivity].
  unfold scored_as in Hxr.
  replace (scored_as r y) with false; [reflexivity | ].
  symmetry. exact (tie_excludes_lt Hxr Hxy).
Qed.

Lemma sort_by_relevance_stable (r : float) (l : list ScoredDocument) :
  filter (scored_as r) (sort_by_relevance l) = filter (scored_as r) l.
Proof.
  induction l as [ | x l IH]; [reflexivity | ].
  simpl sort_by_relevance. rewrite insert_desc_stable.
  simpl. rewrite IH. reflexivity.
Qed.

(** Two sorted arrangements of the same elements coincide when the order
    is antisymmetric on them. *)
Lemma sorted_perm_unique (A : Type) (R : A -> A -> Prop) (l1 l2 : list A) :
  (forall a b, In a l1 -> In b l1 -> R a b -> R b a -> a = b) ->
  StronglySorted R l1 -> StronglySorted R l2 -> Permutation l1 l2 -> l1 = l2.
Proof.
  revert l2. induction l1 as [ | a l1 IH]; intros l2 Hanti H1 H2 Hp.
  - apply Permutation_nil in Hp. congruence.
  - destruct l2 as [ | b l2].
    + apply Permutation_sym, Permutation_nil in Hp. discriminate.
    + inversion H1 as [ | ? ? H1' Ha]; subst.
      inversion H2 as [ | ? ? H2' Hb]; subst.
      rewrite Forall_forall in Ha, Hb.
      assert (Hab : a = b).
      { assert (Hin_a : In a (b :: l2))
          by (apply (Permutation_in _ Hp); left; reflexivity).
        assert (Hin_b : In b (a :: l1))
          by (apply (Permutation_in _ (Permutation_sym Hp)); left; reflexivity).
        destruct Hin_a as [E | Hin_a]; [congruence | ].
        destruct Hin_b as [E | Hin_b]; [congruence | ].
        apply Hanti.
        - left; reflexivity.
        - right; assumption.
        - apply Ha, Hin_b.
        - apply Hb, Hin_a. }
      subst b. f_equal. apply IH.
      * intros x y Hx Hy. apply Hanti; right; assumption.
      * assumption.
      * assumption.
      * apply Permutation_cons_inv with a. assumption.
Qed.

Lemma descending_ranks (l : list ScoredDocument) :
  comparable l -> descending l -> StronglySorted lex_ge (map score_rank l).
Proof.
  unfold comparable, descending.
  induction l as [ | a l IH]; simpl; intros Hc Hs.
  - constructor.
  - inversion Hc as [ | ? ? Ha Hc']; subst.
    inversion Hs as [ | ? ? Hs' Hall]; subst.
    constructor; [apply IH; assumption | ].
    apply Forall_forall. intros k Hk.
    apply in_map_iff in Hk. destruct Hk as (b & <- & Hb).
    rewrite Forall_forall in Hall, Hc'.
    apply (not_ltb_rank Ha (Hc' _ Hb)). apply Hall, Hb.
Qed.

Lemma equal_ranks_same_scores (l1 l2 : list ScoredDocument) :
  comparable l1 -> comparable l2 ->
  map score_rank l1 = map score_rank l2 -> Forall2 same_score l1 l2.
Proof.
  unfold comparable. revert l2.
  induction l1 as [ | a l1 IH]; intros [ | b l2] H1 H2 E;
    try discriminate; [constructor | ].
  inversion H1; subst. inversion H2; subst. simpl in E.
  injection E as Eab E'.
  constructor; [ | apply IH; assumption].
  unfold same_score. apply eqb_rank; assumption.
Qed.

(** Two descending arrangements of the same documents carry the same
    sequence of scores. *)
Lemma descending_perm_scores (l1 l2 : list ScoredDocument) :
  comparable l1 -> descending l1 -> descending l2 -> Permutation l1 l2 ->
  Forall2 same_score l1 l2.
Proof.
  intros Hc H1 H2 Hp.
  assert (Hc2 : comparable l2) by (apply comparable_perm with l1; assumption).
  apply equal_ranks_same_scores; try assumption.
  apply sorted_perm_unique with (R := lex_ge).
  - intros a b _ _. apply lex_ge_antisym.
  - apply descending_ranks; assumption.
  - apply descending_ranks; assumption.
  - apply Permutation_map, Hp.
Qed.

(** Without ties the descending arrangement is unique. *)
Lemma descending_perm_equal (l1 l2 : list ScoredDocument) :
  comparable l1 -> distinct_scores l1 ->
  descending l1 -> descending l2 -> Permutation l1 l2 -> l1 = l2.
Proof.
  intros Hc Hd H1 H2 Hp.
  apply sorted_perm_unique with (R := precedes); try assumption.
  intros a b Ha Hb Hab Hba. apply Hd; try assumption.
  unfold comparable in Hc. rewrite Forall_forall in Hc.
  unfold same_score.
  apply (eqb_rank (Hc _ Ha) (Hc _ Hb)).
  apply lex_ge_antisym.
  - apply (not_ltb_rank (Hc _ Ha) (Hc _ Hb)), Hab.
  - apply (not_ltb_rank (Hc _ Hb) (Hc _ Ha)), Hba.
Qed.

Lemma Forall2_firstn (A B : Type) (R : A -> B -> Prop) (n : nat)
    (l1 : list A) (l2 : list B) :
  Forall2 R l1 l2 -> Forall2 R (firstn n l1) (firstn n l2).
Proof.
  intros H. revert n. induction H; intros [ | n]; simpl; constructor; auto.
Qed.

Lemma lex_lt_total (a b : Z * Z * Z) : ~ lex_lt a b -> a <> b -> lex_lt b a.
Proof.
  destruct a as [[a1 a2] a3], b as [[b1 b2] b3]. unfold lex_lt.
  intros Hlt Hne.
  destruct (Z.eq_dec a1 b1) as [E1 | N1]; [ | lia].
  destruct (Z.eq_dec a2 b2) as [E2 | N2]; [ | lia].
  destruct (Z.eq_dec a3 b3) as [E3 | N3]; [ | lia].
  exfalso. apply Hne. congruence.
Qed.

Lemma sorted_app_between (A : Type) (R : A -> A -> Prop) (l1 l2 : list A) :
  StronglySorted R (l1 ++ l2) ->
  forall a b, In a l1 -> In b l2 -> R a b.
Proof.
  induction l1 as [ | x l1 IH]; intros Hs a b Ha Hb; [destruct Ha | ].
  simpl in Hs. inversion Hs as [ | ? ? Hs' Hall]; subst.
  destruct Ha as [<- | Ha].
  - rewrite Forall_forall in Hall. apply Hall, in_or_app. right. exact Hb.
  - apply IH; assumption.
Qed.

Lemma sorted_app_r (A : Type) (R : A -> A -> Prop) (l1 l2 : list A) :
  StronglySorted R (l1 ++ l2) -> StronglySorted R l2.
Proof.
  induction l1 as [ | x l1 IH]; intros Hs; [exact Hs | ].
  simpl in Hs. inversion Hs; subst. apply IH. assumption.
Qed.

Lemma filter_perm (A : Type) (p : A -> bool) (l l' : list A) :
  Permutation l l' -> Permutation (filter p l) (filter p l').
Proof.
  induction 1 as [ | x l l' Hp IH | x y l | l l' l'' H1 IH1 H2 IH2]; simpl.
  - apply perm_nil.
  - destruct (p x); [apply perm_skip | ]; exact IH.
  - destruct (p x), (p y); try apply Permutation_refl. apply perm_swap.
  - apply Permutation_trans with (filter p l'); assumption.
Qed.

Lemma filter_all (A : Type) (p : A -> bool) (l : list A) :
  (forall x, In x l -> p x = true) -> filter p l = l.
Proof.
  induction l as [ | x l IH]; intros H; [reflexivity | ]. simpl.
  rewrite (H x (or_introl eq_refl)). f_equal. apply IH.
  intros y Hy. apply H. right. exact Hy.
Qed.

Lemma filter_none (A : Type) (p : A -> bool) (l : list A) :
  (forall x, In x l -> p x = false) -> filter p l = [].
Proof.
  induction l as [ | x l IH]; intros H; [reflexivity | ]. simpl.
  rewrite (H x (or_introl eq_refl)). apply IH.
  intros y Hy. apply H. right. exact Hy.
Qed.

(** In a descending ranking the documents above a given relevance are a
    prefix. *)
Lemma above_is_prefix (m : ScoredDocument) (l : list ScoredDocument) :
  comparable l -> descending l ->
  let above := fun d => (relevance m <? relevance d)%float in
  filter above l = firstn (List.length (filter above l)) l.
Proof.
  unfold comparable, descending. cbv zeta.
  induction l as [ | x l IH]; intros Hc Hs; [reflexivity | ].
  inversion Hc as [ | ? ? Hx Hc']; subst.
  inversion Hs as [ | ? ? Hs' Hall]; subst.
  cbn [filter].
  destruct (relevance m <? relevance x)%float eqn:Hmx.
  - cbn [List.length firstn]. f_equal. apply IH; assumption.
  - rewrite filter_none; [reflexivity | ].
    intros y Hy. rewrite Forall_forall in Hall.
    apply (@precedes_trans m x y Hx Hmx). apply Hall, Hy.
Qed.

(** Without a tie at the cut, two descending arrangements of the same
    documents keep the same documents above the cut. *)
Lemma top_k_perm (K : nat) (l1 l2 : list ScoredDocument) :
  comparable l1 -> descending l1 -> descending l2 -> Permutation l1 l2 ->
  no_tie_at_cut K l1 ->
  Permutation (firstn K l1) (firstn K l2).
Proof.
  intros Hc H1 H2 Hp Hcut.
  assert (Hc2 : comparable l2) by (apply comparable_perm with l1; assumption).
  pose proof (firstn_skipn K l1) as Hsplit.
  destruct (skipn K l1) as [ | m rest] eqn:Es.
  - rewrite app_nil_r in Hsplit.
    assert (Hlen : (List.length l1 <= K)%nat).
    { rewrite <- Hsplit. apply firstn_le_length. }
    rewrite Hsplit.
    rewrite (@firstn_all2 _ K l2)
      by (rewrite <- (Permutation_length Hp); exact Hlen).
    exact Hp.
  - assert (HK : (K < List.length l1)%nat).
    { destruct (Nat.lt_ge_cases K (List.length l1)) as [Hlt | Hge];
        [exact Hlt | ].
      rewrite (@skipn_all2 _ K l1 Hge) in Es. discriminate. }
    set (above := fun d => (relevance m <? relevance d)%float).
    unfold comparable in Hc. rewrite Forall_forall in Hc.
    assert (Hin_m : In m l1).
    { rewrite <- Hsplit. apply in_or_app. right. left. reflexivity. }
    assert (Hsorted : StronglySorted precedes (firstn K l1 ++ m :: rest))
      by (rewrite Hsplit; exact H1).
    assert (Htop : forall a, In a (firstn K l1) -> above a = true).
    { intros a Ha. unfold above.
      assert (Hin_a : In a l1).
      { rewrite <- Hsplit. apply in_or_app. left. exact Ha. }
      pose proof (Hc a Hin_a) as Hoa. pose proof (Hc m Hin_m) as Hom.
      assert (Ham : precedes a m).
      { apply (@sorted_app_between _ _ _ _ Hsorted);
          [exact Ha | left; reflexivity]. }
      assert (Htie : ~ same_score a m).
      { apply Hcut; [exact Ha | rewrite Es; left; reflexivity]. }
      apply (ltb_rank Hom Hoa). apply lex_lt_total.
      - apply (not_ltb_rank Hoa Hom). exact Ham.
      - intros E. apply Htie. unfold same_score.
        apply (eqb_rank Hoa Hom). exact E. }
    assert (Hlow : forall b, In b (m :: rest) -> above b = false).
    { intros b Hb. unfold above. destruct Hb as [<- | Hb].
      - destruct (relevance m <? relevance m)%float eqn:E; [ | reflexivity].
        pose proof (ltb_asym E) as E'. congruence.
      - apply sorted_app_r in Hsorted.
        inversion Hsorted as [ | ? ? _ Hall]; subst.
        rewrite Forall_forall in Hall. apply Hall, Hb. }
    assert (E1 : filter above l1 = firstn K l1).
    { rewrite <- Hsplit at 1. rewrite filter_app.
      rewrite (@filter_all _ _ _ Htop), (@filter_none _ _ _ Hlow).
      apply app_nil_r. }
    assert (E2 : filter above l2 = firstn K l2).
    { pose proof (@above_is_prefix m l2 Hc2 H2) as Hpre. cbv zeta in Hpre.
      fold above in Hpre. rewrite Hpre.
      f_equal.
      rewrite <- (Permutation_length (@filter_perm _ above _ _ Hp)).
      rewrite E1. apply firstn_length_le. lia. }
    rewrite <- E1, <- E2. apply (@filter_perm _ above _ _ Hp).
Qed.

End SortFacts.

(* ================================================================== *)
(** ** Facts about dictionaries and the store boundary *)
(* ================================================================== *)

Section RetrievalFacts.

Local Open Scope list_scope.

Lemma dict_lookup_set_same (k : string) (v : pyval) (d : dict) :
  dict_lookup k (dict_set k v d) = Some v.
Proof.
  induction d as [ | [k' v'] d IH]; simpl.
  - rewrite String.eqb_refl. reflexivity.
  - destruct (String.eqb k' k) eqn:E; simpl; rewrite E; [reflexivity | exact IH].
Qed.

Lemma dict_lookup_set_other (k k' : string) (v : pyval) (d : dict) :
  k <> k' -> dict_lookup k' (dict_set k v d) = dict_lookup k' d.
Proof.
  intros Hne. induction d as [ | [k0 v0] d IH]; simpl.
  - destruct (String.eqb k k') eqn:E; [ | reflexivity].
    apply String.eqb_eq in E. contradiction.
  - destruct (String.eqb k0 k) eqn:E; simpl.
    + apply String.eqb_eq in E. subst k0.
      destruct (String.eqb k k') eqn:E'; [ | reflexivity].
      apply String.eqb_eq in E'. contradiction.
    + rewrite IH. reflexivity.
Qed.

Lemma gather_from (fetch : string -> result (list ScoredDocument))
    (collections : list string) (acc : list ScoredDocument) :
  fold_left
    (fun all_results collection_name =>
       match fetch collection_name with
       | Ok results => all_results ++ results
       | Raise _ => all_results
       end) collections acc
  = acc ++ flat_map (contribution fetch) collections.
Proof.
  revert acc. induction collections as [ | c cs IH]; intros acc; simpl.
  - rewrite app_nil_r. reflexivity.
  - rewrite IH. unfold contribution at 2.
    destruct (fetch c); [rewrite app_assoc | ]; reflexivity.
Qed.

Lemma gather_flat_map (fetch : string -> result (list ScoredDocument))
    (collections : list string) :
  gather fetch collections = flat_map (contribution fetch) collections.
Proof. unfold gather. rewrite gather_from. reflexivity. Qed.

Lemma in_gather (fetch : string -> result (list ScoredDocument))
    (collections : list string) (d : ScoredDocument) :
  In d (gather fetch collections) ->
  exists c results, In c collections /\ fetch c = Ok results /\ In d results.
Proof.
  rewrite gather_flat_map. intros H. apply in_flat_map in H.
  destruct H as (c & Hc & Hd). unfold contribution in Hd.
  destruct (fetch c) as [results | e] eqn:E; [ | contradiction].
  exists c, results. auto.
Qed.

Lemma in_zip3 (A B C : Type) (xs : list A) (ys : list B) (zs : list C)
    (x : A) (y : B) (z : C) :
  In (x, y, z) (zip3 xs ys zs) -> In x xs /\ In y ys /\ In z zs.
Proof.
  revert ys zs. induction xs as [ | x' xs IH]; intros [ | y' ys] [ | z' zs];
    simpl; try contradiction.
  intros [E | H].
  - injection E as -> -> ->. auto.
  - destruct (IH _ _ H) as (? & ? & ?). auto.
Qed.

(** What a successful [retrieve_documents] has done. *)
Lemma retrieve_documents_ok (client : ChromaClient) (c q : string)
    (f : option dict) (n : Z) (docs : list ScoredDocument) :
  retrieve_documents client c q f n = Ok docs ->
  exists coll r,
    client c = Ok coll /\ coll q n (where_of_filter f) = Ok r /\
    (docs = [] \/
     exists docs0 metas0 dists0 t1 t2 t3,
       documents r = docs0 :: t1 /\ metadatas r = metas0 :: t2 /\
       distances r = dists0 :: t3 /\
       docs = map scored (zip3 docs0 metas0 dists0)).
Proof.
  unfold retrieve_documents, get_collection, query_collection, bind.
  destruct (client c) as [coll | e] eqn:Ec; [ | discriminate].
  destruct (coll q n (where_of_filter f)) as [r | e] eqn:Er; [ | discriminate].
  intros H. exists coll, r. split; [reflexivity | split; [exact Er | ]].
  destruct (documents r) as [ | docs0 t1] eqn:Ed.
  - left. injection H as <-. reflexivity.
  - destruct docs0 as [ | d0 docs0].
    + left. injection H as <-. reflexivity.
    + destruct (metadatas r) as [ | metas0 t2] eqn:Em; [discriminate | ].
      destruct (distances r) as [ | dists0 t3] eqn:Es; [discriminate | ].
      right. exists (d0 :: docs0), metas0, dists0, t1, t2, t3.
      injection H as <-. repeat split.
Qed.

Lemma where_and_holds (f : dict) (m : option dict) :
  where_holds (WAnd (map (fun kv => WEq (fst kv) (snd kv)) f)) m <->
  Forall (has_entry m) f.
Proof.
  induction f as [ | kv f IH]; simpl.
  - split; [constructor | trivial].
  - split.
    + intros [H1 H2]. constructor; [exact H1 | apply IH, H2].
    + intros H. inversion H; subst. split; [assumption | apply IH; assumption].
Qed.

Lemma where_of_filter_holds (f : dict) (w : where_clause) (m : option dict) :
  where_of_filter (Some f) = Some w -> where_holds w m ->
  Forall (has_entry m) f.
Proof.
  unfold where_of_filter.
  destruct f as [ | [k v] [ | kv2 f]]; simpl.
  - discriminate.
  - intros E H. injection E as <-. constructor; [exact H | constructor].
  - intros E H. injection E as <-.
    apply (where_and_holds ((k, v) :: kv2 :: f)). exact H.
Qed.

Lemma where_of_filter_some (f : dict) :
  f <> [] -> exists w, where_of_filter (Some f) = Some w.
Proof.
  destruct f as [ | [k v] [ | kv2 f]]; simpl; intros H;
    [contradiction | eexists; reflexivity | eexists; reflexivity].
Qed.

(** Under a store that honours [where], every retrieved document carries
    every entry of a filter that is not empty. *)
Lemma retrieved_has_entries (client : ChromaClient) (c q : string)
    (f : dict) (n : Z) (docs : list ScoredDocument) :
  honours_where client -> f <> [] ->
  retrieve_documents client c q (Some f) n = Ok docs ->
  forall d, In d docs -> Forall (has_entry (metadata d)) f.
Proof.
  intros Hh Hf Hr d Hd.
  destruct (where_of_filter_some Hf) as [w Hw].
  destruct (retrieve_documents_ok _ _ _ _ _ Hr) as (coll & r & Hc & Hq & Hdocs).
  rewrite Hw in Hq.
  destruct Hdocs as [-> | (docs0 & metas0 & dists0 & t1 & t2 & t3 & _ & Hm & _ & ->)];
    [contradiction | ].
  apply in_map_iff in Hd. destruct Hd as ([[doc meta] dist] & <- & Hin).
  apply in_zip3 in Hin. destruct Hin as (_ & Hmeta & _).
  specialize (Hh _ _ _ _ _ _ Hc Hq). rewrite Hm in Hh.
  inversion Hh as [ | ? ? Hhead _]; subst.
  rewrite Forall_forall in Hhead.
  apply where_of_filter_holds with (w := w); [exact Hw | ].
  simpl. apply Hhead, Hmeta.
Qed.

Lemma in_firstn (A : Type) (n : nat) (l : list A) (x : A) :
  In x (firstn n l) -> In x l.
Proof.
  intros H. rewrite <- (firstn_skipn n l). apply in_or_app. left. exact H.
Qed.

Lemma scalar_eqb_eq (v w : pyval) : MemStore.scalar_eqb v w = true -> v = w.
Proof.
  destruct v, w; simpl; try discriminate; intros H.
  - apply Bool.eqb_prop in H. congruence.
  - apply Z.eqb_eq in H. congruence.
  - apply String.eqb_eq in H. congruence.
Qed.

Lemma matches_holds :
  forall (w : where_clause) (m : option dict),
    MemStore.matches w m = true -> where_holds w m.
Proof.
  fix IH 1. intros [k v | ws] m.
  - simpl. destruct m as [d | ]; [ | discriminate].
    destruct (dict_lookup k d) as [v' | ] eqn:E; [ | discriminate].
    intros H. apply scalar_eqb_eq in H. subst v'. exists d. auto.
  - simpl. induction ws as [ | w' ws IHws]; [trivial | ].
    intros H. apply andb_true_iff in H. destruct H as [H1 H2].
    split; [apply IH, H1 | apply IHws, H2].
Qed.

Lemma mem_client_inv (db : MemStore.table) (name : string) (coll : Collection) :
  MemStore.client db name = Ok coll ->
  exists rows, coll = MemStore.collection rows.
Proof.
  induction db as [ | [name' rows] db IH]; simpl; [discriminate | ].
  destruct (String.eqb name' name).
  - intros E. injection E as <-. exists rows. reflexivity.
  - exact IH.
Qed.

(** The in-memory store honours its [where] argument. *)
Lemma mem_client_honours_where (db : MemStore.table) :
  honours_where (MemStore.client db).
Proof.
  intros name coll q n w r Hc Hq.
  destruct (mem_client_inv _ _ Hc) as [rows ->].
  unfold MemStore.collection in Hq. injection Hq as <-. simpl.
  constructor; [ | constructor].
  apply Forall_forall. intros m Hm.
  apply in_map_iff in Hm. destruct Hm as (row & <- & Hrow).
  apply in_firstn in Hrow.
  apply matches_holds.
  apply filter_In in Hrow. destruct Hrow as [_ Hrow]. exact Hrow.
Qed.

End RetrievalFacts.

(* ================================================================== *)
(** ** Collection Router and collection registry *)
(* ================================================================== *)

Section RouterFacts.

Local Open Scope list_scope.

Lemma eq_str_true (v : pyval) (s : string) : eq_str v s = true <-> v = PStr s.
Proof.
  destruct v; simpl; try (split; [discriminate | intros E; discriminate E]).
  rewrite String.eqb_eq. split; congruence.
Qed.

Lemma eq_str_false (v : pyval) (s : string) : eq_str v s = false <-> v <> PStr s.
Proof.
  rewrite <- eq_str_true. destruct (eq_str v s); split; congruence.
Qed.

(** C1. The Collection Router is total and follows its table: a
    classification whose [query_type] is [ia_feedback] is sent to
    [ia_guides, ia_examples], one whose [query_type] is [exam_question] to
    [mark_schemes, general_info], and every other classification, with an
    unknown [query_type] or with none, to [ib_general, syllabus], the list
    of [general_info]; the list is never empty. *)
Theorem router_follows_table (classification : dict) :
  let query_type :=
    dict_get_default classification "query_type" (PStr "general_info") in
  (query_type = PStr "ia_feedback" ->
   route_collections classification = ["ia_guides"; "ia_examples"]) /\
  (query_type = PStr "exam_question" ->
   route_collections classification = ["mark_schemes"; "general_info"]) /\
  (query_type <> PStr "ia_feedback" -> query_type <> PStr "exam_question" ->
   route_collections classification = ["ib_general"; "syllabus"]) /\
  (dict_lookup "query_type" classification = None ->
   route_collections classification = ["ib_general"; "syllabus"]) /\
  route_collections [("query_type", PStr "general_info")]
    = ["ib_general"; "syllabus"] /\
  route_collections classification <> [].
Proof.
  unfold route_collections. cbv zeta.
  repeat split.
  - intros ->. reflexivity.
  - intros ->. reflexivity.
  - intros H1 H2. apply eq_str_false in H1, H2. rewrite H1, H2. reflexivity.
  - unfold dict_get_default. intros ->. reflexivity.
  - destruct (eq_str _ "ia_feedback"); [discriminate | ].
    destruct (eq_str _ "exam_question"); discriminate.
Qed.

Lemma router_follows_table_witness :
  route_collections [("query_type", PStr "ia_feedback"); ("level", PStr "HL")]
    = ["ia_guides"; "ia_examples"] /\
  route_collections [("query_type", PStr "exam_question")]
    = ["mark_schemes"; "general_info"] /\
  route_collections [("query_type", PList [PStr "ia_feedback"])]
    = ["ib_general"; "syllabus"] /\
  route_collections [("subject", PStr "Physics")] = ["ib_general"; "syllabus"].
Proof.
  split; [ | split; [ | split]].
  - apply (proj1 (router_follows_table _)). reflexivity.
  - apply (proj1 (proj2 (router_follows_table _))). reflexivity.
  - apply (proj1 (proj2 (proj2 (router_follows_table _)))); discriminate.
  - apply (proj1 (proj2 (proj2 (proj2 (router_follows_table _))))). reflexivity.
Defined.

(** C2. The router's [exam_question] row emits the name [general_info],
    which is not one of the five registered collections: it is a
    document type, which [DOC_TYPE_TO_COLLECTION] sends to the collection
    [ib_general].  The other two rows emit registered names only, and a
    store that holds exactly the registered collections raises on the
    emitted name. *)
Theorem exam_route_leaves_registry :
  registry = ["ib_general"; "ia_guides"; "ia_examples"; "mark_schemes"; "syllabus"] /\
  route_collections [("query_type", PStr "exam_question")]
    = ["mark_schemes"; "general_info"] /\
  registered "general_info" = false /\
  assoc "general_info" DOC_TYPE_TO_COLLECTION = Some "ib_general" /\
  forallb registered (route_collections [("query_type", PStr "ia_feedback")])
    = true /\
  forallb registered (route_collections [("query_type", PStr "general_info")])
    = true /\
  (forall q f n,
     is_ok (retrieve_documents
              (MemStore.client (map (fun name => (name, [])) registry))
              "general_info" q f n) = false).
Proof.
  repeat split.
Qed.

End RouterFacts.

(* ================================================================== *)
(** ** Fallback classifier *)
(* ================================================================== *)

Section ClassifierFacts.

Local Open Scope list_scope.

(** Case analysis on every keyword test of the classifier. *)
Ltac keyword_cases q :=
  destruct (any_term_in ["ia"; "internal assessment"] q),
    (any_term_in ["exam"; "question"; "paper"; "solve"] q),
    (PyStr.contains "math" q),
    (PyStr.contains "aa" q || PyStr.contains "analysis" q),
    (PyStr.contains "ai" q || PyStr.contains "applications" q),
    (PyStr.contains "hl" q || PyStr.contains "higher level" q),
    (PyStr.contains "sl" q || PyStr.contains "standard level" q).

Lemma spaceless_snoc (tok : string) (c : ascii) :
  spaceless tok -> PyStr.is_space c = false ->
  spaceless (tok ++ String c EmptyString).
Proof.
  unfold spaceless. induction tok as [ | x tok IH]; simpl; intros Htok Hc c' Hin.
  - destruct Hin as [<- | []]. exact Hc.
  - destruct Hin as [<- | Hin].
    + apply Htok. left. reflexivity.
    + apply IH; [ | exact Hc | exact Hin].
      intros c'' H''. apply Htok. right. exact H''.
Qed.

Lemma split_from_tokens (s tok : string) :
  spaceless tok ->
  Forall (fun t => t <> EmptyString /\ spaceless t) (PyStr.split_from s tok).
Proof.
  revert tok. induction s as [ | c s IH]; intros tok Htok; simpl.
  - destruct tok; simpl; constructor; [ | constructor].
    split; [discriminate | exact Htok].
  - destruct (PyStr.is_space c) eqn:Hc.
    + assert (Hnil : spaceless EmptyString) by (intros c' []).
      destruct tok; simpl; [apply IH, Hnil | ].
      constructor; [ | apply IH, Hnil].
      split; [discriminate | exact Htok].
    + apply IH, spaceless_snoc; assumption.
Qed.

(** C9. The fallback classifier is a total function to classifications
    with the four keys.  Its [query_type] is [ia_feedback] when the
    lowercased query contains [ia] or [internal assessment], else
    [exam_question] when it contains [exam], [question], [paper] or
    [solve], else [general_info]; its [search_terms] are the first five
    whitespace-delimited tokens of the raw query (tokens are not empty
    and hold no whitespace); [subject] is unset or a
    Mathematics subject and [level] is unset, [HL] or [SL]; and when no
    keyword occurs, as in the empty query, the type is [general_info]
    with [subject] and [level] unset. *)
Theorem fallback_classifier_total (query : string) :
  let c := _fallback_classification query in
  let q := PyStr.lower query in
  dict_keys c = ["query_type"; "subject"; "level"; "search_terms"] /\
  dict_get c "query_type"
    = PStr (if any_term_in TYPE_IA_TERMS q then "ia_feedback"
            else if any_term_in TYPE_EXAM_TERMS q then "exam_question"
            else "general_info") /\
  dict_get c "search_terms" = PList (map PStr (firstn 5 (PyStr.split query))) /\
  (List.length (firstn 5 (PyStr.split query)) <= 5)%nat /\
  Forall (fun t => t <> EmptyString /\ spaceless t) (PyStr.split query) /\
  In (dict_get c "subject")
     [PNone; PStr "Mathematics AA"; PStr "Mathematics AI"] /\
  In (dict_get c "level") [PNone; PStr "HL"; PStr "SL"] /\
  (no_keyword query ->
   dict_get c "query_type" = PStr "general_info" /\
   dict_get c "subject" = PNone /\ dict_get c "level" = PNone) /\
  _fallback_classification ""
    = [("query_type", PStr "general_info"); ("subject", PNone);
       ("level", PNone); ("search_terms", PList [])].
Proof.
  cbv zeta. unfold _fallback_classification, no_keyword,
    TYPE_IA_TERMS, TYPE_EXAM_TERMS.
  set (q := PyStr.lower query).
  set (terms := PList (map PStr (firstn 5 (PyStr.split query)))).
  split; [ | split; [ | split; [ | split; [ | split; [ | split; [ | split; [ | split]]]]]]].
  - keyword_cases q; reflexivity.
  - keyword_cases q; reflexivity.
  - keyword_cases q; reflexivity.
  - apply firstn_le_length.
  - apply split_from_tokens. intros c' [].
  - keyword_cases q; simpl; auto.
  - keyword_cases q; simpl; auto.
  - intros (H1 & H2 & H3 & H4). fold q in H1, H2, H3, H4.
    rewrite H1, H2, H3.
    simpl in H4. rewrite orb_false_r in H4.
    apply orb_false_iff in H4. destruct H4 as [Hhl H4].
    apply orb_false_iff in H4. destruct H4 as [Hhigher H4].
    apply orb_false_iff in H4. destruct H4 as [Hsl Hstandard].
    rewrite Hhl, Hhigher, Hsl, Hstandard. simpl. auto.
  - reflexivity.
Qed.

Lemma fallback_classifier_total_witness :
  dict_get (_fallback_classification "What is CAS?") "query_type"
    = PStr "general_info" /\
  dict_get (_fallback_classification "What is CAS?") "subject" = PNone /\
  dict_get (_fallback_classification "What is CAS?") "level" = PNone.
Proof.
  apply (proj1 (proj2 (proj2 (proj2 (proj2 (proj2 (proj2 (proj2
           (fallback_classifier_total "What is CAS?"))))))))).
  repeat split.
Defined.

End ClassifierFacts.

(* ================================================================== *)
(** ** Per-Collection Retriever *)
(* ================================================================== *)

Section RetrieverFacts.

Local Open Scope list_scope.

(** C7. Every document [retrieve_documents] produces has a relevance
    that is exactly one minus its distance, the distance being the one
    the store returned, whatever that distance is; distances outside
    [0,1] give relevances outside [0,1], without clamping. *)
Theorem relevance_is_one_minus_distance (client : ChromaClient)
    (c q : string) (f : option dict) (n : Z) (docs : list ScoredDocument) :
  retrieve_documents client c q f n = Ok docs ->
  Forall (fun d => relevance d = (1 - distance d)%float) docs /\
  (exists coll r,
     client c = Ok coll /\ coll q n (where_of_filter f) = Ok r /\
     forall d, In d docs -> In (distance d) (hd [] (distances r))) /\
  (forall doc meta dist,
     relevance (scored (doc, meta, dist)) = (1 - dist)%float /\
     distance (scored (doc, meta, dist)) = dist) /\
  relevance (scored ("", None, 1.5%float)) = (-0.5)%float /\
  relevance (scored ("", None, (-0.25)%float)) = 1.25%float /\
  relevance (scored ("", None, infinity)) = neg_infinity.
Proof.
  intros Hr.
  destruct (retrieve_documents_ok _ _ _ _ _ Hr) as (coll & r & Hc & Hq & Hdocs).
  split; [ | split; [ | repeat split]].
  - destruct Hdocs as [-> | (docs0 & metas0 & dists0 & t1 & t2 & t3 & _ & _ & _ & ->)];
      [constructor | ].
    apply Forall_forall. intros d Hd.
    apply in_map_iff in Hd. destruct Hd as ([[doc meta] dist] & <- & _).
    reflexivity.
  - exists coll, r. split; [exact Hc | split; [exact Hq | ]].
    intros d Hd.
    destruct Hdocs as [-> | (docs0 & metas0 & dists0 & t1 & t2 & t3 & _ & _ & Hs & ->)];
      [contradiction | ].
    rewrite Hs. simpl.
    apply in_map_iff in Hd. destruct Hd as ([[doc meta] dist] & <- & Hin).
    apply in_zip3 in Hin. simpl. tauto.
Qed.

Lemma relevance_is_one_minus_distance_witness :
  exists docs,
    retrieve_documents (MemStore.client Samples.ia_store) "ia_guides"
      "criteria" None 5 = Ok docs /\
    map distance docs = [0.25; 0.5; 1.5]%float /\
    Forall (fun d => relevance d = (1 - distance d)%float) docs.
Proof.
  eexists. split; [reflexivity | split; [reflexivity | ]].
  apply (relevance_is_one_minus_distance
           (MemStore.client Samples.ia_store) "ia_guides" "criteria" None 5).
  reflexivity.
Defined.

(** C6. A filter with two or more entries reaches the store as the
    conjunction of one equality per entry, and under a store that honours
    its [where] argument every returned document carries every entry of
    the filter: a document lacking one of them is not returned.  A filter
    with one entry reaches the store as that single equality. *)
Theorem filter_is_conjunction (client : ChromaClient) (c q : string)
    (f : dict) (n : Z) (docs : list ScoredDocument) :
  honours_where client ->
  (2 <= List.length f)%nat ->
  retrieve_documents client c q (Some f) n = Ok docs ->
  where_of_filter (Some f)
    = Some (WAnd (map (fun kv => WEq (fst kv) (snd kv)) f)) /\
  (forall m, where_holds (WAnd (map (fun kv => WEq (fst kv) (snd kv)) f)) m
             <-> Forall (has_entry m) f) /\
  (forall d, In d docs -> Forall (has_entry (metadata d)) f) /\
  (forall d kv, In kv f -> ~ has_entry (metadata d) kv -> ~ In d docs) /\
  (forall k v, where_of_filter (Some [(k, v)]) = Some (WEq k v)).
Proof.
  intros Hh Hlen Hr.
  assert (Hne : f <> []) by (destruct f; [simpl in Hlen; lia | discriminate]).
  assert (Hall : forall d, In d docs -> Forall (has_entry (metadata d)) f)
    by (apply retrieved_has_entries with client c q n; assumption).
  split; [ | split; [ | split; [ | split]]].
  - destruct f as [ | kv1 [ | kv2 f]]; simpl in Hlen; try lia. reflexivity.
  - intros m. apply where_and_holds.
  - exact Hall.
  - intros d kv Hkv Hno Hd. apply Hno.
    specialize (Hall d Hd). rewrite Forall_forall in Hall. apply Hall, Hkv.
  - reflexivity.
Qed.

Lemma filter_is_conjunction_witness :
  exists docs,
    retrieve_documents (MemStore.client Samples.ia_store) "ia_guides"
      "criteria" (Some [("subject", PStr "Physics"); ("level", PStr "HL")]) 5
      = Ok docs /\
    map content docs = ["Physics HL guide"] /\
    forall d, In d docs ->
      Forall (has_entry (metadata d))
             [("subject", PStr "Physics"); ("level", PStr "HL")].
Proof.
  eexists. split; [reflexivity | split; [reflexivity | ]].
  apply (proj1 (proj2 (proj2
    (@filter_is_conjunction (MemStore.client Samples.ia_store) "ia_guides"
       "criteria" [("subject", PStr "Physics"); ("level", PStr "HL")] 5 _
       (mem_client_honours_where Samples.ia_store)
       (le_n 2) eq_refl)))).
Defined.

End RetrieverFacts.

(* ================================================================== *)
(** ** Context Formatter *)
(* ================================================================== *)

Section FormatterFacts.

Context {builtins : PyBuiltins}.

Lemma append_assoc (a b c : string) : (a ++ b) ++ c = a ++ b ++ c.
Proof. induction a as [ | x a IH]; simpl; [ | rewrite IH]; reflexivity. Qed.

Lemma length_append (a b : string) :
  String.length (a ++ b) = (String.length a + String.length b)%nat.
Proof. induction a as [ | x a IH]; simpl; [ | rewrite IH]; reflexivity. Qed.

Lemma take_length (n : nat) (s : string) :
  String.length (PyStr.take n s) = Nat.min n (String.length s).
Proof.
  revert s. induction n as [ | n IH]; intros [ | c s]; simpl; try reflexivity.
  rewrite IH. reflexivity.
Qed.

Lemma take_substring (n : nat) (s : string) :
  PyStr.take n s = substring 0 n s.
Proof.
  revert s. induction n as [ | n IH]; intros [ | c s]; simpl; try reflexivity.
  rewrite IH. reflexivity.
Qed.

Lemma take_is_prefix (n : nat) (s : string) :
  exists rest, s = PyStr.take n s ++ rest.
Proof.
  revert s. induction n as [ | n IH]; intros s.
  - exists s. destruct s; reflexivity.
  - destruct s as [ | c s]; [exists EmptyString; reflexivity | ].
    destruct (IH s) as [rest E]. exists rest. simpl. rewrite <- E. reflexivity.
Qed.

Lemma tool_entry_content (i : nat) (doc : ScoredDocument) (text : string) :
  tool_entry i doc = Ok text ->
  exists pre post,
    text = pre ++ "Content: " ++ truncate_content (content doc) ++ nl ++ post.
Proof.
  unfold tool_entry, bind.
  match goal with
  | |- match ?p with _ => _ end = _ -> _ => destruct p as [prov | e]
  end; [ | discriminate].
  intros E. injection E as <-.
  exists ("[Document " ++ PyStr.of_nat (i + 1) ++ "]" ++ nl ++ prov),
         ("Relevance: " ++ format_2f (relevance doc) ++ nl ++ nl).
  repeat rewrite append_assoc. reflexivity.
Qed.

Lemma agent_entry_content (i : nat) (doc : ScoredDocument) (text : string) :
  agent_entry i doc = Ok text ->
  exists pre post,
    text = pre ++ "Content: " ++ truncate_content (content doc) ++ nl ++ post.
Proof.
  unfold agent_entry, bind.
  match goal with
  | |- match ?p with _ => _ end = _ -> _ => destruct p as [prov | e]
  end; [ | discriminate].
  intros E. injection E as <-.
  exists (nl ++ "[Document " ++ PyStr.of_nat (i + 1) ++ "]" ++ nl ++ prov),
         ("Relevance: " ++ format_2f (relevance doc) ++ nl).
  repeat rewrite append_assoc. reflexivity.
Qed.

(** C8. A content longer than the budget of 500 characters is rendered
    as its first 500 characters followed by the marker [...] (a content of
    600 characters gives 500 characters and the marker); a content within
    the budget (of 400 characters, say) is rendered unchanged, without
    marker.  Both formatters print exactly this rendering on the
    [Content:] line of every document. *)
Theorem content_truncated_at_budget (text : string) :
  ((500 < String.length text)%nat ->
   truncate_content text = PyStr.take 500 text ++ "..." /\
   String.length (PyStr.take 500 text) = 500%nat /\
   PyStr.take 500 text = substring 0 500 text /\
   (exists rest, text = PyStr.take 500 text ++ rest) /\
   String.length (truncate_content text) = 503%nat) /\
  ((String.length text <= 500)%nat -> truncate_content text = text) /\
  (forall i doc rendered,
     content doc = text -> tool_entry i doc = Ok rendered ->
     exists pre post,
       rendered = pre ++ "Content: " ++ truncate_content text ++ nl ++ post) /\
  (forall i doc rendered,
     content doc = text -> agent_entry i doc = Ok rendered ->
     exists pre post,
       rendered = pre ++ "Content: " ++ truncate_content text ++ nl ++ post).
Proof.
  split; [ | split; [ | split]].
  - intros Hlong. unfold truncate_content.
    apply Nat.ltb_lt in Hlong. rewrite Hlong.
    apply Nat.ltb_lt in Hlong.
    assert (Hlen : String.length (PyStr.take 500 text) = 500%nat)
      by (rewrite take_length; lia).
    split; [reflexivity | split; [exact Hlen | split; [ | split]]].
    + apply take_substring.
    + apply take_is_prefix.
    + rewrite length_append, Hlen. reflexivity.
  - intros Hshort. unfold truncate_content.
    apply Nat.ltb_ge in Hshort. rewrite Hshort. reflexivity.
  - intros i doc rendered <-. apply tool_entry_content.
  - intros i doc rendered <-. apply agent_entry_content.
Qed.

End FormatterFacts.

Lemma content_truncated_at_budget_witness :
  truncate_content (Samples.filler 600) = Samples.filler 500 ++ "..." /\
  truncate_content (Samples.filler 400) = Samples.filler 400.
Proof.
  split.
  - assert (H : (500 < String.length (Samples.filler 600))%nat)
      by (apply Nat.ltb_lt; vm_compute; reflexivity).
    rewrite (proj1 (proj1 (@content_truncated_at_budget Samples.printing (Samples.filler 600)) H)).
    vm_compute. reflexivity.
  - apply (proj1 (proj2 (@content_truncated_at_budget Samples.printing (Samples.filler 400)))).
    apply Nat.leb_le. vm_compute. reflexivity.
Defined.

(* ================================================================== *)
(** ** Cross-Collection Merger *)
(* ================================================================== *)

Section MergerFacts.

Context {builtins : PyBuiltins}.
Local Open Scope list_scope.








End MergerFacts.


Section MergerRanking.

Local Open Scope list_scope.

Lemma gather_perm (fetch : string -> result (list ScoredDocument))
    (cs cs' : list string) :
  Permutation cs cs' -> Permutation (gather fetch cs) (gather fetch cs').
Proof.
  intros H. rewrite !gather_flat_map. apply Permutation_flat_map, H.
Qed.

Lemma multi_collection_search_perm (client : ChromaClient)
    (cs cs' : list string) (q : string) (f : option dict) (n : Z) :
  Permutation cs cs' ->
  Permutation (multi_collection_search client cs q f n)
              (multi_collection_search client cs' q f n).
Proof.
  intros H. unfold multi_collection_search.
  eapply Permutation_trans; [apply sort_by_relevance_perm | ].
  eapply Permutation_trans; [apply gather_perm, H | ].
  apply Permutation_sym, sort_by_relevance_perm.
Qed.

(** C4. For relevances without NaN the merger sorts the concatenated
    results by descending relevance with a stable sort: its output is in
    descending order, and documents of equal relevance keep the order in
    which they were retrieved.  Merging the same collections in another
    order, as [B, A] instead of [A, B], gives the same documents with the
    same sequence of relevance scores, in the whole ranking and in every
    top-K.  When no document of the top-K has the relevance of a document
    below the cut, the two top-K hold the same documents, and differ at
    most in the order of documents of equal relevance; the two rankings
    are equal when no two documents tie. *)
Theorem merger_ranking_ignores_collection_order (client : ChromaClient)
    (cs cs' : list string) (q : string) (f : option dict) (n : Z) (K : nat) :
  Permutation cs cs' ->
  comparable (multi_collection_search client cs q f n) ->
  let fetch := fun c => retrieve_documents client c q f n in
  let ranked := multi_collection_search client cs q f n in
  let ranked' := multi_collection_search client cs' q f n in
  descending ranked /\ descending ranked' /\
  (forall r, filter (scored_as r) ranked
             = filter (scored_as r) (flat_map (contribution fetch) cs)) /\
  Permutation ranked ranked' /\
  Forall2 same_score ranked ranked' /\
  Forall2 same_score (firstn K ranked) (firstn K ranked') /\
  (no_tie_at_cut K ranked ->
   Permutation (firstn K ranked) (firstn K ranked')) /\
  (distinct_scores ranked ->
   ranked = ranked' /\ firstn K ranked = firstn K ranked').
Proof.
  intros Hp Hc. cbv zeta.
  assert (Hperm := multi_collection_search_perm client q f n Hp).
  assert (Hc' : comparable (multi_collection_search client cs' q f n))
    by (apply comparable_perm with (1 := Hperm); exact Hc).
  assert (Hd : descending (multi_collection_search client cs q f n)).
  { unfold multi_collection_search. apply sort_by_relevance_descending.
    apply comparable_perm with (2 := Hc). apply sort_by_relevance_perm. }
  assert (Hd' : descending (multi_collection_search client cs' q f n)).
  { unfold multi_collection_search. apply sort_by_relevance_descending.
    apply comparable_perm with (2 := Hc'). apply sort_by_relevance_perm. }
  assert (Hs : Forall2 same_score (multi_collection_search client cs q f n)
                 (multi_collection_search client cs' q f n))
    by (apply descending_perm_scores; assumption).
  split; [exact Hd | split; [exact Hd' | split; [ | split; [exact Hperm | ]]]].
  - intros r. unfold multi_collection_search.
    rewrite sort_by_relevance_stable, gather_flat_map. reflexivity.
  - split; [exact Hs | split; [apply Forall2_firstn, Hs | split]].
    + intros Hcut. apply top_k_perm; assumption.
    + intros Hties.
      assert (E : multi_collection_search client cs q f n
                  = multi_collection_search client cs' q f n)
        by (apply descending_perm_equal; assumption).
      split; [exact E | rewrite E; reflexivity].
Qed.

Lemma merger_ranking_ignores_collection_order_witness :
  map content (firstn 2 (MoreSamples.tied_ranking ["ia_guides"; "ia_examples"]))
  = ["Guide 1"; "Example 1"] /\
  map content (firstn 2 (MoreSamples.tied_ranking ["ia_examples"; "ia_guides"]))
  = ["Example 1"; "Guide 1"] /\
  Permutation (MoreSamples.tied_ranking ["ia_guides"; "ia_examples"])
              (MoreSamples.tied_ranking ["ia_examples"; "ia_guides"]) /\
  Forall2 same_score
    (firstn 5 (MoreSamples.tied_ranking ["ia_guides"; "ia_examples"]))
    (firstn 5 (MoreSamples.tied_ranking ["ia_examples"; "ia_guides"])) /\
  Permutation
    (firstn 2 (MoreSamples.tied_ranking ["ia_guides"; "ia_examples"]))
    (firstn 2 (MoreSamples.tied_ranking ["ia_examples"; "ia_guides"])).
Proof.
  split; [reflexivity | split; [reflexivity | ]].
  assert (Hp : Permutation ["ia_guides"; "ia_examples"]
                           ["ia_examples"; "ia_guides"]) by apply perm_swap.
  assert (Hc : comparable
                 (multi_collection_search
                    (MemStore.client MoreSamples.tied_store)
                    ["ia_guides"; "ia_examples"] "criteria" None 3))
    by (repeat constructor).
  unfold MoreSamples.tied_ranking.
  destruct (merger_ranking_ignores_collection_order
              (MemStore.client MoreSamples.tied_store) "criteria" None 3 5
              Hp Hc)
    as (_ & _ & _ & Hperm & _ & Hk & _).
  destruct (merger_ranking_ignores_collection_order
              (MemStore.client MoreSamples.tied_store) "criteria" None 3 2
              Hp Hc)
    as (_ & _ & _ & _ & _ & _ & Hcut & _).
  split; [exact Hperm | split; [exact Hk | ]].
  apply Hcut. intros a b Ha Hb.
  vm_compute in Ha. vm_compute in Hb. unfold same_score.
  destruct Ha as [<- | [<- | []]];
    destruct Hb as [<- | [<- | [<- | [<- | []]]]];
    vm_compute; discriminate.
Defined.

(** C4 fails when a tie straddles the cut.  In [MoreSamples.tied_store]
    the third guide and the third example have the same relevance and
    stand at ranks five and six: merged as [guides, examples] the top
    five keep the guide, merged as [examples, guides] they keep the
    example, so the two top-5 do not hold the same documents.  The same
    happens at the cut after the first rank, between the two nearest
    documents. *)
Lemma tie_at_cut_follows_collection_order :
  Permutation ["ia_guides"; "ia_examples"] ["ia_examples"; "ia_guides"] /\
  comparable (MoreSamples.tied_ranking ["ia_guides"; "ia_examples"]) /\
  map content (firstn 5 (MoreSamples.tied_ranking ["ia_guides"; "ia_examples"]))
  = ["Guide 1"; "Example 1"; "Guide 2"; "Example 2"; "Guide 3"] /\
  map content (firstn 5 (MoreSamples.tied_ranking ["ia_examples"; "ia_guides"]))
  = ["Example 1"; "Guide 1"; "Guide 2"; "Example 2"; "Example 3"] /\
  ~ Permutation
      (firstn 5 (MoreSamples.tied_ranking ["ia_guides"; "ia_examples"]))
      (firstn 5 (MoreSamples.tied_ranking ["ia_examples"; "ia_guides"])) /\
  ~ Permutation
      (firstn 1 (MoreSamples.tied_ranking ["ia_guides"; "ia_examples"]))
      (firstn 1 (MoreSamples.tied_ranking ["ia_examples"; "ia_guides"])).
Proof.
  split; [apply perm_swap | ].
  split; [repeat constructor | ].
  split; [reflexivity | split; [reflexivity | split]].
  - intros Hp. apply (Permutation_map content) in Hp.
    apply (Permutation_in "Guide 3") in Hp.
    + vm_compute in Hp. intuition discriminate.
    + vm_compute. tauto.
  - intros Hp. apply (Permutation_map content) in Hp.
    apply (Permutation_in "Guide 1") in Hp.
    + vm_compute in Hp. intuition discriminate.
    + vm_compute. tauto.
Qed.

End MergerRanking.

(* ================================================================== *)
(** ** The retrieve_context tool *)
(* ================================================================== *)

Section ToolFacts.

Context {builtins : PyBuiltins}.
Local Open Scope list_scope.

Lemma dict_lookup_in (k : string) (v : pyval) (d : dict) :
  dict_lookup k d = Some v -> In (k, v) d.
Proof.
  induction d as [ | [k' v'] d IH]; simpl; [discriminate | ].
  destruct (String.eqb k' k) eqn:E.
  - apply String.eqb_eq in E. intros H. injection H as ->. left. congruence.
  - intros H. right. apply IH, H.
Qed.

Lemma source_line_ok (meta : dict) :
  (truthy (dict_get meta "source") = true ->
   exists s, dict_get meta "source" = PStr s) ->
  is_ok (source_line meta) = true.
Proof.
  unfold source_line. intros H.
  destruct (truthy (dict_get meta "source")); [ | reflexivity].
  destruct (H eq_refl) as [s ->]. reflexivity.
Qed.

Lemma tool_entry_ok (i : nat) (doc : ScoredDocument) :
  well_sourced doc -> is_ok (tool_entry i doc) = true.
Proof.
  unfold well_sourced, tool_entry, bind.
  destruct (present_metadata doc) as [meta | ]; [ | reflexivity].
  intros H. apply source_line_ok in H.
  destruct (source_line meta); [reflexivity | discriminate].
Qed.

Lemma render_tool_entries_ok (docs : list ScoredDocument) (i : nat) :
  Forall well_sourced docs -> is_ok (render_entries tool_entry i docs) = true.
Proof.
  intros H. revert i. induction H as [ | doc docs Hdoc _ IH]; intros i; simpl.
  - reflexivity.
  - unfold bind. pose proof (@tool_entry_ok i doc Hdoc) as Hi.
    destruct (tool_entry i doc); [ | discriminate].
    specialize (IH (S i)).
    destruct (render_entries tool_entry (S i) docs); [reflexivity | discriminate].
Qed.

Lemma format_tool_context_ok (docs : list ScoredDocument) :
  Forall well_sourced docs -> is_ok (format_tool_context docs) = true.
Proof.
  intros H. unfold format_tool_context.
  destruct docs as [ | d docs]; [reflexivity | ].
  unfold bind. pose proof (@render_tool_entries_ok (d :: docs) 0 H) as Hr.
  destruct (render_entries tool_entry 0 (d :: docs)); [reflexivity | discriminate].
Qed.

Lemma tool_filter_has_doc_type (t : string) (subject level : option string) :
  t <> EmptyString ->
  dict_lookup "doc_type" (tool_filter (Some t) subject level) = Some (PStr t).
Proof.
  intros Ht. unfold tool_filter. unfold add_if_given at 1.
  destruct t as [ | c t]; [contradiction | ]. simpl PyStr.is_empty. cbv iota.
  apply dict_lookup_set_same.
Qed.

Lemma merged_has_entries (client : ChromaClient) (cs : list string)
    (q : string) (f : dict) (n : Z) (d : ScoredDocument) :
  honours_where client -> f <> [] ->
  In d (multi_collection_search client cs q (Some f) n) ->
  Forall (has_entry (metadata d)) f.
Proof.
  intros Hh Hf Hd. unfold multi_collection_search in Hd.
  apply (Permutation_in _ (sort_by_relevance_perm _)) in Hd.
  apply in_gather in Hd. destruct Hd as (c & results & _ & Hr & Hin).
  exact (@retrieved_has_entries _ _ _ _ _ _ Hh Hf Hr d Hin).
Qed.

(** C10, as the code has it.  When [retrieve_context] is given a
    non-empty [doc_type] that is none of the five known document types,
    retrieval raises no error: the tool searches the five collections
    through [multi_collection_search], two results per collection, with
    the given [doc_type] kept in the equality filter, so that under a
    store that honours [where] every document returned has exactly that
    [doc_type] in its metadata; with no document the tool answers with
    its sentinel, and rendering succeeds whenever every printed [source]
    is a string. *)
Theorem unknown_doc_type_searches_all (client : ChromaClient)
    (query t : string) (subject level : option string) (n : Z) :
  t <> EmptyString ->
  assoc t DOC_TYPE_TO_COLLECTION = None ->
  honours_where client ->
  let metadata_filter := tool_filter (Some t) subject level in
  let merged :=
    multi_collection_search client
      ["ia_guides"; "ia_examples"; "mark_schemes"; "syllabus"; "ib_general"]
      query (Some metadata_filter) 2 in
  tool_results client query (Some t) subject level n = Ok merged /\
  dict_lookup "doc_type" metadata_filter = Some (PStr t) /\
  (forall d, In d merged -> has_entry (metadata d) ("doc_type", PStr t)) /\
  (merged = [] ->
   retrieve_context client query (Some t) subject level n
     = Ok NO_DOCUMENTS_TOOL) /\
  (Forall well_sourced merged ->
   is_ok (retrieve_context client query (Some t) subject level n) = true).
Proof.
  intros Ht Hunknown Hh. cbv zeta.
  assert (Hres : tool_results client query (Some t) subject level n
                 = Ok (multi_collection_search client
                         ["ia_guides"; "ia_examples"; "mark_schemes";
                          "syllabus"; "ib_general"]
                         query (Some (tool_filter (Some t) subject level)) 2)).
  { unfold tool_results, known_collection.
    destruct t as [ | c t]; [contradiction | ]. simpl PyStr.is_empty. cbv iota.
    rewrite Hunknown. reflexivity. }
  pose proof (@tool_filter_has_doc_type t subject level Ht) as Hkey.
  split; [exact Hres | split; [exact Hkey | split; [ | split]]].
  - intros d Hd.
    assert (Hf : tool_filter (Some t) subject level <> [])
      by (intros E; rewrite E in Hkey; discriminate).
    pose proof (@merged_has_entries _ _ _ _ _ _ Hh Hf Hd) as Hall.
    rewrite Forall_forall in Hall. apply Hall.
    apply dict_lookup_in, Hkey.
  - intros E. unfold retrieve_context. rewrite Hres. unfold bind.
    rewrite E. reflexivity.
  - intros Hw. unfold retrieve_context. rewrite Hres. unfold bind.
    apply format_tool_context_ok, Hw.
Qed.

End ToolFacts.

Lemma unknown_doc_type_searches_all_witness :
  tool_results (MemStore.client Samples.full_store) "criteria"
    (Some "past_paper") None (Some "HL") 5 = Ok [] /\
  retrieve_context (builtins := Samples.printing)
    (MemStore.client Samples.full_store) "criteria"
    (Some "past_paper") None (Some "HL") 5 = Ok NO_DOCUMENTS_TOOL.
Proof.
  assert (Ht : "past_paper" <> EmptyString) by discriminate.
  destruct (@unknown_doc_type_searches_all Samples.printing
              (MemStore.client Samples.full_store) "criteria" "past_paper"
              None (Some "HL") 5 Ht eq_refl
              (mem_client_honours_where Samples.full_store))
    as (Hres & _ & _ & Hempty & _).
  split.
  - rewrite Hres. reflexivity.
  - apply Hempty. reflexivity.
Defined.

(** C10 fails for the empty [doc_type]: the empty string is none of the
    five known types, yet it does not enter the filter, and the tool
    returns documents whose [doc_type] is not the empty string. *)
Lemma empty_doc_type_is_not_filtered :
  assoc "" DOC_TYPE_TO_COLLECTION = None /\
  dict_lookup "doc_type" (tool_filter (Some "") None None) = None /\
  exists docs d,
    tool_results (MemStore.client Samples.full_store) "criteria"
      (Some "") None None 5 = Ok docs /\
    In d docs /\
    ~ has_entry (metadata d) ("doc_type", PStr "").
Proof.
  split; [reflexivity | split; [reflexivity | ]].
  eexists. eexists. split; [reflexivity | split].
  - left. reflexivity.
  - intros (m & Hm & Hlookup). injection Hm as <-. discriminate Hlookup.
Qed.

(** C3 fails on the tool's merge path: with two documents in each of the
    five collections, [multi_collection_search] returns ten documents and
    [retrieve_context], called with [n_results = 5], renders all ten,
    while the agent's own merge renders five at most. *)
Theorem tool_merge_exceeds_top_five :
  let merged :=
    multi_collection_search (MemStore.client Samples.full_store)
      (map snd DOC_TYPE_TO_COLLECTION) "criteria" (Some []) 2 in
  List.length merged = 10%nat /\
  tool_results (MemStore.client Samples.full_store) "criteria"
    None None None 5 = Ok merged /\
  (exists text,
     retrieve_context (builtins := Samples.printing)
       (MemStore.client Samples.full_store) "criteria" None None None 5
       = Ok text /\
     PyStr.contains "[Document 10]" text = true) /\
  (forall client search_query classification,
     (List.length
        (firstn 5 (sort_by_relevance
                     (agent_results client search_query classification)))
      <= 5)%nat).
Proof.
  cbv zeta. split; [reflexivity | split; [reflexivity | split]].
  - eexists. split; [vm_compute; reflexivity | vm_compute; reflexivity].
  - intros. apply firstn_le_length.
Qed.

(* ================================================================== *)
(** ** GeneralChunker *)
(* ================================================================== *)

Section ChunkerFacts.

Local Open Scope list_scope.

Lemma append_empty_r (s : string) : (s ++ EmptyString)%string = s.
Proof. induction s as [ | c s IH]; simpl; [ | rewrite IH]; reflexivity. Qed.

Lemma append_assoc' (a b c : string) :
  ((a ++ b) ++ c)%string = (a ++ b ++ c)%string.
Proof. induction a as [ | x a IH]; simpl; [ | rewrite IH]; reflexivity. Qed.

Lemma split_from_word (w s tok : string) :
  spaceless w ->
  PyStr.split_from (w ++ s)%string tok = PyStr.split_from s (tok ++ w)%string.
Proof.
  revert tok. induction w as [ | c w IH]; intros tok Hw; simpl.
  - rewrite append_empty_r. reflexivity.
  - assert (Hc : PyStr.is_space c = false) by (apply Hw; left; reflexivity).
    rewrite Hc. rewrite IH.
    + rewrite append_assoc'. reflexivity.
    + intros c' Hc'. apply Hw. right. exact Hc'.
Qed.

Lemma split_join (words : list string) :
  Forall is_token words -> PyStr.split (PyStr.join " " words) = words.
Proof.
  unfold PyStr.split, PyStr.join.
  induction words as [ | w words IH]; intros H; [reflexivity | ].
  inversion H as [ | ? ? [Hne Hw] Hrest]; subst.
  destruct words as [ | w2 words].
  - simpl. rewrite <- (append_empty_r w) at 1.
    rewrite split_from_word by exact Hw. simpl.
    destruct w; [contradiction | reflexivity].
  - change (String.concat " " (w :: w2 :: words))
      with (w ++ " " ++ String.concat " " (w2 :: words))%string.
    rewrite split_from_word by exact Hw.
    change (" " ++ String.concat " " (w2 :: words))%string
      with (String " "%char (String.concat " " (w2 :: words))).
    simpl PyStr.split_from at 1.
    destruct w as [ | c w]; [contradiction | ].
    simpl. f_equal. apply IH. exact Hrest.
Qed.

Lemma chunk_words_keeps_words (max_chunk_size : Z)
    (words current_chunk : list string) (current_size : Z) :
  Forall is_token (current_chunk ++ words) ->
  flat_map PyStr.split
    (chunk_words max_chunk_size words current_chunk current_size)
  = current_chunk ++ words.
Proof.
  revert current_chunk current_size.
  induction words as [ | w words IH]; intros cur size H; simpl.
  - rewrite app_nil_r in *. destruct cur as [ | c cur]; [reflexivity | ].
    cbn [flat_map]. rewrite app_nil_r. apply split_join. exact H.
  - destruct ((max_chunk_size <? size + (Z.of_nat (String.length w) + 1))%Z
              && match cur with [] => false | _ :: _ => true end).
    + cbn [flat_map]. rewrite IH.
      * rewrite split_join; [reflexivity | ].
        apply Forall_app in H. tauto.
      * apply Forall_app in H. tauto.
    + rewrite IH; rewrite <- app_assoc; [reflexivity | exact H].
Qed.

Lemma length_join (w : string) (words : list string) :
  Z.of_nat (String.length (PyStr.join " " (w :: words)))
  = (size_of (w :: words) - 1)%Z.
Proof.
  unfold PyStr.join. revert w. induction words as [ | w2 words IH]; intros w.
  - cbn [String.concat size_of]. lia.
  - change (String.concat " " (w :: w2 :: words))
      with (w ++ " " ++ String.concat " " (w2 :: words))%string.
    rewrite !length_append. rewrite !Nat2Z.inj_add, IH.
    change (String.length " ") with 1%nat.
    cbn [size_of]. lia.
Qed.

Lemma size_of_app (a b : list string) : size_of (a ++ b) = (size_of a + size_of b)%Z.
Proof. induction a as [ | w a IH]; simpl; [ | rewrite IH]; lia. Qed.

Lemma chunk_words_sizes (max_chunk_size : Z)
    (words current_chunk : list string) (current_size : Z) :
  Forall is_token (current_chunk ++ words) ->
  current_size = size_of current_chunk ->
  (List.length current_chunk <= 1)%nat \/ (current_size <= max_chunk_size)%Z ->
  Forall (fun chunk =>
            chunk <> EmptyString /\
            ((Z.of_nat (String.length chunk) < max_chunk_size)%Z \/
             In chunk (current_chunk ++ words)))
         (chunk_words max_chunk_size words current_chunk current_size).
Proof.
  assert (Hflush : forall cur rest size,
             Forall is_token (cur ++ rest) -> cur <> [] ->
             size = size_of cur ->
             (List.length cur <= 1)%nat \/ (size <= max_chunk_size)%Z ->
             PyStr.join " " cur <> EmptyString /\
             ((Z.of_nat (String.length (PyStr.join " " cur)) < max_chunk_size)%Z \/
              In (PyStr.join " " cur) (cur ++ rest))).
  { intros cur rest size Htok Hne Hsize Hinv.
    destruct cur as [ | c cur]; [contradiction | ].
    pose proof (length_join c cur) as Hlen.
    inversion Htok as [ | ? ? [Hc _] _]; subst.
    split.
    - intros E. rewrite E in Hlen.
      change (String.length EmptyString) with 0%nat in Hlen.
      cbn [size_of] in Hlen.
      assert (0 <= size_of cur)%Z
        by (clear; induction cur; cbn [size_of]; lia).
      destruct c; [contradiction | ].
      cbn [String.length] in Hlen. lia.
    - destruct Hinv as [Hone | Hmax].
      + right. destruct cur; [ | simpl in Hone; lia]. left. reflexivity.
      + left. lia. }
  revert current_chunk current_size.
  induction words as [ | w words IH]; intros cur size Htok Hsize Hinv; simpl.
  - destruct cur as [ | c cur]; [constructor | ].
    constructor; [ | constructor].
    apply (Hflush (c :: cur) [] size); try assumption. discriminate.
  - destruct (max_chunk_size <? size + (Z.of_nat (String.length w) + 1))%Z eqn:Hcmp;
      destruct cur as [ | c cur]; simpl andb; cbv iota.
    + apply (IH [w]).
      * exact Htok.
      * simpl. subst size. simpl. lia.
      * left. simpl. lia.
    + constructor.
      * apply (Hflush (c :: cur) (w :: words) size); try assumption. discriminate.
      * assert (Hw : Forall is_token ([w] ++ words))
          by (apply Forall_app in Htok; tauto).
        specialize (IH [w] (Z.of_nat (String.length w) + 1)%Z Hw).
        eapply Forall_impl; [ | apply IH; [simpl; lia | left; simpl; lia]].
        intros chunk [Hne [Hlt | Hin]]; split; auto.
        right. apply in_or_app. right. exact Hin.
    + apply (IH [w]).
      * exact Htok.
      * simpl. subst size. simpl. lia.
      * left. simpl. lia.
    + assert (Htok' : Forall is_token (((c :: cur) ++ [w]) ++ words))
        by (rewrite <- app_assoc; exact Htok).
      specialize (IH ((c :: cur) ++ [w])
                    (size + (Z.of_nat (String.length w) + 1))%Z Htok').
      eapply Forall_impl; [ | apply IH].
      * intros chunk [Hne [Hlt | Hin]]; split; auto.
        right. rewrite <- app_assoc in Hin. exact Hin.
      * rewrite size_of_app, Hsize. simpl. lia.
      * right. apply Z.ltb_ge in Hcmp. exact Hcmp.
Qed.

Lemma split_tokens (text : string) : Forall is_token (PyStr.split text).
Proof. apply split_from_tokens. intros c []. Qed.

(** X1. Chunking keeps every word of the text, in order: splitting the
    chunks of [GeneralChunker.chunk] into words again gives the words of
    the text. *)
Theorem general_chunks_keep_words (max_chunk_size : Z) (text : string) :
  flat_map PyStr.split (GeneralChunker_chunk max_chunk_size text)
  = PyStr.split text.
Proof.
  unfold GeneralChunker_chunk.
  rewrite chunk_words_keeps_words; [reflexivity | ].
  apply split_tokens.
Qed.

(** X2. No chunk of [GeneralChunker.chunk] is empty, and every chunk is
    shorter than [max_chunk_size] unless it is a single word of the text;
    a text without words gives no chunk. *)
Theorem general_chunks_bounded (max_chunk_size : Z) (text : string) :
  Forall (fun chunk =>
            chunk <> EmptyString /\
            ((Z.of_nat (String.length chunk) < max_chunk_size)%Z \/
             In chunk (PyStr.split text)))
         (GeneralChunker_chunk max_chunk_size text) /\
  (PyStr.split text = [] -> GeneralChunker_chunk max_chunk_size text = []).
Proof.
  unfold GeneralChunker_chunk. split.
  - apply (@chunk_words_sizes max_chunk_size (PyStr.split text) [] 0%Z).
    + apply split_tokens.
    + reflexivity.
    + left. simpl. lia.
  - intros ->. reflexivity.
Qed.

End ChunkerFacts.

(* ================================================================== *)
(** ** Ingestion: chunk dispatch, target collection, metadata *)
(* ================================================================== *)

Section IngestionFacts.

Context {regex : RegexParts}.
Local Open Scope list_scope.

Ltac eqb_cases :=
  repeat match goal with
    | |- context [String.eqb ?a ?b] => destruct (String.eqb a b) eqn:?
    end.

(** X3. A document type without a chunker of its own, known or not,
    is chunked by [GeneralChunker]: [chunk_by_type] differs from it only
    for [ia_guide], [mark_scheme] and [syllabus]. *)
Theorem chunk_by_type_falls_back (max_chunk_size : Z) (text doc_type : string) :
  doc_type <> "ia_guide" -> doc_type <> "mark_scheme" ->
  doc_type <> "syllabus" ->
  chunk_by_type max_chunk_size text doc_type
    = GeneralChunker_chunk max_chunk_size text /\
  flat_map PyStr.split (chunk_by_type max_chunk_size text doc_type)
    = PyStr.split text.
Proof.
  intros H1 H2 H3.
  assert (E : chunk_by_type max_chunk_size text doc_type
              = GeneralChunker_chunk max_chunk_size text).
  { unfold chunk_by_type, chunkers, chunker_for.
    destruct (String.eqb "ia_guide" doc_type) eqn:E1;
      [apply String.eqb_eq in E1; congruence | ].
    destruct (String.eqb "ia_example" doc_type); [reflexivity | ].
    destruct (String.eqb "mark_scheme" doc_type) eqn:E2;
      [apply String.eqb_eq in E2; congruence | ].
    destruct (String.eqb "syllabus" doc_type) eqn:E3;
      [apply String.eqb_eq in E3; congruence | ].
    destruct (String.eqb "general_info" doc_type); reflexivity. }
  split; [exact E | ].
  rewrite E. unfold GeneralChunker_chunk.
  rewrite chunk_words_keeps_words; [reflexivity | apply split_tokens].
Qed.

(** X4. Ingestion always writes to a registered collection, the default
    [ib_general] included, and for a known document type it is the
    collection the [retrieve_context] tool searches for that type. *)
Theorem ingestion_target_registered (doc_type : string) :
  registered (_get_collection_name doc_type) = true /\
  (forall collection_name,
     known_collection (Some doc_type) = Some collection_name ->
     _get_collection_name doc_type = collection_name) /\
  (assoc doc_type DOC_TYPE_TO_COLLECTION = None ->
   _get_collection_name doc_type = "ib_general").
Proof.
  unfold _get_collection_name, known_collection.
  split; [ | split].
  - unfold DOC_TYPE_TO_COLLECTION, assoc. eqb_cases; reflexivity.
  - intros c. destruct (PyStr.is_empty doc_type); [discriminate | ].
    intros ->. reflexivity.
  - intros ->. reflexivity.
Qed.

Lemma append_inj_l (a x y : string) : (a ++ x = a ++ y)%string -> x = y.
Proof.
  induction a as [ | c a IH]; simpl; intros H; [exact H | ].
  injection H as H. apply IH, H.
Qed.

Lemma of_nat_inj (n m : nat) : PyStr.of_nat n = PyStr.of_nat m -> n = m.
Proof.
  unfold PyStr.of_nat. intros H.
  apply Unsigned.to_uint_inj.
  assert (Hs : Some (Nat.to_uint n) = Some (Nat.to_uint m)).
  { rewrite <- !NilEmpty.usu. rewrite H. reflexivity. }
  injection Hs as Hs. exact Hs.
Qed.

Lemma chunk_id_inj (filepath : string) (i j : nat) :
  chunk_id filepath i = chunk_id filepath j -> i = j.
Proof.
  unfold chunk_id. intros H.
  apply append_inj_l in H. apply append_inj_l in H. apply of_nat_inj, H.
Qed.

Lemma prepare_from_spec (filepath doc_type subject : string)
    (level year topic section : option string) (i : nat)
    (chunks : list string) :
  prepare_from filepath doc_type subject level year topic section i chunks
  = (map (chunk_id filepath) (seq i (List.length chunks)),
     chunks,
     map (fun ic => chunk_metadata filepath doc_type subject level year
                      topic section (fst ic) (snd ic))
         (combine (seq i (List.length chunks)) chunks)).
Proof.
  revert i. induction chunks as [ | chunk chunks IH]; intros i; simpl.
  - reflexivity.
  - rewrite IH. reflexivity.
Qed.

Lemma NoDup_map_inj (A B : Type) (f : A -> B) (l : list A) :
  (forall x y, f x = f y -> x = y) -> NoDup l -> NoDup (map f l).
Proof.
  intros Hinj H. induction H as [ | x l Hx _ IH]; simpl; constructor.
  - intros Hin. apply in_map_iff in Hin. destruct Hin as (y & E & Hy).
    apply Hinj in E. subst y. contradiction.
  - exact IH.
Qed.

Lemma process_document_spec (text filepath doc_type subject : string)
    (level year topic section : option string) :
  let chunks := chunk_by_type 1000 text doc_type in
  process_document text filepath doc_type subject level year topic section
  = {| target := _get_collection_name doc_type;
       ids := map (chunk_id filepath) (seq 0 (List.length chunks));
       texts := chunks;
       metas :=
         map (fun ic => chunk_metadata filepath doc_type subject level year
                          topic section (fst ic) (snd ic))
             (combine (seq 0 (List.length chunks)) chunks) |}.
Proof.
  cbv zeta. unfold process_document. rewrite prepare_from_spec. reflexivity.
Qed.

(** X5. What [process_document] prepares for insertion is three
    parallel lists, one entry per chunk, and the ids [<filepath>-chunk-<i>]
    are pairwise distinct. *)
Theorem prepared_ids_distinct (text filepath doc_type subject : string)
    (level year topic section : option string) :
  let prepared :=
    process_document text filepath doc_type subject level year topic section in
  NoDup (ids prepared) /\
  texts prepared = chunk_by_type 1000 text doc_type /\
  List.length (ids prepared) = List.length (texts prepared) /\
  List.length (metas prepared) = List.length (texts prepared).
Proof.
  cbv zeta. rewrite process_document_spec. cbn [ids texts metas].
  split; [ | split; [reflexivity | split]].
  - apply NoDup_map_inj; [apply chunk_id_inj | apply seq_NoDup].
  - rewrite length_map, length_seq. reflexivity.
  - rewrite length_map, length_combine, length_seq. apply Nat.min_id.
Qed.

Lemma chunk_metadata_matches_filter (filepath doc_type subject : string)
    (level year topic section : option string) (i : nat) (chunk : string) :
  Forall (has_entry (Some (chunk_metadata filepath doc_type subject level
                             year topic section i chunk)))
         (tool_filter (Some doc_type) (Some subject) level).
Proof.
  unfold chunk_metadata, _extract_section_info, dict_update, tool_filter,
    add_if_given.
  destruct level as [[ | lc level] | ], year as [year | ],
    topic as [topic | ], section as [section | ],
    doc_type as [ | dc doc_type], subject as [ | sc subject];
    cbn -[PyStr.join PyStr.split String.length];
    repeat constructor;
    (eexists; split; [reflexivity | reflexivity]).
Qed.

(** X6. Every chunk [process_document] prepares carries the entries of
    the filter that [retrieve_context] builds from the same document
    type, subject and level: what is ingested under given attributes is
    matched by the query for those attributes. *)
Theorem prepared_metadata_matches_filter
    (text filepath doc_type subject : string)
    (level year topic section : option string) :
  Forall (fun m =>
            Forall (has_entry (Some m))
                   (tool_filter (Some doc_type) (Some subject) level))
         (metas (process_document text filepath doc_type subject level
                   year topic section)).
Proof.
  rewrite process_document_spec. cbn [metas].
  apply Forall_forall. intros m Hm.
  apply in_map_iff in Hm. destruct Hm as ([i chunk] & <- & _).
  apply chunk_metadata_matches_filter.
Qed.

Lemma chunk_metadata_index (filepath doc_type subject : string)
    (level year topic section : option string) (i : nat) (chunk : string) :
  dict_lookup "chunk_index"
    (chunk_metadata filepath doc_type subject level year topic section i chunk)
  = Some (PInt (Z.of_nat i)).
Proof.
  unfold chunk_metadata, _extract_section_info, dict_update.
  destruct level as [level | ], year as [year | ], topic as [topic | ],
    section as [section | ];
    cbn -[PyStr.join PyStr.split String.length Z.of_nat]; reflexivity.
Qed.

Lemma nth_error_combine_seq (A : Type) (l : list A) (i k : nat) (x : A) :
  nth_error l k = Some x ->
  nth_error (combine (seq i (List.length l)) l) k = Some ((i + k)%nat, x).
Proof.
  revert i k. induction l as [ | y l IH]; intros i [ | k]; simpl;
    try discriminate.
  - intros E. injection E as ->. rewrite Nat.add_0_r. reflexivity.
  - intros E. rewrite (IH (S i) k E). f_equal. f_equal. lia.
Qed.

(** X7. The metadata of a prepared chunk holds no [None] value, and its
    [chunk_index] is the position of the chunk among the chunks of the
    document. *)
Theorem prepared_metadata_clean (text filepath doc_type subject : string)
    (level year topic section : option string) :
  let prepared :=
    process_document text filepath doc_type subject level year topic section in
  Forall (Forall (fun kv => snd kv <> PNone)) (metas prepared) /\
  (forall k chunk,
     nth_error (texts prepared) k = Some chunk ->
     exists m,
       nth_error (metas prepared) k = Some m /\
       dict_lookup "chunk_index" m = Some (PInt (Z.of_nat k)) /\
       nth_error (ids prepared) k
         = Some (filepath ++ "-chunk-" ++ PyStr.of_nat k)%string).
Proof.
  cbv zeta. rewrite process_document_spec. cbn [ids texts metas]. split.
  - apply Forall_forall. intros m Hm.
    apply in_map_iff in Hm. destruct Hm as ([i chunk] & <- & _).
    unfold chunk_metadata. apply Forall_forall. intros kv Hkv.
    apply filter_In in Hkv. destruct Hkv as [_ Hkv].
    unfold is_not_none in Hkv. intros E. rewrite E in Hkv. discriminate.
  - intros k chunk Hk.
    pose proof (nth_error_combine_seq _ 0 _ Hk) as Hc.
    eexists. split; [ | split].
    + rewrite nth_error_map, Hc. reflexivity.
    + apply chunk_metadata_index.
    + rewrite nth_error_map.
      assert (Hlt : (k < List.length (chunk_by_type 1000 text doc_type))%nat)
        by (apply nth_error_Some; congruence).
      rewrite (nth_error_nth' _ 0%nat) by (rewrite length_seq; exact Hlt).
      rewrite seq_nth by exact Hlt. reflexivity.
Qed.

End IngestionFacts.

Lemma chunk_by_type_falls_back_witness :
  chunk_by_type (regex := MoreSamples.whole_text) 12
    "one two three four" "past_paper"
  = ["one two"; "three four"].
Proof.
  rewrite (proj1 (@chunk_by_type_falls_back MoreSamples.whole_text 12
                    "one two three four" "past_paper"
                    ltac:(discriminate) ltac:(discriminate)
                    ltac:(discriminate))).
  reflexivity.
Defined.

Lemma prepared_metadata_clean_witness :
  exists m,
    nth_error
      (metas (process_document (regex := MoreSamples.whole_text)
                "Criterion A: focus" "docs/guide.txt" "ia_guide" "Physics"
                (Some "HL") None None None)) 0 = Some m /\
    dict_lookup "chunk_index" m = Some (PInt 0) /\
    dict_lookup "level" m = Some (PStr "HL") /\
    dict_lookup "year" m = None.
Proof.
  destruct (proj2 (@prepared_metadata_clean MoreSamples.whole_text
                     "Criterion A: focus" "docs/guide.txt" "ia_guide"
                     "Physics" (Some "HL") None None None)
                  0%nat "Criterion A: focus" eq_refl)
    as (m & Hm & Hi & _).
  exists m. split; [exact Hm | split; [exact Hi | ]].
  vm_compute in Hm. injection Hm as <-. split; reflexivity.
Defined.

(* ================================================================== *)
(** ** Metadata construction and batch detection *)
(* ================================================================== *)

Section MetadataFacts.

Local Open Scope list_scope.

(** X8. [create_metadata] stores an optional field exactly when its
    argument is truthy (neither [None] nor empty), always stores the
    base fields, and its result carries the entries of the filter
    [retrieve_context] builds from the same document type, subject and
    level. *)
Theorem create_metadata_fields (source doc_type subject : string)
    (level year topic section : option string) (chunk_index : Z)
    (headers : string) :
  let m := create_metadata source doc_type subject level year topic section
             chunk_index headers in
  dict_lookup "level" m = given level /\
  dict_lookup "year" m = given year /\
  dict_lookup "topic" m = given topic /\
  dict_lookup "section" m = given section /\
  dict_lookup "source" m = Some (PStr source) /\
  dict_lookup "chunk_index" m = Some (PInt chunk_index) /\
  Forall (has_entry (Some m))
         (tool_filter (Some doc_type) (Some subject) level).
Proof.
  cbv zeta. unfold create_metadata, tool_filter, add_if_given, given.
  destruct level as [[ | lc level] | ], year as [[ | yc year] | ],
    topic as [[ | tc topic] | ], section as [[ | sc section] | ];
    cbn; repeat split;
    destruct doc_type as [ | dc doc_type], subject as [ | uc subject];
    cbn; repeat constructor;
    (eexists; split; reflexivity).
Qed.

Lemma first_pattern_match_key (table : list (string * list string))
    (text key : string) :
  first_pattern_match table text = Some key -> In key (map fst table).
Proof.
  induction table as [ | [k patterns] table IH]; simpl; [discriminate | ].
  destruct (any_term_in patterns text).
  - intros E. injection E as ->. left. reflexivity.
  - intros E. right. apply IH, E.
Qed.

(** X9. Whatever the file name, the document type, subject and level
    that [batch_ingest] detects are values [ingest_documents.py]
    accepts: the type is one of [VALID_DOC_TYPES], the subject one of
    [VALID_SUBJECTS], the level is absent or one of [VALID_LEVELS]; and
    the detected type is ingested into a registered collection. *)
Theorem batch_detection_valid (filename : string) :
  In (detect_document_type filename) VALID_DOC_TYPES /\
  In (detect_subject filename) VALID_SUBJECTS /\
  (forall level, detect_level filename = Some level -> In level VALID_LEVELS) /\
  registered (_get_collection_name (detect_document_type filename)) = true /\
  assoc (detect_document_type filename) DOC_TYPE_TO_COLLECTION <> None.
Proof.
  assert (Htype : In (detect_document_type filename) VALID_DOC_TYPES).
  { unfold detect_document_type.
    repeat match goal with
      | |- context [if ?b then _ else _] => destruct b
      end; try (simpl; tauto).
    destruct (first_pattern_match FILENAME_PATTERNS (PyStr.lower filename))
      as [key | ] eqn:E; [ | simpl; tauto].
    apply first_pattern_match_key in E. simpl in E. simpl.
    intuition (subst; auto). }
  split; [exact Htype | split; [ | split; [ | split]]].
  - unfold detect_subject.
    repeat match goal with
      | |- context [if ?b then _ else _] => destruct b
      end; try (simpl; tauto).
    destruct (first_pattern_match SUBJECT_PATTERNS (PyStr.lower filename))
      as [key | ] eqn:E; [ | simpl; tauto].
    apply first_pattern_match_key in E. simpl in E. simpl.
    intuition (subst; auto).
  - unfold detect_level. intros level.
    repeat match goal with
      | |- context [if ?b then _ else _] => destruct b
      end; intros E; try discriminate; injection E as <-; simpl; tauto.
  - simpl in Htype.
    destruct Htype as [E | [E | [E | [E | [E | []]]]]]; rewrite <- E;
      reflexivity.
  - simpl in Htype.
    destruct Htype as [E | [E | [E | [E | [E | []]]]]]; rewrite <- E;
      discriminate.
Qed.

Lemma re_search_found (here : string -> bool) (width : nat) (s m : string) :
  re_search here width s = Some m ->
  exists t, here t = true /\ m = PyStr.take width t.
Proof.
  induction s as [ | c s IH]; simpl; [discriminate | ].
  destruct (here (String c s)) eqn:E.
  - intros H. injection H as <-. exists (String c s). auto.
  - exact IH.
Qed.

Lemma re_search_leftmost (here : string -> bool) (width : nat)
    (before rest : string) :
  rest <> EmptyString -> here rest = true ->
  no_match_before here before rest ->
  re_search here width (before ++ rest) = Some (PyStr.take width rest).
Proof.
  intros Hne Hrest. induction before as [ | c before IH]; intros Hbefore.
  - cbn [append]. destruct rest as [ | c rest]; [contradiction | ].
    cbn [re_search]. rewrite Hrest. reflexivity.
  - assert (Hhere : here (String c (before ++ rest)) = false)
      by (apply (Hbefore EmptyString (String c before) eq_refl);
          discriminate).
    cbn [append re_search]. rewrite Hhere.
    apply IH. intros p1 p2 E Hp2.
    apply (Hbefore (String c p1) p2); [rewrite E; reflexivity | exact Hp2].
Qed.

Lemma re_search_no_match (here : string -> bool) (width : nat) (s : string) :
  no_match here s -> re_search here width s = None.
Proof.
  induction s as [ | c s IH]; intros H; [reflexivity | ].
  cbn [re_search].
  rewrite (H EmptyString (String c s) eq_refl).
  apply IH. intros before rest E.
  apply (H (String c before) rest). rewrite E. reflexivity.
Qed.

(** X10. [detect_year] takes the year from the leftmost session code
    ([M] or [N] and two digits) of the file name, as [20] and the two
    digits; without a session code, from the leftmost [20dd], as it
    stands; and answers [None] when the name has neither.  An answer is
    always of four characters, [20] followed by two digits. *)
Theorem detected_year_format (filename : string) :
  (forall before m c d rest,
     filename = (before ++ String m (String c (String d rest)))%string ->
     m = "M"%char \/ m = "N"%char ->
     is_digit c = true -> is_digit d = true ->
     no_match_before at_session before (String m (String c (String d rest))) ->
     detect_year filename
     = Some (String "2" (String "0" (String c (String d EmptyString))))) /\
  (forall before c d rest,
     no_match at_session filename ->
     filename
     = (before ++ String "2" (String "0" (String c (String d rest))))%string ->
     is_digit c = true -> is_digit d = true ->
     no_match_before at_year before
       (String "2" (String "0" (String c (String d rest)))) ->
     detect_year filename
     = Some (String "2" (String "0" (String c (String d EmptyString))))) /\
  (no_match at_session filename -> no_match at_year filename ->
   detect_year filename = None) /\
  (forall year,
     detect_year filename = Some year ->
     exists c d,
       year = String "2" (String "0" (String c (String d EmptyString))) /\
       is_digit c = true /\ is_digit d = true /\
       String.length year = 4%nat).
Proof.
  split; [ | split; [ | split]].
  - intros before m c d rest -> Hm Hc Hd Hfirst. unfold detect_year.
    rewrite (@re_search_leftmost at_session 3 before
               (String m (String c (String d rest)))); try assumption.
    + reflexivity.
    + discriminate.
    + cbn [at_session]. rewrite Hc, Hd.
      destruct Hm as [-> | ->]; reflexivity.
  - intros before c d rest Hnone E Hc Hd Hfirst. unfold detect_year.
    rewrite (re_search_no_match 3 Hnone). rewrite E.
    rewrite (@re_search_leftmost at_year 4 before
               (String "2" (String "0" (String c (String d rest)))));
      try assumption.
    + reflexivity.
    + discriminate.
    + cbn [at_year]. rewrite Hc, Hd. reflexivity.
  - intros Hs Hy. unfold detect_year.
    rewrite (re_search_no_match 3 Hs), (re_search_no_match 4 Hy).
    reflexivity.
  - intros year. unfold detect_year.
    destruct (re_search at_session 3 filename) as [session | ] eqn:Es.
    + intros E. injection E as <-.
      apply re_search_found in Es. destruct Es as (t & Ht & ->).
      destruct t as [ | a [ | b [ | c t]]]; try discriminate.
      simpl in Ht. apply andb_true_iff in Ht. destruct Ht as [Ht Hc].
      apply andb_true_iff in Ht. destruct Ht as [_ Hb].
      exists b, c. repeat split; assumption.
    + destruct (re_search at_year 4 filename) as [y | ] eqn:Ey;
        [ | discriminate].
      intros E. injection E as <-.
      apply re_search_found in Ey. destruct Ey as (t & Ht & ->).
      destruct t as [ | a [ | b [ | c [ | d t]]]]; try discriminate.
      simpl in Ht. apply andb_true_iff in Ht. destruct Ht as [Ht Hd].
      apply andb_true_iff in Ht. destruct Ht as [Ht Hc].
      apply andb_true_iff in Ht. destruct Ht as [Ha Hb].
      apply Ascii.eqb_eq in Ha, Hb. subst a b.
      exists c, d. repeat split; assumption.
Qed.

Lemma detected_year_format_witness :
  detect_year "Physics_2019_paper_1_M21_HL.pdf" = Some "2021".
Proof.
  apply (proj1 (detected_year_format "Physics_2019_paper_1_M21_HL.pdf")
           "Physics_2019_paper_1_" "M"%char "2"%char "1"%char "_HL.pdf");
    try reflexivity.
  - left. reflexivity.
  - intros p1 p2 E Hne.
    repeat (destruct p1 as [ | ? p1];
            [cbn [append] in E; subst p2; reflexivity
            | cbn [append] in E; injection E as <- E]).
    destruct p1 as [ | ? p1]; [ | discriminate E].
    cbn [append] in E. subst p2. contradiction.
Defined.

End MetadataFacts.

(* ================================================================== *)
(** ** The classifier's reply *)
(* ================================================================== *)

Section ReplyFacts.

Context {json : Json} {builtins : PyBuiltins}.
Local Open Scope list_scope.

Lemma lacks_cons (c x : ascii) (s : string) :
  lacks c (String x s) -> Ascii.eqb x c = false /\ lacks c s.
Proof.
  unfold lacks. simpl. intros H. split.
  - destruct (Ascii.eqb x c) eqn:E; [ | reflexivity].
    apply Ascii.eqb_eq in E. exfalso. apply H. left. exact E.
  - intros Hin. apply H. right. exact Hin.
Qed.

Lemma find_from_lacks (c : ascii) (s : string) (i : Z) :
  lacks c s -> find_from c s i = (-1)%Z.
Proof.
  revert i. induction s as [ | x s IH]; intros i H; simpl; [reflexivity | ].
  apply lacks_cons in H. destruct H as [E H]. rewrite E. apply IH, H.
Qed.

Lemma rfind_from_lacks (c : ascii) (s : string) (i best : Z) :
  lacks c s -> rfind_from c s i best = best.
Proof.
  revert i best. induction s as [ | x s IH]; intros i best H; simpl;
    [reflexivity | ].
  apply lacks_cons in H. destruct H as [E H]. rewrite E. apply IH, H.
Qed.

Lemma find_from_first (c : ascii) (pre rest : string) (i : Z) :
  lacks c pre ->
  find_from c (pre ++ String c rest)%string i
  = (i + Z.of_nat (String.length pre))%Z.
Proof.
  revert i. induction pre as [ | x pre IH]; intros i H.
  - simpl. rewrite Ascii.eqb_refl. lia.
  - apply lacks_cons in H. destruct H as [E H].
    cbn [append find_from String.length]. rewrite E, IH by exact H. lia.
Qed.

Lemma rfind_from_last (c : ascii) (body post : string) (i best : Z) :
  lacks c post ->
  rfind_from c (body ++ String c post)%string i best
  = (i + Z.of_nat (String.length body))%Z.
Proof.
  revert i best. induction body as [ | x body IH]; intros i best H.
  - simpl. rewrite Ascii.eqb_refl. rewrite rfind_from_lacks by exact H. lia.
  - cbn [append rfind_from String.length]. rewrite IH by exact H. lia.
Qed.

Lemma drop_append (a b : string) : drop (String.length a) (a ++ b)%string = b.
Proof. induction a as [ | x a IH]; simpl; [destruct b | ]; auto. Qed.

Lemma take_append (a b : string) :
  PyStr.take (String.length a) (a ++ b)%string = a.
Proof.
  induction a as [ | x a IH]; simpl; [destruct b; reflexivity | ].
  rewrite IH. reflexivity.
Qed.

Lemma parse_json_candidate_none (response : string) :
  lacks "{"%char response \/ lacks "}"%char response ->
  _parse_json_response response = PNone.
Proof.
  unfold _parse_json_response, find, rfind. intros [H | H].
  - rewrite (find_from_lacks _ H). reflexivity.
  - rewrite (rfind_from_lacks _ _ H).
    rewrite andb_false_r. reflexivity.
Qed.

(** X11. [_parse_json_response] hands to the parser the text from the
    first opening brace to the last closing brace, both included, and
    answers [None] when that text does not parse; a reply without an
    opening or without a closing brace gives [None] without any
    parsing. *)
Theorem parse_json_candidate (response : string) :
  (lacks "{"%char response \/ lacks "}"%char response ->
   _parse_json_response response = PNone) /\
  (forall pre body post,
     response = (pre ++ "{" ++ body ++ "}" ++ post)%string ->
     lacks "{"%char pre -> lacks "}"%char post ->
     _parse_json_response response
     = match json_loads ("{" ++ body ++ "}")%string with
       | Ok value => value
       | Raise _ => PNone
       end).
Proof.
  split.
  - unfold _parse_json_response, find, rfind. intros [H | H].
    + rewrite (find_from_lacks _ H). reflexivity.
    + rewrite (rfind_from_lacks _ _ H).
      rewrite andb_false_r. reflexivity.
  - intros pre body post -> Hpre Hpost.
    set (response := (pre ++ "{" ++ body ++ "}" ++ post)%string).
    assert (Hfind : find "{"%char response = Z.of_nat (String.length pre)).
    { unfold find, response.
      change (pre ++ "{" ++ body ++ "}" ++ post)%string
        with (pre ++ String "{" (body ++ String "}" post))%string.
      rewrite (find_from_first _ _ Hpre). lia. }
    assert (Hrfind : rfind "}"%char response
                     = Z.of_nat (String.length pre + 1 + String.length body)).
    { unfold rfind, response.
      replace (pre ++ "{" ++ body ++ "}" ++ post)%string
        with ((pre ++ String "{" body) ++ String "}" post)%string
        by (rewrite append_assoc'; reflexivity).
      rewrite (rfind_from_last _ _ _ Hpost).
      rewrite length_append. cbn [String.length]. lia. }
    assert (Hslice : slice response (Z.of_nat (String.length pre))
                       (Z.of_nat (String.length pre + 1 + String.length body) + 1)
                     = ("{" ++ body ++ "}")%string).
    { unfold slice, response.
      rewrite Nat2Z.id. rewrite drop_append.
      replace (Z.to_nat (Z.of_nat (String.length pre + 1 + String.length body)
                         + 1 - Z.of_nat (String.length pre)))
        with (String.length ("{" ++ body ++ "}")%string)
        by (cbn [append String.length]; rewrite length_append;
            cbn [String.length]; lia).
      replace ("{" ++ body ++ "}" ++ post)%string
        with (("{" ++ body ++ "}") ++ post)%string
        by (cbn [append]; rewrite append_assoc'; reflexivity).
      apply take_append. }
    unfold _parse_json_response. rewrite Hfind, Hrfind.
    replace (negb (Z.of_nat (String.length pre) =? -1)%Z) with true
      by (symmetry; apply negb_true_iff, Z.eqb_neq; lia).
    replace (negb (Z.of_nat (String.length pre + 1 + String.length body)
                   + 1 =? 0)%Z) with true
      by (symmetry; apply negb_true_iff, Z.eqb_neq; lia).
    cbn [andb]. rewrite Hslice. reflexivity.
Qed.

Lemma str_items_of_strings (l : list string) : str_items (map PStr l) = Ok l.
Proof.
  induction l as [ | x l IH]; simpl; [reflexivity | ].
  rewrite IH. reflexivity.
Qed.

Ltac classifier_cases q :=
  destruct (any_term_in ["ia"; "internal assessment"] q),
    (any_term_in ["exam"; "question"; "paper"; "solve"] q),
    (PyStr.contains "math" q),
    (PyStr.contains "aa" q || PyStr.contains "analysis" q),
    (PyStr.contains "ai" q || PyStr.contains "applications" q),
    (PyStr.contains "hl" q || PyStr.contains "higher level" q),
    (PyStr.contains "sl" q || PyStr.contains "standard level" q).

Lemma fallback_search_terms (query : string) :
  dict_get_default (_fallback_classification query) "search_terms"
    (PList (map PStr (firstn 5 (PyStr.split query))))
  = PList (map PStr (firstn 5 (PyStr.split query))).
Proof.
  unfold _fallback_classification.
  set (q := PyStr.lower query).
  classifier_cases q; reflexivity.
Qed.

(** X12. When the classifier's reply is unusable (the agent raised, or
    its text has no opening or no closing brace), [process_query] works
    with the fallback classification: the search query is the first five
    words of the query joined by spaces, joining never fails, the context
    is the one retrieved for the fallback classification, and it is the
    sentinel when no routed collection contributes a document. *)
Theorem unusable_reply_uses_fallback (client : ChromaClient)
    (reply : result string) (query : string) :
  unusable reply ->
  let fallback := _fallback_classification query in
  let search_query := PyStr.join " " (firstn 5 (PyStr.split query)) in
  classify reply query = PDict fallback /\
  py_join " " (dict_get_default fallback "search_terms"
                 (PList (map PStr (firstn 5 (PyStr.split query)))))
    = Ok search_query /\
  context_for client query (classify reply query)
    = retrieval_step client query fallback /\
  (agent_results client search_query fallback = [] ->
   context_for client query (classify reply query) = NO_DOCUMENTS_AGENT).
Proof.
  intros Hreply. cbv zeta.
  assert (Hc : classify reply query = PDict (_fallback_classification query)).
  { destruct reply as [data | e]; [ | reflexivity].
    unfold classify. simpl in Hreply.
    rewrite (parse_json_candidate_none Hreply). reflexivity. }
  assert (Hj : py_join " "
                 (dict_get_default (_fallback_classification query)
                    "search_terms"
                    (PList (map PStr (firstn 5 (PyStr.split query)))))
               = Ok (PyStr.join " " (firstn 5 (PyStr.split query)))).
  { rewrite fallback_search_terms. unfold py_join, bind.
    rewrite str_items_of_strings. reflexivity. }
  split; [exact Hc | split; [exact Hj | split]].
  - rewrite Hc. reflexivity.
  - intros Hempty. rewrite Hc. unfold context_for, retrieval_step,
      _retrieve_context. rewrite Hj. unfold bind. rewrite Hempty. reflexivity.
Qed.

End ReplyFacts.

Lemma unusable_reply_uses_fallback_witness :
  context_for (builtins := Samples.printing) (MemStore.client [])
    "How do I write a good Math AA IA introduction?"
    (classify (json := MoreSamples.no_parser)
       (Ok "I cannot classify this.")
       "How do I write a good Math AA IA introduction?")
  = NO_DOCUMENTS_AGENT.
Proof.
  apply (@unusable_reply_uses_fallback
           MoreSamples.no_parser
           Samples.printing (MemStore.client [])
           (Ok "I cannot classify this.")
           "How do I write a good Math AA IA introduction?").
  - left. unfold lacks. simpl. intuition discriminate.
  - reflexivity.
Defined.


(* ================================================================== *)
(** ** _parse_classification of the agent with tools *)
(* ================================================================== *)

Section ParseClassificationFacts.

Local Open Scope list_scope.

Lemma first_contained_in (names : list string) (text name : string) :
  first_contained names text = Some name ->
  In name names /\ PyStr.contains name text = true.
Proof.
  induction names as [ | n names IH]; simpl; [discriminate | ].
  destruct (PyStr.contains n text) eqn:E.
  - intros H. injection H as <-. auto.
  - intros H. destruct (IH H). auto.
Qed.

Lemma parse_classification_subject (query text : string) :
  dict_get (_parse_classification query text) "subject"
  = match first_contained subjects (PyStr.lower text) with
    | Some subject => PStr (title subject)
    | None => PNone
    end.
Proof.
  unfold _parse_classification.
  set (t := PyStr.lower text).
  destruct (PyStr.contains "ia" t || PyStr.contains "internal assessment" t),
    (PyStr.contains "exam" t || PyStr.contains "paper" t),
    (first_contained subjects t),
    (PyStr.contains "hl" t), (PyStr.contains "sl" t); reflexivity.
Qed.

(** X13. [_parse_classification] title-cases the subject it finds, so
    a reply naming [mathematics aa] or [mathematics ai] yields the
    subject [Mathematics Aa] or [Mathematics Ai]: the only subjects of
    [VALID_SUBJECTS] it can yield are [Physics] and [Chemistry].  Its
    search terms are the first five words of the query, not of the
    reply. *)
Theorem parse_classification_subjects (query text : string) :
  let c := _parse_classification query text in
  In (dict_get c "subject")
     [PNone; PStr "Mathematics Aa"; PStr "Mathematics Ai"; PStr "Physics";
      PStr "Chemistry"] /\
  (forall s, dict_get c "subject" = PStr s -> In s VALID_SUBJECTS ->
             s = "Physics" \/ s = "Chemistry") /\
  (PyStr.contains "mathematics aa" (PyStr.lower text) = true ->
   dict_get c "subject" = PStr "Mathematics Aa") /\
  dict_get c "search_terms" = PList (map PStr (firstn 5 (PyStr.split query))).
Proof.
  cbv zeta.
  assert (Hin : In (dict_get (_parse_classification query text) "subject")
                   [PNone; PStr "Mathematics Aa"; PStr "Mathematics Ai";
                    PStr "Physics"; PStr "Chemistry"]).
  { rewrite parse_classification_subject.
    destruct (first_contained subjects (PyStr.lower text)) as [name | ] eqn:E;
      [ | left; reflexivity].
    apply first_contained_in in E. destruct E as [E _].
    simpl in E. destruct E as [<- | [<- | [<- | [<- | []]]]]; simpl; tauto. }
  split; [exact Hin | split; [ | split]].
  - intros s Hs Hvalid. rewrite Hs in Hin. simpl in Hin.
    destruct Hin as [E | [E | [E | [E | [E | []]]]]];
      try discriminate; injection E as <-; auto;
      exfalso; simpl in Hvalid;
      repeat (destruct Hvalid as [Hvalid | Hvalid]; [discriminate | ]);
      exact Hvalid.
  - intros H. rewrite parse_classification_subject.
    unfold subjects, first_contained. rewrite H. reflexivity.
  - unfold _parse_classification.
    set (t := PyStr.lower text).
    destruct (PyStr.contains "ia" t || PyStr.contains "internal assessment" t),
      (PyStr.contains "exam" t || PyStr.contains "paper" t),
      (first_contained subjects t),
      (PyStr.contains "hl" t), (PyStr.contains "sl" t); reflexivity.
Qed.

Lemma parse_classification_subjects_witness :
  dict_get (_parse_classification "Explain vectors"
              "query_type: general_info, subject: Mathematics AA, level: HL")
           "subject"
  = PStr "Mathematics Aa".
Proof.
  apply (proj1 (proj2 (proj2
           (parse_classification_subjects "Explain vectors"
              "query_type: general_info, subject: Mathematics AA, level: HL")))).
  reflexivity.
Defined.

End ParseClassificationFacts.

(* ================================================================== *)
(** ** More about the retriever and the merger *)
(* ================================================================== *)

Section RetrieverShape.

Local Open Scope list_scope.

(** X14. [retrieve_by_type] raises [Unknown document type] exactly for
    a document type outside the table; for each of the five known types
    it is [retrieve_documents] on a registered collection. *)
Theorem retrieve_by_type_known_only (client : ChromaClient)
    (doc_type query : string) (f : option dict) (n : Z) :
  match assoc doc_type DOC_TYPE_TO_COLLECTION with
  | None =>
      retrieve_by_type client doc_type query f n
      = Raise (Exception ("Unknown document type: " ++ doc_type)) /\
      ~ In doc_type VALID_DOC_TYPES
  | Some collection_name =>
      retrieve_by_type client doc_type query f n
      = retrieve_documents client collection_name query f n /\
      registered collection_name = true /\
      In doc_type VALID_DOC_TYPES
  end.
Proof.
  unfold retrieve_by_type, DOC_TYPE_TO_COLLECTION, assoc, VALID_DOC_TYPES.
  destruct (String.eqb "ia_guide" doc_type) eqn:E1;
    [apply String.eqb_eq in E1; subst; simpl; tauto | ].
  destruct (String.eqb "ia_example" doc_type) eqn:E2;
    [apply String.eqb_eq in E2; subst; simpl; tauto | ].
  destruct (String.eqb "mark_scheme" doc_type) eqn:E3;
    [apply String.eqb_eq in E3; subst; simpl; tauto | ].
  destruct (String.eqb "syllabus" doc_type) eqn:E4;
    [apply String.eqb_eq in E4; subst; simpl; tauto | ].
  destruct (String.eqb "general_info" doc_type) eqn:E5;
    [apply String.eqb_eq in E5; subst; simpl; tauto | ].
  split; [reflexivity | ].
  apply String.eqb_neq in E1, E2, E3, E4, E5. simpl. intuition congruence.
Qed.

Lemma zip3_length (A B C : Type) (xs : list A) (ys : list B) (zs : list C) :
  List.length (zip3 xs ys zs)
  = Nat.min (List.length xs) (Nat.min (List.length ys) (List.length zs)).
Proof.
  revert ys zs. induction xs as [ | x xs IH]; intros [ | y ys] [ | z zs];
    cbn [zip3 List.length]; try lia.
  rewrite IH. lia.
Qed.

Lemma zip3_columns (A B C : Type) (xs : list A) (ys : list B) (zs : list C) :
  let k := List.length (zip3 xs ys zs) in
  map (fun t => fst (fst t)) (zip3 xs ys zs) = firstn k xs /\
  map (fun t => snd (fst t)) (zip3 xs ys zs) = firstn k ys /\
  map snd (zip3 xs ys zs) = firstn k zs.
Proof.
  cbv zeta. revert ys zs.
  induction xs as [ | x xs IH]; intros [ | y ys] [ | z zs]; simpl;
    try (repeat split; reflexivity).
  destruct (IH ys zs) as (H1 & H2 & H3). rewrite H1, H2, H3.
  repeat split; reflexivity.
Qed.

(** X15. [retrieve_documents] pairs the store's three lists position by
    position and stops at the shortest one: it returns as many documents
    as the shortest list holds, with contents, metadata and distances in
    the store's order.  An empty document list gives no document and no
    error, and an empty filter is the same as no filter. *)
Theorem retrieve_documents_shape (client : ChromaClient) (c q : string)
    (f : option dict) (n : Z) (coll : Collection) (r : QueryResult) :
  client c = Ok coll ->
  coll q n (where_of_filter f) = Ok r ->
  (forall docs0 t1 metas0 t2 dists0 t3,
     documents r = docs0 :: t1 -> metadatas r = metas0 :: t2 ->
     distances r = dists0 :: t3 ->
     exists docs,
       retrieve_documents client c q f n = Ok docs /\
       List.length docs
       = Nat.min (List.length docs0)
           (Nat.min (List.length metas0) (List.length dists0)) /\
       map content docs = firstn (List.length docs) docs0 /\
       map metadata docs = firstn (List.length docs) metas0 /\
       map distance docs = firstn (List.length docs) dists0) /\
  (documents r = [] \/ (exists t1, documents r = [] :: t1) ->
   retrieve_documents client c q f n = Ok []) /\
  retrieve_documents client c q (Some []) n
  = retrieve_documents client c q None n.
Proof.
  intros Hc Hq. split; [ | split].
  - intros docs0 t1 metas0 t2 dists0 t3 Hd Hm Hs.
    exists (map scored (zip3 docs0 metas0 dists0)).
    assert (Hlen : List.length (map scored (zip3 docs0 metas0 dists0))
                   = List.length (zip3 docs0 metas0 dists0))
      by apply length_map.
    destruct (zip3_columns docs0 metas0 dists0) as (H1 & H2 & H3).
    split; [ | split; [ | split; [ | split]]].
    + unfold retrieve_documents, get_collection, query_collection, bind.
      rewrite Hc, Hq, Hd, Hm, Hs. simpl index0. cbv iota.
      destruct docs0 as [ | d0 docs0]; reflexivity.
    + rewrite Hlen. apply zip3_length.
    + rewrite Hlen, <- H1, map_map. apply map_ext.
      intros [[doc meta] dist]. reflexivity.
    + rewrite Hlen, <- H2, map_map. apply map_ext.
      intros [[doc meta] dist]. reflexivity.
    + rewrite Hlen, <- H3, map_map. apply map_ext.
      intros [[doc meta] dist]. reflexivity.
  - intros Hd. unfold retrieve_documents, get_collection, query_collection, bind.
    rewrite Hc, Hq. destruct Hd as [-> | [t1 ->]]; reflexivity.
  - reflexivity.
Qed.

Lemma retrieve_documents_shape_witness :
  exists docs,
    retrieve_documents (MemStore.client Samples.ia_store) "ia_guides"
      "criteria" None 2 = Ok docs /\
    map content docs = ["Physics HL guide"; "Physics SL guide"].
Proof.
  destruct (proj1 (@retrieve_documents_shape
                     (MemStore.client Samples.ia_store) "ia_guides" "criteria"
                     None 2 _ _ eq_refl eq_refl)
              _ _ _ _ _ _ eq_refl eq_refl eq_refl)
    as (docs & Hr & _ & Hcontent & _).
  exists docs. split; [exact Hr | ].
  rewrite Hcontent. vm_compute in Hr. injection Hr as <-. reflexivity.
Defined.

(** X16. [retrieve_documents] does not turn a failure into an empty
    answer: it raises exactly when the collection cannot be got, when
    the query raises, or when the answer has documents but no metadata
    list or no distance list; the first two exceptions are passed on
    unchanged. *)
Theorem retrieve_documents_raises (client : ChromaClient) (c q : string)
    (f : option dict) (n : Z) :
  (is_ok (retrieve_documents client c q f n) = false <->
   is_ok (client c) = false \/
   exists coll,
     client c = Ok coll /\
     (is_ok (coll q n (where_of_filter f)) = false \/
      exists r d0 docs0 t1,
        coll q n (where_of_filter f) = Ok r /\
        documents r = (d0 :: docs0) :: t1 /\
        (metadatas r = [] \/ distances r = []))) /\
  (forall e, client c = Raise e ->
             retrieve_documents client c q f n = Raise e) /\
  (forall coll e,
     client c = Ok coll -> coll q n (where_of_filter f) = Raise e ->
     retrieve_documents client c q f n = Raise e).
Proof.
  unfold retrieve_documents, get_collection, query_collection, bind.
  split; [ | split].
  - destruct (client c) as [coll | e] eqn:Ec.
    + destruct (coll q n (where_of_filter f)) as [r | e] eqn:Er.
      * assert (Hno : forall P : Prop,
                  (forall d0 docs0 t1, documents r = (d0 :: docs0) :: t1 ->
                     (metadatas r = [] \/ distances r = []) -> P) ->
                  (is_ok (Ok coll) = false \/
                   exists coll',
                     Ok coll = Ok coll' /\
                     (is_ok (coll' q n (where_of_filter f)) = false \/
                      exists r' d0 docs0 t1,
                        coll' q n (where_of_filter f) = Ok r' /\
                        documents r' = (d0 :: docs0) :: t1 /\
                        (metadatas r' = [] \/ distances r' = []))) -> P).
        { intros P HP [H | (coll' & Hc & H)]; [discriminate H | ].
          injection Hc as <-. rewrite Er in H.
          destruct H as [H | (r' & d0 & docs0 & t1 & Hr & Hd & Hmd)];
            [discriminate H | ].
          injection Hr as <-. exact (HP _ _ _ Hd Hmd). }
        destruct (documents r) as [ | [ | d0 docs0] t1] eqn:Ed.
        -- split; [discriminate | ]. apply Hno. intros; discriminate.
        -- split; [discriminate | ]. apply Hno. intros; discriminate.
        -- destruct (metadatas r) as [ | metas0 t2] eqn:Em.
           ++ split; [ | reflexivity]. intros _. right. exists coll.
              split; [reflexivity | right].
              exists r, d0, docs0, t1. auto.
           ++ destruct (distances r) as [ | dists0 t3] eqn:Es.
              ** split; [ | reflexivity]. intros _. right. exists coll.
                 split; [reflexivity | right].
                 exists r, d0, docs0, t1. auto.
              ** split; [discriminate | ]. apply Hno.
                 intros ? ? ? _ [H | H]; discriminate H.
      * split; [ | reflexivity]. intros _. right. exists coll.
        split; [reflexivity | left]. rewrite Er. reflexivity.
    + split; [ | reflexivity]. intros _. left. reflexivity.
  - intros e ->. reflexivity.
  - intros coll e -> ->. reflexivity.
Qed.

Lemma retrieve_documents_length (client : ChromaClient) (c q : string)
    (f : option dict) (n : Z) (docs : list ScoredDocument) :
  honours_cap client ->
  retrieve_documents client c q f n = Ok docs ->
  (List.length docs <= Z.to_nat n)%nat.
Proof.
  intros Hcap Hr.
  destruct (retrieve_documents_ok _ _ _ _ _ Hr) as (coll & r & Hc & Hq & Hdocs).
  destruct Hdocs as [-> | (docs0 & metas0 & dists0 & t1 & t2 & t3 & Hd & _ & _ & ->)].
  - simpl. lia.
  - specialize (Hcap _ _ _ _ _ _ Hc Hq). rewrite Hd in Hcap.
    inversion Hcap as [ | ? ? Hhead _]; subst.
    rewrite length_map, zip3_length. lia.
Qed.

Lemma gather_length (fetch : string -> result (list ScoredDocument))
    (cs : list string) (k : nat) :
  (forall c docs, fetch c = Ok docs -> (List.length docs <= k)%nat) ->
  (List.length (gather fetch cs) <= List.length cs * k)%nat.
Proof.
  intros H. rewrite gather_flat_map.
  induction cs as [ | c cs IH]; simpl; [lia | ].
  rewrite length_app. unfold contribution at 1.
  destruct (fetch c) as [docs | e] eqn:E.
  - specialize (H c docs E). lia.
  - simpl. lia.
Qed.

(** X17. Under a store that returns at most [n_results] documents per
    query, a merge over a list of collections holds at most
    [n_results_per_collection] documents per collection searched: at most
    ten on the tool's path over the five collections, at most six
    gathered by the agent, of which it renders at most five. *)
Theorem merge_size_bounded (client : ChromaClient) (cs : list string)
    (q : string) (f : option dict) (n : Z) :
  honours_cap client ->
  (List.length (multi_collection_search client cs q f n)
   <= List.length cs * Z.to_nat n)%nat /\
  (List.length
     (multi_collection_search client (map snd DOC_TYPE_TO_COLLECTION) q f 2)
   <= 10)%nat /\
  (forall classification,
     (List.length (agent_results client q classification) <= 6)%nat).
Proof.
  intros Hcap.
  assert (Hmerge : forall cols k,
             (List.length (multi_collection_search client cols q f k)
              <= List.length cols * Z.to_nat k)%nat).
  { intros cols k. unfold multi_collection_search.
    rewrite (Permutation_length (sort_by_relevance_perm _)).
    apply gather_length. intros c docs Hr.
    exact (@retrieve_documents_length _ _ _ _ _ _ Hcap Hr). }
  split; [apply Hmerge | split].
  - apply (Hmerge (map snd DOC_TYPE_TO_COLLECTION) 2%Z).
  - intros classification. unfold agent_results.
    eapply Nat.le_trans.
    + apply gather_length with (k := 3%nat). intros c docs Hr.
      exact (@retrieve_documents_length _ _ _ _ _ _ Hcap Hr).
    + unfold route_collections.
      destruct (eq_str _ "ia_feedback"); [simpl; lia | ].
      destruct (eq_str _ "exam_question"); simpl; lia.
Qed.

Lemma mem_client_honours_cap (db : MemStore.table) :
  honours_cap (MemStore.client db).
Proof.
  intros name coll q n w r Hc Hq.
  destruct (mem_client_inv _ _ Hc) as [rows ->].
  unfold MemStore.collection in Hq. injection Hq as <-. simpl.
  constructor; [ | constructor].
  rewrite length_map. apply firstn_le_length.
Qed.

End RetrieverShape.

Lemma merge_size_bounded_witness :
  (List.length
     (multi_collection_search (MemStore.client Samples.full_store)
        ["ia_guides"; "syllabus"; "ib_general"] "criteria" None 1)
   <= 3 * Z.to_nat 1)%nat.
Proof.
  apply (proj1 (@merge_size_bounded (MemStore.client Samples.full_store)
                  ["ia_guides"; "syllabus"; "ib_general"] "criteria" None 1
                  (mem_client_honours_cap Samples.full_store))).
Defined.

(* ================================================================== *)
(** ** More about the tool and its formatter *)
(* ================================================================== *)

Section ToolShape.

Context {builtins : PyBuiltins}.
Local Open Scope list_scope.

Lemma known_collection_table (t c : string) :
  known_collection (Some t) = Some c ->
  t <> EmptyString /\ assoc t DOC_TYPE_TO_COLLECTION = Some c /\
  registered c = true.
Proof.
  unfold known_collection. destruct t as [ | x t]; [discriminate | ].
  cbn [PyStr.is_empty]. intros H. split; [discriminate | split; [exact H | ]].
  revert H. unfold DOC_TYPE_TO_COLLECTION, assoc.
  repeat match goal with
    | |- context [String.eqb ?a ?b] => destruct (String.eqb a b)
    end; intros E; try discriminate; injection E as <-; reflexivity.
Qed.

(** X18. For a known document type [retrieve_context] queries one
    collection only, the registered collection of that type, with the
    document type in the filter and with its [n_results]; an exception of
    the store is not caught there, it is raised by the tool; and under a
    store that honours [where] every document returned has that document
    type. *)
Theorem known_doc_type_single_collection (client : ChromaClient)
    (query t c : string) (subject level : option string) (n : Z) :
  known_collection (Some t) = Some c ->
  let metadata_filter := tool_filter (Some t) subject level in
  tool_results client query (Some t) subject level n
  = retrieve_documents client c query (Some metadata_filter) n /\
  registered c = true /\
  dict_lookup "doc_type" metadata_filter = Some (PStr t) /\
  (forall e, client c = Raise e ->
             retrieve_context client query (Some t) subject level n = Raise e) /\
  (honours_where client ->
   forall docs d,
     tool_results client query (Some t) subject level n = Ok docs ->
     In d docs -> has_entry (metadata d) ("doc_type", PStr t)).
Proof.
  intros Hk. cbv zeta.
  destruct (known_collection_table _ Hk) as (Ht & _ & Hreg).
  assert (Hres : tool_results client query (Some t) subject level n
                 = retrieve_documents client c query
                     (Some (tool_filter (Some t) subject level)) n)
    by (unfold tool_results; rewrite Hk; reflexivity).
  pose proof (@tool_filter_has_doc_type t subject level Ht) as Hkey.
  split; [exact Hres | split; [exact Hreg | split; [exact Hkey | split]]].
  - intros e He. unfold retrieve_context. rewrite Hres.
    unfold retrieve_documents, get_collection, bind. rewrite He. reflexivity.
  - intros Hh docs d Hdocs Hd. rewrite Hres in Hdocs.
    assert (Hf : tool_filter (Some t) subject level <> [])
      by (intros E; rewrite E in Hkey; discriminate).
    pose proof (@retrieved_has_entries _ _ _ _ _ _ Hh Hf Hdocs d Hd) as Hall.
    rewrite Forall_forall in Hall. apply Hall.
    apply dict_lookup_in, Hkey.
Qed.

(** X19. The filter of [retrieve_context] holds an attribute exactly
    when its argument is truthy, under the keys [subject], [level] and
    [doc_type] and no other; without any truthy argument the filter is
    empty. *)
Theorem tool_filter_entries (doc_type subject level : option string)
    (k : string) :
  dict_lookup k (tool_filter doc_type subject level)
  = (if String.eqb k "subject" then given subject
     else if String.eqb k "level" then given level
     else if String.eqb k "doc_type" then given doc_type
     else None) /\
  (tool_filter doc_type subject level = [] <->
   given subject = None /\ given level = None /\ given doc_type = None) /\
  (List.length (tool_filter doc_type subject level) <= 3)%nat.
Proof.
  unfold tool_filter, add_if_given, given.
  destruct doc_type as [[ | dc doc_type] | ], subject as [[ | sc subject] | ],
    level as [[ | lc level] | ];
    cbn [PyStr.is_empty dict_set String.eqb Ascii.eqb Bool.eqb List.length];
    (split; [ | split; [ | lia]]);
    try (split; [intros; repeat split; reflexivity || discriminate
                | intros (? & ? & ?); reflexivity || discriminate]);
    cbn [dict_lookup];
    rewrite ?(String.eqb_sym _ k);
    destruct (String.eqb k "subject") eqn:E1;
    destruct (String.eqb k "level") eqn:E2;
    destruct (String.eqb k "doc_type") eqn:E3;
    try reflexivity;
    repeat match goal with
      | H : String.eqb _ _ = true |- _ => apply String.eqb_eq in H
      end;
    subst; discriminate.
Qed.

Lemma last_segment_from_spec (s seg : string) :
  lacks "/"%char seg ->
  lacks "/"%char (PyStr.last_segment_from s seg) /\
  exists pre,
    (seg ++ s)%string = (pre ++ PyStr.last_segment_from s seg)%string /\
    (pre = EmptyString \/ exists p, pre = (p ++ "/")%string).
Proof.
  revert seg. induction s as [ | c s IH]; intros seg Hseg; simpl.
  - split; [exact Hseg | ]. exists EmptyString.
    rewrite append_empty_r. auto.
  - destruct (Ascii.eqb c "/") eqn:E.
    + apply Ascii.eqb_eq in E. subst c.
      destruct (IH EmptyString) as (Hl & pre & Hpre & Hend);
        [intros [] | ].
      split; [exact Hl | ].
      exists (seg ++ "/" ++ pre)%string. split.
      * simpl in Hpre. rewrite !append_assoc'. simpl.
        f_equal. f_equal. exact Hpre.
      * right. destruct Hend as [-> | [p ->]].
        -- exists seg. reflexivity.
        -- exists (seg ++ "/" ++ p)%string. rewrite !append_assoc'. reflexivity.
    + destruct (IH (seg ++ String c EmptyString)%string)
        as (Hl & pre & Hpre & Hend).
      * unfold lacks in *. intros Hin. apply Hseg.
        clear - Hin E. induction seg as [ | x seg IHs]; simpl in *.
        -- apply Ascii.eqb_neq in E. destruct Hin as [Hc | []]. contradiction.
        -- destruct Hin as [Hx | Hin]; [left; exact Hx | right; auto].
      * split; [exact Hl | ]. exists pre. split; [ | exact Hend].
        rewrite <- Hpre. rewrite append_assoc'. reflexivity.
Qed.

Lemma last_segment_from_plain (s seg : string) :
  lacks "/"%char s -> PyStr.last_segment_from s seg = (seg ++ s)%string.
Proof.
  revert seg. induction s as [ | c s IH]; intros seg H; simpl.
  - rewrite append_empty_r. reflexivity.
  - apply lacks_cons in H. destruct H as [E H]. rewrite E.
    rewrite IH by exact H. rewrite append_assoc'. reflexivity.
Qed.

(** X20. The source a formatter prints is the file name without its
    directories: [last_segment] is the end of the path, holds no slash,
    and what stands before it is empty or ends with a slash; a path
    without slash is printed whole. *)
Theorem source_is_basename (path : string) :
  lacks "/"%char (PyStr.last_segment path) /\
  (exists pre,
     path = (pre ++ PyStr.last_segment path)%string /\
     (pre = EmptyString \/ exists p, pre = (p ++ "/")%string)) /\
  (lacks "/"%char path -> PyStr.last_segment path = path) /\
  (forall meta,
     dict_lookup "source" meta = Some (PStr path) -> path <> EmptyString ->
     source_line meta = Ok ("Source: " ++ PyStr.last_segment path ++ nl)%string).
Proof.
  unfold PyStr.last_segment.
  destruct (@last_segment_from_spec path EmptyString) as (Hl & pre & Hpre & Hend);
    [intros [] | ].
  split; [exact Hl | split; [ | split]].
  - exists pre. auto.
  - intros H. rewrite last_segment_from_plain by exact H. reflexivity.
  - intros meta Hm Hne. unfold source_line, dict_get, dict_get_default.
    rewrite Hm. destruct path; [contradiction | reflexivity].
Qed.

(** X21. [truncate_content] never gives more than 503 characters, and
    truncating twice is truncating once. *)
Theorem truncation_idempotent (text : string) :
  (String.length (truncate_content text) <= 503)%nat /\
  truncate_content (truncate_content text) = truncate_content text.
Proof.
  unfold truncate_content.
  destruct (500 <? String.length text)%nat eqn:E.
  - apply Nat.ltb_lt in E.
    assert (Hlen : String.length (PyStr.take 500 text) = 500%nat)
      by (rewrite take_length; lia).
    assert (Hlong : (500 <? String.length (PyStr.take 500 text ++ "..."))%nat
                    = true).
    { apply Nat.ltb_lt. rewrite length_append, Hlen. simpl. lia. }
    split.
    + rewrite length_append, Hlen. simpl. lia.
    + rewrite Hlong. f_equal.
      rewrite <- Hlen at 1. apply take_append.
  - rewrite E. apply Nat.ltb_ge in E.
    split; [lia | reflexivity].
Qed.

Lemma render_entries_cons_ok (entry : nat -> ScoredDocument -> result string)
    (i : nat) (doc : ScoredDocument) (docs : list ScoredDocument)
    (text : string) :
  render_entries entry i (doc :: docs) = Ok text ->
  exists first rest, entry i doc = Ok first /\ text = (first ++ rest)%string.
Proof.
  simpl. unfold bind.
  destruct (entry i doc) as [first | e]; [ | discriminate].
  destruct (render_entries entry (S i) docs) as [rest | e]; [ | discriminate].
  intros E. injection E as <-. exists first, rest. auto.
Qed.

(** X22. The sentinel is returned only when nothing was retrieved: a
    context rendered by [retrieve_context] for at least one document
    begins with [RELEVANT CONTEXT:], one rendered by the agent begins
    with a line break, and neither is empty or equal to the sentinel of
    its formatter. *)
Theorem sentinel_only_without_documents (results : list ScoredDocument)
    (text : string) :
  (format_tool_context results = Ok text ->
   text <> EmptyString /\ (text = NO_DOCUMENTS_TOOL <-> results = []) /\
   (results <> [] -> exists rest, text = ("RELEVANT CONTEXT:" ++ rest)%string)) /\
  (results <> [] ->
   render_entries agent_entry 0 (firstn 5 (sort_by_relevance results)) = Ok text ->
   text <> NO_DOCUMENTS_AGENT /\ exists rest, text = (nl ++ rest)%string).
Proof.
  split.
  - unfold format_tool_context. destruct results as [ | d results].
    + intros E. injection E as <-.
      split; [discriminate | split; [tauto | ]]. intros H; contradiction.
    + unfold bind.
      destruct (render_entries tool_entry 0 (d :: results)) as [entries | e];
        [ | discriminate].
      intros E. injection E as <-.
      split; [discriminate | split; [ | ]].
      * split; discriminate.
      * intros _. eexists. reflexivity.
  - intros Hne Hr.
    destruct (sort_by_relevance results) as [ | d sorted] eqn:Es.
    + exfalso. apply Hne.
      pose proof (Permutation_length (sort_by_relevance_perm results)) as Hl.
      rewrite Es in Hl. destruct results; [reflexivity | discriminate].
    + cbn [firstn] in Hr.
      apply render_entries_cons_ok in Hr.
      destruct Hr as (first & rest & Hfirst & ->).
      unfold agent_entry, bind in Hfirst.
      match type of Hfirst with
      | match ?p with _ => _ end = _ => destruct p as [prov | e]
      end; [ | discriminate].
      injection Hfirst as <-.
      split; [discriminate | ].
      eexists. reflexivity.
Qed.

(** X23. [provide_ia_feedback] catches nothing and calls the imported
    [retrieve_context] twice before it builds its prompt, first for the
    criteria ([ia_guide], three results), then for the examples
    ([ia_example], two results): an exception of the first call is raised
    by the tool, so is one of the second call, and the tool returns
    exactly when both calls return.  When the imported object cannot be
    called, the tool raises for every IA text, subject and level. *)
Theorem ia_feedback_needs_both_calls
    (call : string -> option string -> option string -> option string -> Z ->
            result string)
    (ia_text subject level : string) :
  let first :=
    call (subject ++ " IA assessment criteria " ++ level)%string
      (Some "ia_guide") (Some subject) (Some level) 3%Z in
  let second :=
    call (subject ++ " IA example high score")%string
      (Some "ia_example") (Some subject) (Some level) 2%Z in
  (forall e, first = Raise e ->
             provide_ia_feedback call ia_text subject level = Raise e) /\
  (forall e, is_ok first = true -> second = Raise e ->
             provide_ia_feedback call ia_text subject level = Raise e) /\
  (is_ok (provide_ia_feedback call ia_text subject level) = true
   <-> is_ok first = true /\ is_ok second = true).
Proof.
  cbv zeta. unfold provide_ia_feedback, bind.
  destruct (call (subject ++ " IA assessment criteria " ++ level)%string
              (Some "ia_guide") (Some subject) (Some level) 3%Z)
    as [criteria | e1];
  destruct (call (subject ++ " IA example high score")%string
              (Some "ia_example") (Some subject) (Some level) 2%Z)
    as [example | e2]; simpl;
    (split; [ | split; [ | split]]);
    try discriminate; try congruence; try tauto;
    intros; try discriminate; try congruence; intuition discriminate.
Qed.

(** X24. [solve_exam_question] catches nothing and calls the imported
    [retrieve_context] for the past papers ([general_info]), then for the
    mark schemes ([mark_scheme]), and a third time, for the formula
    booklet, only when the lowercased subject contains [math]: an
    exception of any call it makes is raised by the tool, and the tool
    returns exactly when every call it makes returns.  When the imported
    object cannot be called, the tool raises for every question. *)
Theorem exam_question_needs_its_calls
    (call : string -> option string -> option string -> option string -> Z ->
            result string)
    (question subject level : string) :
  let first :=
    call (subject ++ " " ++ level ++ " exam question similar to: "
          ++ question)%string
      (Some "general_info") (Some subject) (Some level) 3%Z in
  let second :=
    call (subject ++ " " ++ level ++ " mark scheme "
          ++ PyStr.take 50 question)%string
      (Some "mark_scheme") (Some subject) (Some level) 3%Z in
  let third :=
    call "mathematics formula booklet" (Some "general_info") None None 2%Z in
  let is_math := PyStr.contains "math" (PyStr.lower subject) in
  (forall e, first = Raise e ->
             solve_exam_question call question subject level = Raise e) /\
  (forall e, is_ok first = true -> second = Raise e ->
             solve_exam_question call question subject level = Raise e) /\
  (forall e, is_ok first = true -> is_ok second = true ->
             is_math = true -> third = Raise e ->
             solve_exam_question call question subject level = Raise e) /\
  (is_ok (solve_exam_question call question subject level) = true
   <-> is_ok first = true /\ is_ok second = true /\
       (is_math = true -> is_ok third = true)).
Proof.
  cbv zeta. unfold solve_exam_question, bind.
  destruct (call (subject ++ " " ++ level ++ " exam question similar to: "
                  ++ question)%string
              (Some "general_info") (Some subject) (Some level) 3%Z)
    as [papers | e1];
  destruct (call (subject ++ " " ++ level ++ " mark scheme "
                  ++ PyStr.take 50 question)%string
              (Some "mark_scheme") (Some subject) (Some level) 3%Z)
    as [schemes | e2];
  destruct (PyStr.contains "math" (PyStr.lower subject));
  destruct (call "mathematics formula booklet" (Some "general_info")
              None None 2%Z) as [booklet | e3]; simpl;
    (split; [ | split; [ | split; [ | split]]]);
    intros; try discriminate; try congruence; try reflexivity;
    intuition discriminate.
Qed.

End ToolShape.

Lemma known_doc_type_single_collection_witness :
  tool_results (MemStore.client Samples.full_store) "criteria"
    (Some "mark_scheme") (Some "Physics") None 1
  = retrieve_documents (MemStore.client Samples.full_store) "mark_schemes"
      "criteria"
      (Some [("subject", PStr "Physics"); ("doc_type", PStr "mark_scheme")]) 1
  /\ retrieve_context (builtins := Samples.printing) (MemStore.client [])
       "criteria" (Some "mark_scheme") None None 5
     = Raise (Exception "Collection mark_schemes does not exist.").
Proof.
  split.
  - apply (proj1 (@known_doc_type_single_collection Samples.printing
                    (MemStore.client Samples.full_store) "criteria"
                    "mark_scheme" "mark_schemes" (Some "Physics") None 1
                    eq_refl)).
  - apply (proj1 (proj2 (proj2 (proj2
             (@known_doc_type_single_collection Samples.printing
                (MemStore.client []) "criteria" "mark_scheme" "mark_schemes"
                None None 5 eq_refl))))).
    reflexivity.
Defined.

Lemma ia_feedback_needs_both_calls_witness :
  provide_ia_feedback MoreSamples.not_callable "My IA" "Physics" "HL"
  = Raise (Exception "TypeError: 'Tool' object is not callable").
Proof.
  apply (proj1 (ia_feedback_needs_both_calls MoreSamples.not_callable
                  "My IA" "Physics" "HL")).
  reflexivity.
Defined.

Lemma exam_question_needs_its_calls_witness :
  solve_exam_question MoreSamples.not_callable "Find x." "Mathematics AA" "HL"
  = Raise (Exception "TypeError: 'Tool' object is not callable").
Proof.
  apply (proj1 (exam_question_needs_its_calls MoreSamples.not_callable
                  "Find x." "Mathematics AA" "HL")).
  reflexivity.
Defined.

(* ================================================================== *)
(** ** The answer: thinking blocks and degraded stages *)
(* ================================================================== *)

Section AnswerFacts.

Context {json : Json} {builtins : PyBuiltins}.
Local Open Scope list_scope.

Lemma contains_tail (needle : string) (c : ascii) (s : string) :
  PyStr.contains needle (String c s) = false ->
  PyStr.contains needle s = false.
Proof.
  destruct needle as [ | x needle]; [simpl; discriminate | ].
  cbn [PyStr.contains]. intros H. apply orb_false_iff in H. tauto.
Qed.

Lemma contains_drop (needle : string) (k : nat) (s : string) :
  needle <> EmptyString ->
  PyStr.contains needle s = false ->
  PyStr.contains needle (drop k s) = false.
Proof.
  intros Hn. revert s. induction k as [ | k IH]; intros s H.
  - destruct s; exact H.
  - destruct s as [ | c s]; [exact H | ].
    cbn [drop]. apply IH. apply contains_tail with c. exact H.
Qed.

Lemma think_scan_plain (s : string) :
  PyStr.contains THINK_CLOSE s = false -> think_scan s 0 None = (s, []).
Proof.
  induction s as [ | c s IH]; intros H; [reflexivity | ].
  cbn [think_scan].
  assert (Hd : PyStr.contains THINK_CLOSE (drop 7 (String c s)) = false)
    by (apply contains_drop; [discriminate | exact H]).
  rewrite Hd, andb_false_r.
  rewrite IH by (apply contains_tail with c; exact H). reflexivity.
Qed.


(** X26. Without a closing tag nothing is taken for thinking:
    [_parse_thinking] returns the stripped text and an empty thinking,
    also when the text holds an opening tag. *)
Theorem thinking_needs_closing_tag (text : string) :
  PyStr.contains "</think>" text = false ->
  _parse_thinking text = (strip text, "").
Proof.
  intros H. unfold _parse_thinking.
  rewrite (think_scan_plain _ H). reflexivity.
Qed.

Lemma thinking_needs_closing_tag_witness :
  _parse_thinking "  <think>never closed. The answer is 4.  "
  = ("<think>never closed. The answer is 4.", "").
Proof.
  rewrite (@thinking_needs_closing_tag
             "  <think>never closed. The answer is 4.  " eq_refl).
  reflexivity.
Defined.

Lemma prefix_empty (s : string) : prefix EmptyString s = true.
Proof. destruct s; reflexivity. Qed.

Lemma prefix_append (a b : string) : prefix a (a ++ b)%string = true.
Proof.
  induction a as [ | x a IH]; simpl; [apply prefix_empty | ].
  destruct (ascii_dec x x) as [_ | Hne]; [exact IH | contradiction].
Qed.

Lemma contains_append (needle a b : string) :
  PyStr.contains needle (a ++ needle ++ b)%string = true.
Proof.
  induction a as [ | x a IH].
  - cbn [append]. destruct (needle ++ b)%string eqn:E.
    + destruct needle; [reflexivity | discriminate].
    + cbn [PyStr.contains]. rewrite <- E. rewrite prefix_append. reflexivity.
  - cbn [append PyStr.contains]. rewrite IH. apply orb_true_r.
Qed.

Lemma think_scan_inside (t rest captured : string) :
  lacks "<"%char t ->
  think_scan (t ++ THINK_CLOSE ++ rest)%string 0 (Some captured)
  = (fst (think_scan rest 0 None),
     (captured ++ t)%string :: snd (think_scan rest 0 None)).
Proof.
  revert captured. induction t as [ | c t IH]; intros captured Ht.
  - cbn [append]. rewrite append_empty_r.
    unfold THINK_CLOSE. cbn. rewrite prefix_empty.
    destruct (think_scan rest 0 None) as [main thoughts]. reflexivity.
  - apply lacks_cons in Ht. destruct Ht as [Hc Ht].
    cbn [append think_scan].
    assert (Hp : prefix THINK_CLOSE (String c (t ++ THINK_CLOSE ++ rest)) = false).
    { unfold THINK_CLOSE. cbn [prefix].
      destruct (ascii_dec "<" c) as [E | _]; [ | reflexivity].
      subst c. rewrite Ascii.eqb_refl in Hc. discriminate. }
    rewrite Hp. rewrite IH by exact Ht.
    rewrite append_assoc'. reflexivity.
Qed.

Lemma think_scan_block (t rest : string) :
  lacks "<"%char t ->
  think_scan (THINK_OPEN ++ t ++ THINK_CLOSE ++ rest)%string 0 None
  = (fst (think_scan rest 0 None), t :: snd (think_scan rest 0 None)).
Proof.
  intros Ht.
  assert (Hc : PyStr.contains THINK_CLOSE (t ++ THINK_CLOSE ++ rest)%string
               = true) by apply contains_append.
  unfold THINK_OPEN at 1.
  cbn [append think_scan drop].
  replace (prefix THINK_OPEN
             (String "<" (String "t" (String "h" (String "i" (String "n"
                (String "k" (String ">" (t ++ THINK_CLOSE ++ rest)))))))))
    with true
    by (symmetry; exact (prefix_append THINK_OPEN (t ++ THINK_CLOSE ++ rest))).
  rewrite Hc. cbn [andb].
  destruct (t ++ THINK_CLOSE ++ rest)%string as [ | x body] eqn:E.
  - destruct t; discriminate.
  - rewrite <- E. rewrite (think_scan_inside rest EmptyString Ht). reflexivity.
Qed.

(** X27. A reply that begins with a thinking block is split into the
    block's text and the rest: for a block without [<] inside, and a rest
    without closing tag, [_parse_thinking] returns the stripped rest as
    the answer and the block's text as the thinking. *)
Theorem leading_think_block_split (thinking rest : string) :
  lacks "<"%char thinking ->
  PyStr.contains "</think>" rest = false ->
  _parse_thinking ("<think>" ++ thinking ++ "</think>" ++ rest)%string
  = (strip rest, thinking).
Proof.
  intros Ht Hrest. unfold _parse_thinking.
  change "<think>" with THINK_OPEN. change "</think>" with THINK_CLOSE.
  rewrite (think_scan_block rest Ht).
  rewrite (think_scan_plain _ Hrest). reflexivity.
Qed.

Lemma leading_think_block_split_witness :
  _parse_thinking
    ("<think>" ++ "2 + 2 is 4" ++ "</think>" ++ "  The answer is 4. ")%string
  = (strip "  The answer is 4. ", "2 + 2 is 4").
Proof.
  apply (@leading_think_block_split "2 + 2 is 4" "  The answer is 4. ").
  - unfold lacks. simpl. intuition discriminate.
  - reflexivity.
Defined.



End AnswerFacts.

